(** * Deferred-expiry pipeline of the todo backend

    A shallow embedding of the three Lambda handlers that make up the
    expiry pipeline:

    - [Router.handler]     (stream_router.py)   DynamoDB stream -> SQS FIFO
    - [Processor.handler]  (process_stream.py)  SQS -> EventBridge rules
    - [Expiry.handler]     (expiry_handler.py)  fired rule -> table + SNS

    and of the request handlers that write and read the task items
    ([CreateTask], [UpdateTask], [DeleteTask], [GetTasks]).

    The AWS services are modelled by the part of their state the handlers
    touch (table items, EventBridge rules, published SNS messages) and by
    an environment that says which service calls fail.  Python control
    flow is kept: exceptions are values of [Exc], [try]/[except] is
    [try_except], and effects made before an exception is raised stay
    in the world. *)

From stdpp Require Import base strings gmap list pretty.

Open Scope string_scope.

(** ** Python exceptions and Lambda results *)

Inductive Exc : Type :=
| AttributeError
| KeyError (key : string)
| ValueError (msg : string)
| JSONDecodeError
| ConditionalCheckFailedException
| ResourceNotFoundException
| ClientError (code : string)
| PlainException (msg : string).

Global Instance Exc_eq_dec : EqDecision Exc.
Proof. solve_decision. Defined.

(** The dictionary a handler returns: [{'statusCode': .., 'body': ..}]. *)
Record Response : Type := mkResponse { statusCode : Z; body : string }.

Global Instance Response_eq_dec : EqDecision Response.
Proof. solve_decision. Defined.

(** [print] output.  The text of a line is kept up to the JSON dumps of
    whole events; a line that reports an exception carries it. *)
Inductive LogLine : Type :=
| Info (msg : string)
| Failure (msg : string) (e : Exc).

(** ** The services *)

(** A table item is [gmap string string], as the boto3 resource API
    shows it: every attribute the handlers read or write is a string.
    The table is keyed by (PK, SK). *)

(** An SNS message handed to [sns.publish]. *)
Record Notification : Type := mkNotification {
  TopicArn : string;
  Subject : string;
  Message : string
}.

(** A target of a rule; [Input] is the JSON object it passes on. *)
Record Target : Type := mkTarget { Arn : string; Input : gmap string string }.

(** An EventBridge rule with its targets, keyed by target id. *)
Record Rule : Type := mkRule {
  ScheduleExpression : string;
  State : string;
  Description : string;
  Targets : gmap string Target
}.

Inductive EventsOp : Type :=
| PutRule | PutTargets | ListTargetsByRule | RemoveTargets | DeleteRule.

Global Instance EventsOp_eq_dec : EqDecision EventsOp.
Proof. solve_decision. Defined.

(** One request sent to EventBridge, with the rule it names. *)
Record EventsCall : Type := mkCall { call_op : EventsOp; call_rule : string }.

Global Instance EventsCall_eq_dec : EqDecision EventsCall.
Proof. solve_decision. Defined.

(** ** DynamoDB stream records *)

(** A typed attribute value of a stream image, [{'S': ..}], [{'N': ..}], ... *)
Inductive AttributeValue : Type :=
| AttrS (s : string)
| AttrN (n : string)
| AttrBOOL (b : bool)
| AttrNULL.

Global Instance AttributeValue_eq_dec : EqDecision AttributeValue.
Proof. solve_decision. Defined.

(** The ['dynamodb'] part of a stream record. *)
Record StreamImages : Type := mkImages {
  NewImage : option (gmap string AttributeValue);
  OldImage : option (gmap string AttributeValue)
}.

(** One change record of the table's stream. *)
Record StreamRecord : Type := mkStreamRecord {
  eventID : option string;
  eventName : option string;
  dynamodb : option StreamImages
}.

(** The body of a queue message: [json.dumps] of a stream record, or
    text that [json.loads] rejects. *)
Inductive Body : Type :=
| Json (r : StreamRecord)
| NotJson (text : string).

(** An entry of [sqs.send_message_batch]. *)
Record SqsEntry : Type := mkSqsEntry {
  Id : string;
  MessageBody : Body;
  MessageDeduplicationId : string;
  MessageGroupId : string
}.

(** Everything the handlers can change. *)
Record World : Type := mkWorld {
  table : gmap (string * string) (gmap string string);
  published : list Notification;
  queue : list SqsEntry;
  rules : gmap string Rule;
  api_calls : list EventsCall;
  log : list LogLine
}.

Definition set_table (t : gmap (string * string) (gmap string string)) (w : World) : World :=
  mkWorld t (published w) (queue w) (rules w) (api_calls w) (log w).
Definition set_published (p : list Notification) (w : World) : World :=
  mkWorld (table w) p (queue w) (rules w) (api_calls w) (log w).
Definition set_queue (q : list SqsEntry) (w : World) : World :=
  mkWorld (table w) (published w) q (rules w) (api_calls w) (log w).
Definition set_rules (r : gmap string Rule) (w : World) : World :=
  mkWorld (table w) (published w) (queue w) r (api_calls w) (log w).
Definition set_api_calls (c : list EventsCall) (w : World) : World :=
  mkWorld (table w) (published w) (queue w) (rules w) c (log w).
Definition set_log (l : list LogLine) (w : World) : World :=
  mkWorld (table w) (published w) (queue w) (rules w) (api_calls w) l.

(** An instant, with the calendar fields of its UTC reading that the
    cron expression uses; [timestamp] orders instants. *)
Record datetime : Type := mkDatetime {
  year : Z; month : Z; day : Z; hour : Z; minute : Z;
  timestamp : Z
}.

(** The two uses the handlers make of Python's [datetime] library.
    [fromisoformat_utc s] is [datetime.fromisoformat(s).astimezone(timezone.utc)],
    [None] when it raises [ValueError];
    [fromisoformat_strftime s] is
    [datetime.fromisoformat(s).strftime('%B %d, %Y at %I:%M %p')],
    [None] when it raises. *)
Record PyDatetime : Type := mkPyDatetime {
  fromisoformat_utc : string → option datetime;
  fromisoformat_strftime : string → option string
}.

(** What a handler reads but cannot change: its process environment,
    the clock, and the failures of the services during this invocation.
    A fault is the error code of the [ClientError] the call raises;
    [sqs_rejects] tells which batch entries (by [Id]) the queue reports
    under ['Failed'] in a request it takes.
    [other_writers] is what the other writers of the table (the CRUD
    handlers) do to it between two table calls of one invocation; it is
    the identity when the invocation runs alone. *)
Record Env : Type := mkEnv {
  EXPIRY_HANDLER_ARN : option string;
  SNS_TOPIC_ARN : option string;
  SQS_QUEUE_URL : option string;
  now : Z;
  ddb_fault : option string;
  sns_fault : option string;
  sqs_fault : option string;
  sqs_rejects : string → bool;
  events_fault : EventsOp → option string;
  other_writers : gmap (string * string) (gmap string string) → gmap (string * string) (gmap string string)
}.

(** ** Effects: state and exceptions *)

Definition Run (A : Type) : Type := World → (Exc + A) * World.

Global Instance Run_ret : MRet Run := λ A a w, (inr a, w).
Global Instance Run_bind : MBind Run := λ A B k c w,
  match c w with
  | (inr a, w') => k a w'
  | (inl e, w') => (inl e, w')
  end.

Definition raise {A : Type} (e : Exc) : Run A := λ w, (inl e, w).

(** [try: c  except Exception as e: h e] *)
Definition try_except {A : Type} (c : Run A) (h : Exc → Run A) : Run A := λ w,
  match c w with
  | (inl e, w') => h e w'
  | r => r
  end.

Definition print (l : LogLine) : Run unit := λ w,
  (inr tt, set_log (log w ++ [l]) w).

(** ** Python helpers *)

(** Truthiness of [d.get(k)] for string values: [None] and [''] are false. *)
Definition truthy (o : option string) : bool :=
  match o with
  | Some s => negb (bool_decide (s = ""))
  | None => false
  end.

(** [all([...])] *)
Definition all (l : list (option string)) : bool := forallb truthy l.

(** The string behind a [d.get(k)] known to be present. *)
Definition str (o : option string) : string := default "" o.

(** [d[k]]: [KeyError] when the key is missing. *)
Definition getitem (d : gmap string string) (k : string) : Run string :=
  match d !! k with
  | Some v => mret v
  | None => raise (KeyError k)
  end.

Definition nl : string := String (Ascii.ascii_of_nat 10) EmptyString.

(** [s.replace('Z', '+00:00')] *)
Fixpoint replace_Z (s : string) : string :=
  match s with
  | EmptyString => EmptyString
  | String c s' =>
      if bool_decide (c = Ascii.ascii_of_nat 90) then "+00:00" +:+ replace_Z s'
      else String c (replace_Z s')
  end.

(** [needle in s] *)
Fixpoint contains (needle s : string) : bool :=
  String.prefix needle s ||
  match s with
  | EmptyString => false
  | String _ s' => contains needle s'
  end.

(** [str(e)], up to the wording botocore adds around an error code. *)
Definition exc_text (e : Exc) : string :=
  match e with
  | AttributeError => "'NoneType' object has no attribute 'get'"
  | KeyError k => "'" +:+ k +:+ "'"
  | ValueError msg => msg
  | JSONDecodeError => "Expecting value"
  | ConditionalCheckFailedException =>
      "An error occurred (ConditionalCheckFailedException)"
  | ResourceNotFoundException => "An error occurred (ResourceNotFoundException)"
  | ClientError code => "An error occurred (" +:+ code +:+ ")"
  | PlainException msg => msg
  end.

(** ** The table (DynamoDB) *)

Module DynamoDB.

(** [SET #s = :expired, GSI1PK = :expired] with [:expired = 'Expired'] *)
Definition set_expired (it : gmap string string) : gmap string string :=
  <["GSI1PK" := "Expired"]> (<["status" := "Expired"]> it).

(** [Attr('status').eq('Pending')]; an absent item has no attribute. *)
Definition status_is_pending (it : option (gmap string string)) : bool :=
  bool_decide (it ≫= (.!! "status") = Some "Pending").

(** The item an update starts from: the stored one, or the bare key
    when there is none (an update creates the item). *)
Definition item_or_key (pk sk : string) (it : option (gmap string string))
  : gmap string string :=
  default (<["SK" := sk]> {[ "PK" := pk ]}) it.

(** [table.get_item(Key={'PK': pk, 'SK': sk}).get('Item')] *)
Definition get_item (env : Env) (pk sk : string)
  : Run (option (gmap string string)) := λ w,
  match ddb_fault env with
  | Some code => (inl (ClientError code), w)
  | None => (inr (table w !! (pk, sk)), w)
  end.

(** [table.update_item] with the expiry update expression and
    [ReturnValues="ALL_NEW"].  With [conditional] the request carries
    [ConditionExpression=Attr('status').eq('Pending')] and fails with
    [ConditionalCheckFailedException], writing nothing, when the stored
    item does not satisfy it. *)
Definition update_item_expired (env : Env) (conditional : bool) (pk sk : string)
  : Run (gmap string string) := λ w,
  match ddb_fault env with
  | Some code => (inl (ClientError code), w)
  | None =>
      let stored := table w !! (pk, sk) in
      if conditional && negb (status_is_pending stored)
      then (inl ConditionalCheckFailedException, w)
      else
        let it := set_expired (item_or_key pk sk stored) in
        (inr it, set_table (<[(pk, sk) := it]> (table w)) w)
  end.

End DynamoDB.

(** ** The notification channel (SNS) *)

Module SNS.

(** The error [sns.publish] raises in this environment, if any: the
    topic is not configured, or the service fails. *)
Definition publish_error (env : Env) : option Exc :=
  match SNS_TOPIC_ARN env with
  | None => Some (ClientError "ParamValidationError")
  | Some _ =>
      match sns_fault env with
      | Some code => Some (ClientError code)
      | None => None
      end
  end.

(** [sns.publish(TopicArn=.., Subject=.., Message=..)] *)
Definition publish (env : Env) (subject message : string) : Run unit := λ w,
  match publish_error env with
  | Some e => (inl e, w)
  | None =>
      (inr tt,
       set_published
         (published w ++ [mkNotification (str (SNS_TOPIC_ARN env)) subject message]) w)
  end.

End SNS.

(** ** expiry_handler.py *)

Module Expiry.
Section Expiry.

Context (dt : PyDatetime) (env : Env).

Definition format_date_for_email (iso_date_string : string) : string :=
  default iso_date_string (fromisoformat_strftime dt (replace_Z iso_date_string)).

Definition expiry_message (task_details : gmap string string) (task_id : string)
  : string :=
  "ALERT: Your To-Do Task has Expired!" +:+ nl +:+ nl +:+
  "Task: " +:+ default "Untitled Task" (task_details !! "description") +:+ nl +:+
  "Task ID: " +:+ task_id +:+ nl +:+
  "Deadline: " +:+
    format_date_for_email (default "" (task_details !! "deadline")) +:+ nl +:+ nl +:+
  "This task was due and has been automatically marked as expired. " +:+
  "Please log in to the Todo App to review your tasks.".

Definition expiry_subject (task_details : gmap string string) : string :=
  "Task Expired: " +:+ default "Untitled Task" (task_details !! "description").

(** The message [handler] publishes for the updated item [task_details]. *)
Definition expiry_notification (event task_details : gmap string string)
  : Notification :=
  mkNotification (str (SNS_TOPIC_ARN env))
    (expiry_subject task_details)
    (expiry_message task_details (str (event !! "taskId"))).

Definition handler (event : gmap string string) : Run Response :=
  print (Info "Expiry Handler invoked for event");;
  let task_id := event !! "taskId" in
  let user_id := event !! "userId" in
  let pk := event !! "pk" in
  let sk := event !! "sk" in
  if negb (all [task_id; user_id; pk; sk]) then
    print (Info "Error: Missing required task data in event");;
    mret (mkResponse 400 "Missing task data")
  else
    try_except
      (task_details ← DynamoDB.update_item_expired env true (str pk) (str sk);
       print (Info ("Task " +:+ str task_id +:+ " successfully expired. Notifying user."));;
       SNS.publish env (expiry_subject task_details)
                       (expiry_message task_details (str task_id));;
       print (Info ("Expiry notification sent for Task " +:+ str task_id)))
      (λ e,
         match e with
         | ConditionalCheckFailedException =>
             print (Info ("Task " +:+ str task_id +:+
                          " status was not 'Pending'. No update performed and no email sent."))
         | _ =>
             print (Failure ("Error processing task expiry for " +:+ str task_id) e);;
             raise e
         end);;
    mret (mkResponse 200 "Expiry process completed.").

End Expiry.
End Expiry.

(** ** The delivery queue (SQS FIFO) *)

Module SQS.

(** The most entries one [send_message_batch] request may carry. *)
Definition MAX_BATCH_ENTRIES : nat := 10.

(** What a FIFO queue keeps of the entries it accepted: an entry whose
    [MessageDeduplicationId] is in [seen] (the ids of the messages the
    queue holds and of the earlier entries of the request) is answered
    as sent and dropped. *)
Fixpoint deduplicate (seen : list string) (entries : list SqsEntry)
  : list SqsEntry :=
  match entries with
  | [] => []
  | e :: rest =>
      if bool_decide (MessageDeduplicationId e ∈ seen)
      then deduplicate seen rest
      else e :: deduplicate (MessageDeduplicationId e :: seen) rest
  end.

(** [sqs.send_message_batch(QueueUrl=.., Entries=entries)] on a FIFO
    queue.  The request is refused as a whole, with nothing enqueued,
    when the service fails ([sqs_fault]), when it carries no entry, more
    than [MAX_BATCH_ENTRIES] entries, or two entries with the same [Id].
    Otherwise the answer lists the ids of the entries the queue reports
    as failed; the others are appended to the queue in the order of the
    batch, but for those the queue deduplicates.  The [queue] of the
    world is the messages of one deduplication interval. *)
Definition send_message_batch (env : Env) (entries : list SqsEntry)
  : Run (list string) := λ w,
  match sqs_fault env with
  | Some code => (inl (ClientError code), w)
  | None =>
      if bool_decide (entries = []) then
        (inl (ClientError "AWS.SimpleQueueService.EmptyBatchRequest"), w)
      else if Nat.ltb MAX_BATCH_ENTRIES (length entries) then
        (inl (ClientError "AWS.SimpleQueueService.TooManyEntriesInBatchRequest"), w)
      else if negb (bool_decide (NoDup (Id <$> entries))) then
        (inl (ClientError "AWS.SimpleQueueService.BatchEntryIdsNotDistinct"), w)
      else
        let accepted := filter (λ e, sqs_rejects env (Id e) = false) entries in
        let failed := Id <$> filter (λ e, sqs_rejects env (Id e) = true) entries in
        let seen := MessageDeduplicationId <$> queue w in
        (inr failed, set_queue (queue w ++ deduplicate seen accepted) w)
  end.

End SQS.

(** ** The trigger registry (EventBridge) *)

Module Events.

(** Every request is recorded, then fails if the service does. *)
Definition request (env : Env) (op : EventsOp) (rule : string) : Run unit := λ w,
  let w' := set_api_calls (api_calls w ++ [mkCall op rule]) w in
  match events_fault env op with
  | Some code => (inl (ClientError code), w')
  | None => (inr tt, w')
  end.

(** The rule store behind the requests. *)
Definition lookup_rule (name : string) : Run Rule := λ w,
  match rules w !! name with
  | None => (inl ResourceNotFoundException, w)
  | Some r => (inr r, w)
  end.

Definition store_rule (name : string) (r : Rule) : Run unit := λ w,
  (inr tt, set_rules (<[name := r]> (rules w)) w).

Definition drop_rule (name : string) : Run unit := λ w,
  (inr tt, set_rules (delete name (rules w)) w).

Definition targets_of (name : string) : Run (gmap string Target) := λ w,
  (inr (default ∅ (Targets <$> rules w !! name)), w).

Definition with_targets (r : Rule) (ts : gmap string Target) : Rule :=
  mkRule (ScheduleExpression r) (State r) (Description r) ts.

(** [events.put_rule]: creates the rule, or updates it keeping its targets. *)
Definition put_rule (env : Env) (name schedule state description : string)
  : Run unit :=
  request env PutRule name;;
  targets ← targets_of name;
  store_rule name (mkRule schedule state description targets).

(** [events.put_targets] with one target. *)
Definition put_targets (env : Env) (rule : string) (id : string) (t : Target)
  : Run unit :=
  request env PutTargets rule;;
  r ← lookup_rule rule;
  store_rule rule (with_targets r (<[id := t]> (Targets r))).

(** [events.list_targets_by_rule(Rule=..)['Targets']], as target ids. *)
Definition list_targets_by_rule (env : Env) (rule : string) : Run (list string) :=
  request env ListTargetsByRule rule;;
  r ← lookup_rule rule;
  mret ((map_to_list (Targets r)).*1).

(** [events.remove_targets(Rule=.., Ids=ids)] *)
Definition remove_targets (env : Env) (rule : string) (ids : list string)
  : Run unit :=
  request env RemoveTargets rule;;
  r ← lookup_rule rule;
  store_rule rule (with_targets r (foldr delete (Targets r) ids)).

(** [events.delete_rule(Name=..)]: refused while the rule has targets;
    deleting a rule that does not exist succeeds. *)
Definition delete_rule (env : Env) (name : string) : Run unit :=
  request env DeleteRule name;;
  targets ← targets_of name;
  if bool_decide (targets = ∅) then drop_rule name
  else raise (ClientError "ValidationException").

End Events.

(** ** stream_router.py *)

Module Router.

Record StreamEvent : Type := mkStreamEvent { Records : list StreamRecord }.

Section Router.

Context (env : Env).

(** The body of the [for record in event['Records']] loop. *)
Definition entry_of (record : StreamRecord) : Exc + SqsEntry :=
  let message_body := Json record in
  match eventID record with
  | None => inl (KeyError "eventID")
  | Some message_id =>
      inr (mkSqsEntry message_id message_body message_id "TaskProcessingGroup")
  end.

Fixpoint build_entries (records : list StreamRecord) (entries : list SqsEntry)
  : Exc + list SqsEntry :=
  match records with
  | [] => inr entries
  | record :: rest =>
      match entry_of record with
      | inl e => inl e
      | inr entry => build_entries rest (entries ++ [entry])
      end
  end.

Definition handler (event : StreamEvent) : Run Response :=
  if negb (truthy (SQS_QUEUE_URL env)) then
    print (Info "SQS_QUEUE_URL environment variable is not set.");;
    raise (ValueError "SQS Queue URL missing.")
  else
    match build_entries (Records event) [] with
    | inl e => raise e
    | inr entries =>
        if bool_decide (entries = []) then
          print (Info "No records to send.");;
          mret (mkResponse 200 "No records processed.")
        else
          try_except
            (failed ← SQS.send_message_batch env entries;
             if negb (bool_decide (failed = [])) then
               print (Info "Failed to send some messages");;
               raise (PlainException "Failed to send all messages to SQS.")
             else
               print (Info ("Successfully routed " +:+ pretty (length entries) +:+
                            " records to SQS."));;
               mret (mkResponse 200 "Messages routed successfully."))
            (λ e,
               print (Failure "Error sending batch to SQS" e);;
               raise e)
    end.

End Router.
End Router.

(** ** process_stream.py *)

Module Processor.

(** A message as the queue hands it over. *)
Record SqsRecord : Type := mkSqsRecord { body : Body }.

(** The event of an invocation: the keys the handler probes.  [fields]
    holds the top-level string values ([taskId], [userId], [pk], [sk]),
    [Records] the batch of an SQS invocation. *)
Record LambdaEvent : Type := mkLambdaEvent {
  source : option string;
  detail : option (gmap string string);
  fields : gmap string string;
  Records : option (list SqsRecord)
}.

Definition RULE_NAME_PREFIX : string := "TodoAppTaskExpiry".

(** [dynamodb_item.get(k, {}).get('S')] *)
Definition get_S (dynamodb_item : gmap string AttributeValue) (k : string)
  : option string :=
  match dynamodb_item !! k with
  | Some (AttrS s) => Some s
  | _ => None
  end.

(** One entry of the comprehension that filters out [None] values. *)
Definition keep (k : string) (v : option string) (task : gmap string string)
  : gmap string string :=
  match v with
  | Some s => <[k := s]> task
  | None => task
  end.

(** The dictionary [get_task_details] builds from an image. *)
Definition task_view (item : gmap string AttributeValue) : gmap string string :=
  keep "PK" (get_S item "PK")
  (keep "SK" (get_S item "SK")
  (keep "taskId" (get_S item "taskId")
  (keep "userId" (get_S item "userId")
  (keep "description" (get_S item "description")
  (keep "status" (get_S item "status")
  (keep "deadline" (get_S item "deadline") ∅)))))).

(** [get_task_details]: on an absent image ([None]) the first [.get]
    raises [AttributeError]. *)
Definition get_task_details (dynamodb_item : option (gmap string AttributeValue))
  : Run (gmap string string) :=
  match dynamodb_item with
  | None => raise AttributeError
  | Some item => mret (task_view item)
  end.

Definition rule_name_of (task_id : string) : string :=
  RULE_NAME_PREFIX +:+ "-" +:+ task_id.

Definition cron_of (d : datetime) : string :=
  "cron(" +:+ pretty (minute d) +:+ " " +:+ pretty (hour d) +:+ " " +:+
  pretty (day d) +:+ " " +:+ pretty (month d) +:+ " ? " +:+ pretty (year d) +:+ ")".

Section Processor.

Context (dt : PyDatetime) (env : Env).

Definition schedule_expiry_event (task : gmap string string) : Run unit :=
  if negb (truthy (EXPIRY_HANDLER_ARN env)) then
    print (Info "EXPIRY_HANDLER_ARN not set. Cannot schedule event.")
  else
    deadline ← getitem task "deadline";
    deadline_dt ← match fromisoformat_utc dt deadline with
                  | Some d => mret d
                  | None => raise (ValueError "Invalid isoformat string")
                  end;
    if bool_decide (timestamp deadline_dt ≤ now env)%Z then
      task_id ← getitem task "taskId";
      print (Info ("Task " +:+ task_id +:+ " deadline is in the past. Skipping schedule."))
    else
      let cron_expression := cron_of deadline_dt in
      task_id ← getitem task "taskId";
      let rule_name := rule_name_of task_id in
      user_id ← getitem task "userId";
      pk ← getitem task "PK";
      sk ← getitem task "SK";
      let input_data : gmap string string :=
        <["sk" := sk]> (<["pk" := pk]> (<["userId" := user_id]> {[ "taskId" := task_id ]})) in
      try_except
        (Events.put_rule env rule_name cron_expression "ENABLED"
           ("Expires task " +:+ task_id +:+ " for user " +:+ user_id +:+ ".");;
         Events.put_targets env rule_name "ExpiryLambdaTarget"
           (mkTarget (str (EXPIRY_HANDLER_ARN env)) input_data);;
         print (Info ("Successfully scheduled expiry for Task " +:+ task_id +:+
                      " at " +:+ cron_expression)))
        (λ e, print (Failure ("Error scheduling event for task " +:+ task_id) e)).

Definition cancel_expiry_event (task_id : string) : Run unit :=
  let rule_name := rule_name_of task_id in
  try_except
    (targets ← Events.list_targets_by_rule env rule_name;
     (if negb (bool_decide (targets = [])) then
        Events.remove_targets env rule_name targets
      else mret tt);;
     Events.delete_rule env rule_name;;
     print (Info ("Successfully cancelled expiry event for Task " +:+ task_id)))
    (λ e,
       match e with
       | ResourceNotFoundException =>
           print (Info ("Rule " +:+ rule_name +:+
                        " not found (may have already been deleted)"))
       | _ =>
           if negb (contains "ResourceNotFoundException" (exc_text e)) then
             print (Failure ("Error cancelling event for task " +:+ task_id) e)
           else mret tt
       end).

Definition format_date_for_email (iso_date_string : string) : string :=
  default iso_date_string (fromisoformat_strftime dt (replace_Z iso_date_string)).

(** The other writers of the table take their turn. *)
Definition interleave : Run unit := λ w,
  (inr tt, set_table (other_writers env (table w)) w).

Definition expire_and_notify_task (task_id user_id pk sk : string) : Run unit :=
  try_except
    (task ← DynamoDB.get_item env pk sk;
     interleave;;
     match task with
     | None =>
         (* [not task] holds; formatting the message calls [task.get] on [None] *)
         raise AttributeError
     | Some task =>
         status ← (if bool_decide (task = ∅) then mret "" else getitem task "status");
         if bool_decide (task = ∅) || negb (bool_decide (status = "Pending")) then
           print (Info ("Task " +:+ task_id +:+
                        " either not found or already processed (Status: " +:+
                        default "N/A" (task !! "status") +:+ ")."))
         else
           DynamoDB.update_item_expired env false pk sk;;
           print (Info ("Task " +:+ task_id +:+ " status updated to Expired."));;
           (match SNS_TOPIC_ARN env with
            | Some _ => mret tt
            | None => raise (KeyError "SNS_TOPIC_ARN")
            end);;
           let formatted_deadline :=
             format_date_for_email (default "" (task !! "deadline")) in
           let message :=
             "ALERT: Your To-Do Task has Expired!" +:+ nl +:+ nl +:+
             "Task: " +:+ default "Untitled Task" (task !! "description") +:+ nl +:+
             "Task ID: " +:+ task_id +:+ nl +:+
             "Deadline: " +:+ formatted_deadline +:+ nl +:+ nl +:+
             "This task was due and has been automatically marked as expired. " +:+
             "Please log in to the Todo App to review your tasks." in
           description ← getitem task "description";
           SNS.publish env ("Task Expired: " +:+ description) message;;
           print (Info ("Expiry notification sent for Task " +:+ task_id +:+ "."))
     end)
    (λ e, print (Failure ("Error during task expiry process for " +:+ task_id) e)).

(** [json.loads(record['body'])] *)
Definition json_loads (b : Body) : Run StreamRecord :=
  match b with
  | Json r => mret r
  | NotJson _ => raise JSONDecodeError
  end.

(** [ddb_event['dynamodb']] *)
Definition images_of (ddb_event : StreamRecord) : Run StreamImages :=
  match dynamodb ddb_event with
  | Some d => mret d
  | None => raise (KeyError "dynamodb")
  end.

(** [d.get(k) if d else None] *)
Definition get_if (d : option (gmap string string)) (k : string) : option string :=
  match d with
  | Some d => if bool_decide (d = ∅) then None else d !! k
  | None => None
  end.

(** The part of the loop body after the images are read: [None] for
    [old_task] is Python's [None]. *)
Definition dispatch (event_name : option string)
    (task : gmap string string) (old_task : option (gmap string string))
  : Run unit :=
  if bool_decide (task = ∅) || negb (String.prefix "TASK#" (default "" (task !! "SK")))
  then mret tt
  else
    task_id ← getitem task "taskId";
    is_pending_insert ←
      (if bool_decide (event_name = Some "INSERT") then
         status ← getitem task "status";
         mret (bool_decide (status = "Pending"))
       else mret false);
    if (is_pending_insert : bool) then
      schedule_expiry_event task
    else if bool_decide (event_name = Some "MODIFY") then
      let new_status := task !! "status" in
      let old_status := get_if old_task "status" in
      if bool_decide (old_status = Some "Pending") &&
         bool_decide (new_status ∈ [Some "Completed"; Some "Expired"])
      then cancel_expiry_event task_id
      else if bool_decide (new_status = Some "Pending") &&
              bool_decide (old_status = Some "Pending")
      then
        let old_deadline := get_if old_task "deadline" in
        let new_deadline := task !! "deadline" in
        if truthy old_deadline && truthy new_deadline &&
           negb (bool_decide (old_deadline = new_deadline))
        then
          print (Info ("Deadline changed for task " +:+ task_id +:+
                       ". Rescheduling expiry event."));;
          cancel_expiry_event task_id;;
          schedule_expiry_event task
        else mret tt
      else mret tt
    else if bool_decide (event_name = Some "REMOVE") then
      cancel_expiry_event task_id
    else mret tt.

(** The body of [for record in event['Records']], with its [try]. *)
Definition process_record (record : SqsRecord) : Run unit :=
  try_except
    (ddb_event ← json_loads (body record);
     let event_name := eventName ddb_event in
     if bool_decide (event_name = Some "INSERT") then
       images ← images_of ddb_event;
       task ← get_task_details (NewImage images);
       dispatch event_name task None
     else if bool_decide (event_name = Some "MODIFY") then
       images ← images_of ddb_event;
       task ← get_task_details (NewImage images);
       old_task ← get_task_details (OldImage images);
       dispatch event_name task (Some old_task)
     else if bool_decide (event_name = Some "REMOVE") then
       images ← images_of ddb_event;
       task ← get_task_details (OldImage images);
       dispatch event_name task None
     else mret tt)
    (λ e,
       print (Failure "Error processing SQS record" e);;
       raise e).

Fixpoint process_records (records : list SqsRecord) : Run unit :=
  match records with
  | [] => mret tt
  | record :: rest => process_record record;; process_records rest
  end.

Definition handler (event : LambdaEvent) : Run Response :=
  print (Info "Raw event received");;
  if bool_decide (source event = Some "aws.events") then
    print (Info "Invoked by EventBridge Rule for Task Expiry.");;
    let task_data :=
      match detail event with
      | Some d => if bool_decide (d = ∅) then fields event else d
      | None => fields event
      end in
    print (Info "Task data extracted");;
    let task_id := task_data !! "taskId" in
    let user_id := task_data !! "userId" in
    let pk := task_data !! "pk" in
    let sk := task_data !! "sk" in
    if negb (all [task_id; user_id; pk; sk]) then
      print (Info "Missing required task data");;
      mret (mkResponse 400 "Missing task data")
    else
      expire_and_notify_task (str task_id) (str user_id) (str pk) (str sk);;
      mret (mkResponse 200 "Expiry check complete.")
  else
    records ← match Records event with
              | Some rs => mret rs
              | None => raise (KeyError "Records")
              end;
    print (Info ("Invoked by SQS with " +:+ pretty (length records) +:+
                 " records from DynamoDB Stream."));;
    process_records records;;
    mret (mkResponse 200 "Stream processing complete.").

End Processor.
End Processor.

(** ** Observations used in the statements *)

(** The status stored for a key: [None] when there is no item (or the
    item has no status). *)
Definition stored_status (w : World) (pk sk : string) : option string :=
  table w !! (pk, sk) ≫= (.!! "status").

(** The check both expiry entry points make on their payload. *)
Definition payload_ok (event : gmap string string) : bool :=
  all [event !! "taskId"; event !! "userId"; event !! "pk"; event !! "sk"].

Global Arguments stored_status : simpl never.
Global Arguments payload_ok : simpl never.

(** The services are in the same state; only the log may differ. *)
Definition same_services (w w' : World) : Prop :=
  table w' = table w ∧ published w' = published w ∧ queue w' = queue w ∧
  rules w' = rules w ∧ api_calls w' = api_calls w.

(** The task a change record belongs to: the [taskId] of its new image,
    or of its old image when there is no new one. *)
Definition task_id_of_record (r : StreamRecord) : option string :=
  images ← dynamodb r;
  image ← match NewImage images with
          | Some i => Some i
          | None => OldImage images
          end;
  Processor.get_S image "taskId".

(** How an enqueued entry relates to the record it carries. *)
Definition routed (r : StreamRecord) (e : SqsEntry) : Prop :=
  eventID r = Some (MessageDeduplicationId e) ∧
  Id e = MessageDeduplicationId e ∧
  MessageBody e = Json r ∧
  MessageGroupId e = "TaskProcessingGroup".

(** The live trigger of a task: the rule under the task's name. *)
Definition trigger_of (w : World) (task_id : string) : option Rule :=
  rules w !! Processor.rule_name_of task_id.

(** The payload and the rule [schedule_expiry_event] registers for a task
    whose deadline reads [d] in UTC. *)
Definition trigger_payload (task_id user_id pk sk : string) : gmap string string :=
  <["sk" := sk]> (<["pk" := pk]> (<["userId" := user_id]> {[ "taskId" := task_id ]})).

Definition scheduled_rule (env : Env) (d : datetime) (task_id user_id pk sk : string)
  : Rule :=
  mkRule (Processor.cron_of d) "ENABLED"
    ("Expires task " +:+ task_id +:+ " for user " +:+ user_id +:+ ".")
    {[ "ExpiryLambdaTarget" :=
         mkTarget (str (EXPIRY_HANDLER_ARN env)) (trigger_payload task_id user_id pk sk) ]}.

(** A queue message carrying a change record with the given images. *)
Definition message (event_id : option string) (name : string)
    (new old : option (gmap string AttributeValue)) : Processor.SqsRecord :=
  Processor.mkSqsRecord
    (Json (mkStreamRecord event_id (Some name) (Some (mkImages new old)))).

(** The requests that schedule, and those that cancel. *)
Definition is_schedule_op (op : EventsOp) : bool :=
  bool_decide (op = PutRule ∨ op = PutTargets).
Definition is_cancel_op (op : EventsOp) : bool :=
  bool_decide (op = ListTargetsByRule ∨ op = RemoveTargets ∨ op = DeleteRule).

(** ** Sample data

    A small deployment used to run the handlers on concrete inputs. *)

Module Samples.

(** The datetime library on the three deadlines used below, as Python
    computes them. *)
Definition clock : PyDatetime :=
  {| fromisoformat_utc s :=
       if bool_decide (s = "2030-01-01T10:30:00+00:00")
       then Some (mkDatetime 2030 1 1 10 30 1893493800)
       else if bool_decide (s = "2030-06-15T08:05:00+00:00")
       then Some (mkDatetime 2030 6 15 8 5 1907741100)
       else if bool_decide (s = "2020-01-01T00:00:00+00:00")
       then Some (mkDatetime 2020 1 1 0 0 1577836800)
       else None;
     fromisoformat_strftime s :=
       if bool_decide (s = "2030-01-01T10:30:00+00:00")
       then Some "January 01, 2030 at 10:30 AM"
       else if bool_decide (s = "2030-06-15T08:05:00+00:00")
       then Some "June 15, 2030 at 08:05 AM"
       else if bool_decide (s = "2020-01-01T00:00:00+00:00")
       then Some "January 01, 2020 at 12:00 AM"
       else None |}.

(** Every service up, the clock at 2025-01-01T00:00:00Z, nobody else
    writing to the table. *)
Definition env : Env :=
  {| EXPIRY_HANDLER_ARN := Some "arn:aws:lambda:expiry";
     SNS_TOPIC_ARN := Some "arn:aws:sns:topic";
     SQS_QUEUE_URL := Some "https://sqs/queue.fifo";
     now := 1735689600;
     ddb_fault := None;
     sns_fault := None;
     sqs_fault := None;
     sqs_rejects := λ _, false;
     events_fault := λ _, None;
     other_writers := λ t, t |}.

Definition env_sns_down : Env :=
  {| EXPIRY_HANDLER_ARN := Some "arn:aws:lambda:expiry";
     SNS_TOPIC_ARN := Some "arn:aws:sns:topic";
     SQS_QUEUE_URL := Some "https://sqs/queue.fifo";
     now := 1735689600;
     ddb_fault := None;
     sns_fault := Some "InternalError";
     sqs_fault := None;
     sqs_rejects := λ _, false;
     events_fault := λ _, None;
     other_writers := λ t, t |}.

Definition env_events_down : Env :=
  {| EXPIRY_HANDLER_ARN := Some "arn:aws:lambda:expiry";
     SNS_TOPIC_ARN := Some "arn:aws:sns:topic";
     SQS_QUEUE_URL := Some "https://sqs/queue.fifo";
     now := 1735689600;
     ddb_fault := None;
     sns_fault := None;
     sqs_fault := None;
     sqs_rejects := λ _, false;
     events_fault := λ _, Some "InternalException";
     other_writers := λ t, t |}.

(** The item [create_task.py] stores for task [t1] of user [u1], with
    the status [update_task.py] may have set since. *)
Definition item (status deadline : string) : gmap string string :=
  <["PK" := "USER#u1"]> (<["SK" := "TASK#t1"]> (<["GSI1PK" := "Pending"]>
  (<["GSI1SK" := deadline]> (<["taskId" := "t1"]> (<["userId" := "u1"]>
  (<["description" := "Buy milk"]> (<["status" := status]>
  {[ "deadline" := deadline ]}))))))).

Definition world_of (t : gmap (string * string) (gmap string string)) : World :=
  mkWorld t [] [] ∅ [] [].

Definition pending_world : World :=
  world_of {[ ("USER#u1", "TASK#t1") := item "Pending" "2030-01-01T10:30:00+00:00" ]}.

Definition completed_world : World :=
  world_of {[ ("USER#u1", "TASK#t1") := item "Completed" "2030-01-01T10:30:00+00:00" ]}.

Definition empty_world : World := world_of ∅.

(** The payload [schedule_expiry_event] attaches to the rule of [t1]. *)
Definition payload : gmap string string :=
  <["sk" := "TASK#t1"]> (<["pk" := "USER#u1"]> (<["userId" := "u1"]>
  {[ "taskId" := "t1" ]})).

(** The stream image of the item. *)
Definition image (status deadline : string) : gmap string AttributeValue :=
  AttrS <$> item status deadline.

(** What [update_task.py] does to the table when the owner of [t1]
    sets its status: [SET #s = :status] on the item. *)
Definition user_sets_status (status : string)
    (t : gmap (string * string) (gmap string string))
  : gmap (string * string) (gmap string string) :=
  <[("USER#u1", "TASK#t1") :=
      <["status" := status]>
        (default (<["SK" := "TASK#t1"]> {[ "PK" := "USER#u1" ]})
                 (t !! ("USER#u1", "TASK#t1")))]> t.

(** The owner completes [t1] while an invocation is between its read
    and its write. *)
Definition env_racing_completion : Env :=
  {| EXPIRY_HANDLER_ARN := Some "arn:aws:lambda:expiry";
     SNS_TOPIC_ARN := Some "arn:aws:sns:topic";
     SQS_QUEUE_URL := Some "https://sqs/queue.fifo";
     now := 1735689600;
     ddb_fault := None;
     sns_fault := None;
     sqs_fault := None;
     sqs_rejects := λ _, false;
     events_fault := λ _, None;
     other_writers := user_sets_status "Completed" |}.

Definition change (name : string)
    (new old : option (gmap string AttributeValue)) : StreamRecord :=
  mkStreamRecord (Some "e1") (Some name) (Some (mkImages new old)).

Definition sqs_event (r : StreamRecord) : Processor.LambdaEvent :=
  Processor.mkLambdaEvent None None ∅ (Some [Processor.mkSqsRecord (Json r)]).

(** The firing of a rule as [Processor.handler] recognises it. *)
Definition fired_event : Processor.LambdaEvent :=
  Processor.mkLambdaEvent (Some "aws.events") None payload None.

Definition d2030 : string := "2030-01-01T10:30:00+00:00".
Definition d2030b : string := "2030-06-15T08:05:00+00:00".
Definition d2020 : string := "2020-01-01T00:00:00+00:00".

(** A world in which the trigger of [t1] for [d2030] is live. *)
Definition scheduled_world : World :=
  mkWorld {[ ("USER#u1", "TASK#t1") := item "Pending" d2030 ]} [] []
    {[ Processor.rule_name_of "t1" :=
         mkRule "cron(30 10 1 1 ? 2030)" "ENABLED" "Expires task t1 for user u1."
           {[ "ExpiryLambdaTarget" := mkTarget "arn:aws:lambda:expiry" payload ]} ]}
    [] [].

End Samples.


(** ** The request handlers

    create_task.py, update_task.py, delete_task.py and get_tasks.py write
    and read the items whose changes the pipeline above consumes. *)

Module Api.

(** What the handlers read of an API Gateway event.  [json_body] is
    [json.loads(event['body'])], a JSON object with string values, [None]
    when reading or decoding the body raises; [sub] is
    [event['requestContext']['authorizer']['claims']['sub']] and
    [path_task_id] is [event['pathParameters']['taskId']], [None] when a
    key on the way is missing. *)
Record ApiEvent : Type := mkApiEvent {
  json_body : option (gmap string string);
  sub : option string;
  path_task_id : option string
}.

(** The ['body'] of a response, before [json.dumps]. *)
Inductive ResponseBody : Type :=
| JsonMessage (message : string)
| JsonMessageError (message error : string)
| JsonError (error : string)
| JsonItem (item : gmap string string)
| JsonItems (items : list (gmap string string))
| NoContent.

Record HttpResponse : Type := mkHttpResponse {
  http_status : Z;
  http_headers : gmap string string;
  http_body : ResponseBody
}.

Definition cors_headers : gmap string string :=
  <["Access-Control-Allow-Origin" := "*"]>
  (<["Access-Control-Allow-Methods" := "GET, POST, PUT, DELETE, OPTIONS"]>
  (<["Access-Control-Allow-Headers" :=
       "Content-Type, X-Amz-Date, Authorization, X-Api-Key, X-Amz-Security-Token"]>
  {[ "Content-Type" := "application/json" ]})).

Definition respond (status : Z) (b : ResponseBody) : HttpResponse :=
  mkHttpResponse status cors_headers b.

(** What one request gets from outside the table: the value of
    [uuid.uuid4()], the value of [datetime.now(timezone.utc).isoformat()]
    and the TABLE_NAME variable that get_tasks.py reads at each call. *)
Record RequestEnv : Type := mkRequestEnv {
  uuid4 : string;
  utcnow_isoformat : string;
  TABLE_NAME : option string
}.

(** Python's datetime objects, as far as the request handlers use them:
    [fromisoformat] is [None] when it raises ValueError. *)
Record PyDatetimeObjects : Type := mkPyDatetimeObjects {
  dt_object : Type;
  fromisoformat : string → option dt_object;
  tzinfo_is_None : dt_object → bool;
  replace_tzinfo_utc : dt_object → dt_object;
  astimezone_utc : dt_object → dt_object;
  isoformat : dt_object → string
}.

Definition json_loads_body (event : ApiEvent) : Run (gmap string string) :=
  match json_body event with
  | Some b => mret b
  | None => raise JSONDecodeError
  end.

Definition claims_sub (event : ApiEvent) : Run string :=
  match sub event with
  | Some s => mret s
  | None => raise (KeyError "sub")
  end.

Definition path_parameter (event : ApiEvent) : Run string :=
  match path_task_id event with
  | Some s => mret s
  | None => raise (KeyError "taskId")
  end.

(** [s.endswith('Z')] *)
Fixpoint endswith_Z (s : string) : bool :=
  match s with
  | EmptyString => false
  | String c EmptyString => bool_decide (c = Ascii.ascii_of_nat 90)
  | String _ s' => endswith_Z s'
  end.

End Api.

(** The table calls of the request handlers. *)
Module TableOps.

(** [table.put_item(Item=item)] for an item with the given key. *)
Definition put_item (env : Env) (pk sk : string) (item : gmap string string)
  : Run unit := λ w,
  match ddb_fault env with
  | Some code => (inl (ClientError code), w)
  | None => (inr tt, set_table (<[(pk, sk) := item]> (table w)) w)
  end.

(** [SET a1 = :v1, a2 = :v2, ...] *)
Definition apply_set (assignments : list (string * string)) (it : gmap string string)
  : gmap string string :=
  foldl (λ acc kv, <[kv.1 := kv.2]> acc) it assignments.

(** [table.update_item] with a SET expression, no condition and
    [ReturnValues="ALL_NEW"]: an absent item is created from its key. *)
Definition update_item_set (env : Env) (pk sk : string)
    (assignments : list (string * string)) : Run (gmap string string) := λ w,
  match ddb_fault env with
  | Some code => (inl (ClientError code), w)
  | None =>
      let it := apply_set assignments (DynamoDB.item_or_key pk sk (table w !! (pk, sk))) in
      (inr it, set_table (<[(pk, sk) := it]> (table w)) w)
  end.

(** [table.delete_item] with [ConditionExpression=Key('SK').eq(sk)]: the
    condition fails on an absent item. *)
Definition delete_item_if_sk (env : Env) (pk sk : string) : Run unit := λ w,
  match ddb_fault env with
  | Some code => (inl (ClientError code), w)
  | None =>
      if bool_decide (table w !! (pk, sk) ≫= (.!! "SK") = Some sk)
      then (inr tt, set_table (delete (pk, sk) (table w)) w)
      else (inl ConditionalCheckFailedException, w)
  end.

(** [table.query] with [Key('PK').eq(pk) & Key('SK').begins_with(prefix)]:
    the items under the partition key whose sort key has the prefix.  The
    order of the answer is that of the map's listing. *)
Definition query_begins_with (env : Env) (pk prefix : string)
  : Run (list (gmap string string)) := λ w,
  match ddb_fault env with
  | Some code => (inl (ClientError code), w)
  | None =>
      (inr ((map_to_list
               (filter (λ kv, kv.1.1 = pk ∧ String.prefix prefix kv.1.2 = true)
                       (table w))).*2), w)
  end.

End TableOps.

(** *** create_task.py *)

Module CreateTask.
Section CreateTask.

Context (lib : Api.PyDatetimeObjects) (env : Env) (rq : Api.RequestEnv).

Definition new_item (user_id task_id description formatted_deadline : string)
  : gmap string string :=
  <["PK" := "USER#" +:+ user_id]>
  (<["SK" := "TASK#" +:+ task_id]>
  (<["GSI1PK" := "Pending"]>
  (<["GSI1SK" := formatted_deadline]>
  (<["taskId" := task_id]>
  (<["userId" := user_id]>
  (<["description" := description]>
  (<["date" := Api.utcnow_isoformat rq]>
  (<["status" := "Pending"]>
  {[ "deadline" := formatted_deadline ]})))))))).

Definition handler (event : Api.ApiEvent) : Run Api.HttpResponse :=
  try_except
    (body ← Api.json_loads_body event;
     let description := body !! "description" in
     let deadline := body !! "deadline" in
     user_id ← Api.claims_sub event;
     if negb (truthy description) || negb (truthy deadline) then
       mret (Api.respond 400 (Api.JsonMessage "Description and deadline are required."))
     else
       match Api.fromisoformat lib (replace_Z (str deadline)) with
       | None =>
           mret (Api.respond 400
                   (Api.JsonMessage "Invalid deadline format. Use ISO format."))
       | Some deadline_dt =>
           let deadline_dt :=
             if Api.tzinfo_is_None lib deadline_dt
             then Api.replace_tzinfo_utc lib deadline_dt
             else deadline_dt in
           let formatted_deadline := Api.isoformat lib deadline_dt in
           let task_id := Api.uuid4 rq in
           let item := new_item user_id task_id (str description) formatted_deadline in
           TableOps.put_item env ("USER#" +:+ user_id) ("TASK#" +:+ task_id) item;;
           mret (Api.respond 201 (Api.JsonItem item))
       end)
    (λ e,
       print (Failure "Error creating task" e);;
       mret (Api.respond 500 (Api.JsonMessage "Failed to create task."))).

End CreateTask.
End CreateTask.

(** *** update_task.py *)

Module UpdateTask.
Section UpdateTask.

Context (lib : Api.PyDatetimeObjects) (env : Env).

(** The deadline block: the formatted deadline, or [None] when
    [fromisoformat] raises ValueError. *)
Definition format_deadline (deadline_input : string) : option string :=
  deadline_dt ←
    (if Api.endswith_Z deadline_input then
       Api.fromisoformat lib (replace_Z deadline_input)
     else if contains "+" deadline_input then
       Api.fromisoformat lib deadline_input
     else
       Api.replace_tzinfo_utc lib <$> Api.fromisoformat lib deadline_input);
  let deadline_dt :=
    if Api.tzinfo_is_None lib deadline_dt
    then Api.replace_tzinfo_utc lib deadline_dt
    else Api.astimezone_utc lib deadline_dt in
  Some (Api.isoformat lib deadline_dt).

(** The part of the handler after the update expression is built. *)
Definition send_update (user_id task_id : string)
    (update_parts : list (string * string)) : Run Api.HttpResponse :=
  if bool_decide (update_parts = []) then
    mret (Api.respond 400 (Api.JsonMessage "No fields to update"))
  else
    print (Info "Update params");;
    attributes ← TableOps.update_item_set env ("USER#" +:+ user_id)
                   ("TASK#" +:+ task_id) update_parts;
    print (Info "Update successful");;
    mret (Api.respond 200 (Api.JsonItem attributes)).

Definition handler (event : Api.ApiEvent) : Run Api.HttpResponse :=
  try_except
    (user_id ← Api.claims_sub event;
     task_id ← Api.path_parameter event;
     body ← Api.json_loads_body event;
     print (Info ("Updating task " +:+ task_id +:+ " for user " +:+ user_id));;
     print (Info "Update data");;
     let update_parts : list (string * string) := [] in
     let update_parts :=
       match body !! "description" with
       | Some v => (update_parts ++ [("description", v)])%list
       | None => update_parts
       end in
     let update_parts :=
       match body !! "status" with
       | Some v => (update_parts ++ [("status", v)])%list
       | None => update_parts
       end in
     match body !! "deadline" with
     | Some deadline_input =>
         print (Info ("Parsing deadline: " +:+ deadline_input));;
         match format_deadline deadline_input with
         | Some formatted_deadline =>
             print (Info ("Formatted deadline: " +:+ formatted_deadline));;
             send_update user_id task_id
               (update_parts ++ [("deadline", formatted_deadline);
                                 ("GSI1SK", formatted_deadline)])%list
         | None =>
             print (Failure ("Invalid deadline format: " +:+ deadline_input)
                            (ValueError "Invalid isoformat string"));;
             mret (Api.respond 400
                     (Api.JsonMessage ("Invalid deadline format: " +:+
                                       exc_text (ValueError "Invalid isoformat string"))))
         end
     | None => send_update user_id task_id update_parts
     end)
    (λ e,
       print (Failure "Update error" e);;
       print (Info "Traceback");;
       mret (Api.respond 500
               (Api.JsonMessageError "Failed to update task" (exc_text e)))).

End UpdateTask.
End UpdateTask.

(** *** delete_task.py *)

Module DeleteTask.

Definition handler (env : Env) (event : Api.ApiEvent) : Run Api.HttpResponse :=
  try_except
    (task_id ← Api.path_parameter event;
     user_id ← Api.claims_sub event;
     TableOps.delete_item_if_sk env ("USER#" +:+ user_id) ("TASK#" +:+ task_id);;
     mret (Api.respond 204 Api.NoContent))
    (λ e,
       print (Failure "" e);;
       mret (Api.respond 500 (Api.JsonMessage "Failed to delete task."))).

End DeleteTask.

(** *** get_tasks.py *)

Module GetTasks.

Definition handler (env : Env) (rq : Api.RequestEnv) (event : Api.ApiEvent)
  : Run Api.HttpResponse :=
  print (Info "Event:");;
  try_except
    (user_id ← Api.claims_sub event;
     (match Api.TABLE_NAME rq with
      | Some _ => mret tt
      | None => raise (KeyError "TABLE_NAME")
      end);;
     tasks ← TableOps.query_begins_with env ("USER#" +:+ user_id) "TASK#";
     mret (Api.respond 200 (Api.JsonItems tasks)))
    (λ e,
       print (Failure "Error:" e);;
       mret (Api.respond 500 (Api.JsonError (exc_text e)))).

End GetTasks.

(** The stream image of a stored item: every attribute is a string. *)
Definition image_of (item : gmap string string) : gmap string AttributeValue :=
  AttrS <$> item.

(** Sample requests of user [u1] for task [t1]. *)
Module ApiSamples.

(** The datetime objects of the two spellings of one deadline, with and
    without a UTC offset, as Python reads and prints them. *)
Definition lib : Api.PyDatetimeObjects :=
  {| Api.dt_object := string * bool;
     Api.fromisoformat s :=
       if bool_decide (s = "2030-01-01T10:30:00+00:00") then Some (s, true)
       else if bool_decide (s = "2030-01-01T10:30:00") then Some (s, false)
       else None;
     Api.tzinfo_is_None d := negb d.2;
     Api.replace_tzinfo_utc d := (if d.2 then d.1 else d.1 +:+ "+00:00", true);
     Api.astimezone_utc d := d;
     Api.isoformat d := d.1 |}.

Definition rq : Api.RequestEnv :=
  {| Api.uuid4 := "t1";
     Api.utcnow_isoformat := "2025-01-01T00:00:00+00:00";
     Api.TABLE_NAME := Some "TodoAppTable" |}.

Definition request (body : gmap string string) : Api.ApiEvent :=
  Api.mkApiEvent (Some body) (Some "u1") (Some "t1").

Definition create_body : gmap string string :=
  <["description" := "Buy milk"]> {[ "deadline" := "2030-01-01T10:30:00Z" ]}.

End ApiSamples.

(** The update expression of a request without a deadline. *)
Definition text_parts (body : gmap string string) : list (string * string) :=
  (match body !! "description" with Some v => [("description", v)] | None => [] end ++
   match body !! "status" with Some v => [("status", v)] | None => [] end)%list.

(** * Proofs *)

Ltac run :=
  unfold try_except, mbind, Run_bind, mret, Run_ret, print, raise; cbn.

(** ** The table *)

Section TableFacts.

Context (env : Env) (pk sk : string) (w : World).

Lemma update_fault c b :
  ddb_fault env = Some c →
  DynamoDB.update_item_expired env b pk sk w = (inl (ClientError c), w).
Proof. intros Hf. unfold DynamoDB.update_item_expired. by rewrite Hf. Qed.

Lemma update_conditional_not_pending :
  ddb_fault env = None →
  stored_status w pk sk ≠ Some "Pending" →
  DynamoDB.update_item_expired env true pk sk w =
    (inl ConditionalCheckFailedException, w).
Proof.
  intros Hf Hs. unfold DynamoDB.update_item_expired. rewrite Hf.
  unfold DynamoDB.status_is_pending. fold (stored_status w pk sk).
  by rewrite bool_decide_eq_false_2.
Qed.

Lemma update_conditional_pending :
  ddb_fault env = None →
  stored_status w pk sk = Some "Pending" →
  ∃ it, table w !! (pk, sk) = Some it ∧
    DynamoDB.update_item_expired env true pk sk w =
      (inr (DynamoDB.set_expired it),
       set_table (<[(pk, sk) := DynamoDB.set_expired it]> (table w)) w).
Proof.
  intros Hf Hs. unfold DynamoDB.update_item_expired. rewrite Hf.
  unfold DynamoDB.status_is_pending. fold (stored_status w pk sk).
  rewrite bool_decide_eq_true_2 by done. cbn.
  unfold stored_status in Hs.
  destruct (table w !! (pk, sk)) as [it|] eqn:E; [|done].
  by exists it.
Qed.

Lemma status_after_set_expired it :
  DynamoDB.set_expired it !! "status" = Some "Expired".
Proof. unfold DynamoDB.set_expired. by simplify_map_eq. Qed.

End TableFacts.

Lemma publish_error_is_client env e :
  SNS.publish_error env = Some e → ∃ c, e = ClientError c.
Proof.
  unfold SNS.publish_error.
  destruct (SNS_TOPIC_ARN env), (sns_fault env); naive_solver.
Qed.

(** ** expiry_handler.py *)

Section ExpiryFacts.

Context (dt : PyDatetime).

(** A malformed payload is answered with 400 before any service is called. *)
Lemma expiry_malformed env event w :
  payload_ok event = false →
  ∃ w', Expiry.handler dt env event w =
          (inr (mkResponse 400 "Missing task data"), w') ∧
        same_services w w'.
Proof.
  intros Hp. unfold Expiry.handler. fold (payload_ok event). rewrite Hp. run.
  eexists; split; [done|]. by repeat split.
Qed.

(** A failing table surfaces as the exception, with nothing changed. *)
Lemma expiry_store_fault env event c w :
  payload_ok event = true →
  ddb_fault env = Some c →
  ∃ w', Expiry.handler dt env event w = (inl (ClientError c), w') ∧
        same_services w w'.
Proof.
  intros Hp Hf. unfold Expiry.handler. fold (payload_ok event). rewrite Hp. run.
  rewrite (update_fault _ _ _ _ c) by done. cbn.
  eexists; split; [done|]. by repeat split.
Qed.

Lemma expiry_not_pending env event w :
  payload_ok event = true →
  ddb_fault env = None →
  stored_status w (str (event !! "pk")) (str (event !! "sk")) ≠ Some "Pending" →
  ∃ w', Expiry.handler dt env event w =
          (inr (mkResponse 200 "Expiry process completed."), w') ∧
        same_services w w'.
Proof.
  intros Hp Hf Hs. unfold Expiry.handler. fold (payload_ok event). rewrite Hp. run.
  rewrite update_conditional_not_pending by done. cbn.
  eexists; split; [done|]. by repeat split.
Qed.

(** What an invocation does to a Pending task. *)
Lemma expiry_pending env event w :
  payload_ok event = true →
  ddb_fault env = None →
  stored_status w (str (event !! "pk")) (str (event !! "sk")) = Some "Pending" →
  ∃ it w',
    table w !! (str (event !! "pk"), str (event !! "sk")) = Some it ∧
    (Expiry.handler dt env event w).2 = w' ∧
    table w' = <[(str (event !! "pk"), str (event !! "sk")) := DynamoDB.set_expired it]>
                 (table w) ∧
    queue w' = queue w ∧ rules w' = rules w ∧ api_calls w' = api_calls w ∧
    match SNS.publish_error env with
    | Some e =>
        (Expiry.handler dt env event w).1 = inl e ∧
        published w' = published w ∧
        last (log w') =
          Some (Failure ("Error processing task expiry for " +:+ str (event !! "taskId")) e)
    | None =>
        (Expiry.handler dt env event w).1 =
          inr (mkResponse 200 "Expiry process completed.") ∧
        published w' =
          (published w ++
           [Expiry.expiry_notification dt env event (DynamoDB.set_expired it)])%list
    end.
Proof.
  intros Hp Hf Hs. unfold Expiry.handler. fold (payload_ok event). rewrite Hp. run.
  destruct (update_conditional_pending env (str (event !! "pk")) (str (event !! "sk"))
              (set_log (log w ++ [Info "Expiry Handler invoked for event"]) w))
    as (it & Hit & ->); [done|done|].
  exists it. cbn. unfold SNS.publish.
  destruct (SNS.publish_error env) as [e|] eqn:He.
  - destruct (publish_error_is_client _ _ He) as [c ->]. cbn.
    eexists. repeat split; try done. cbn. by rewrite last_snoc.
  - cbn. eexists. by repeat split.
Qed.

End ExpiryFacts.

(** The executor of expiry_handler.py writes through one conditional
    update: for every payload and every environment the table is left as
    it was, unless the stored status was Pending, and then only the item
    of the payload's key changes, to its expired form. *)
Lemma expiry_handler_update_is_conditional dt env event w :
  let w' := (Expiry.handler dt env event w).2 in
  let key := (str (event !! "pk"), str (event !! "sk")) in
  table w' = table w ∨
  ∃ it, table w !! key = Some it ∧ it !! "status" = Some "Pending" ∧
        table w' = <[key := DynamoDB.set_expired it]> (table w).
Proof.
  cbn. destruct (payload_ok event) eqn:Hp.
  - destruct (ddb_fault env) as [c|] eqn:Hf.
    + destruct (expiry_store_fault dt env event c w Hp Hf) as (w' & -> & Hs).
      left. apply Hs.
    + destruct (decide (stored_status w (str (event !! "pk")) (str (event !! "sk"))
                        = Some "Pending")) as [Hs|Hs].
      * destruct (expiry_pending dt env event w Hp Hf Hs)
          as (it & w' & Hit & <- & Ht & _).
        right. exists it. split; [done|]. split; [|done].
        unfold stored_status in Hs. by rewrite Hit in Hs.
      * destruct (expiry_not_pending dt env event w Hp Hf Hs) as (w' & -> & Hsame).
        left. apply Hsame.
  - destruct (expiry_malformed dt env event w Hp) as (w' & -> & Hs).
    left. apply Hs.
Qed.

(** The write of [expire_and_notify_task] carries no condition: once its
    read has seen Pending, the item ends up Expired whatever the other
    writers stored in between. *)
Lemma expire_and_notify_write_is_unconditional dt env task_id user_id pk sk w :
  ddb_fault env = None →
  stored_status w pk sk = Some "Pending" →
  stored_status (Processor.expire_and_notify_task dt env task_id user_id pk sk w).2 pk sk
    = Some "Expired".
Proof.
  intros Hf Hs. unfold Processor.expire_and_notify_task, DynamoDB.get_item.
  run. rewrite Hf. cbn. unfold stored_status in Hs.
  destruct (table w !! (pk, sk)) as [it|] eqn:Hit; [|done]. cbn in Hs.
  destruct (bool_decide (it = ∅)) eqn:Hempty.
  { apply bool_decide_eq_true in Hempty. by subst. }
  unfold getitem. rewrite Hs. run.
  unfold DynamoDB.update_item_expired. rewrite Hf. cbn.
  assert (∀ w0 : (Exc + ()) * World,
    table w0.2 = <[(pk, sk) := DynamoDB.set_expired
       (DynamoDB.item_or_key pk sk (other_writers env (table w) !! (pk, sk)))]>
       (other_writers env (table w)) →
    stored_status w0.2 pk sk = Some "Expired") as Hgoal.
  { intros w0 Ht. unfold stored_status. rewrite Ht, lookup_insert_eq. cbn.
    apply status_after_set_expired. }
  destruct (SNS_TOPIC_ARN env) eqn:Harn; cbn; [|by apply Hgoal].
  destruct (it !! "description"); cbn; [|by apply Hgoal].
  unfold SNS.publish. destruct (SNS.publish_error env); cbn; by apply Hgoal.
Qed.

(** Run alone, [expire_and_notify_task] agrees with the conditional
    update: it leaves the table as it was unless the stored status was
    Pending, and then only the item of the key changes, to its expired
    form. *)
Lemma expire_and_notify_alone dt env task_id user_id pk sk w :
  (∀ t, other_writers env t = t) →
  let w' := (Processor.expire_and_notify_task dt env task_id user_id pk sk w).2 in
  table w' = table w ∨
  ∃ it, table w !! (pk, sk) = Some it ∧ it !! "status" = Some "Pending" ∧
        table w' = <[(pk, sk) := DynamoDB.set_expired it]> (table w).
Proof.
  intros Halone. cbn zeta.
  unfold Processor.expire_and_notify_task, DynamoDB.get_item, Processor.interleave.
  run. destruct (ddb_fault env) as [c|] eqn:Hf; cbn; [by left|].
  rewrite Halone.
  destruct (table w !! (pk, sk)) as [it|] eqn:Hit; cbn; [|by left].
  case_bool_decide as Hempty; cbn; [by left|].
  unfold getitem.
  destruct (it !! "status") as [status|] eqn:Hst; run; [|by left].
  case_bool_decide as Hpending; cbn; [|by left].
  subst status. right. exists it. split; [done|]. split; [done|].
  unfold DynamoDB.update_item_expired. rewrite Hf. cbn. rewrite Hit. cbn.
  destruct (SNS_TOPIC_ARN env); cbn; [|done].
  destruct (it !! "description"); cbn; [|done].
  unfold SNS.publish. by destruct (SNS.publish_error env).
Qed.

(** C1.  The expiry path of process_stream.py at a race: the owner
    completes task t1 after the executor has read it as Pending and
    before the executor writes.  The executor's write is a plain update,
    so the stored Completed is overwritten with Expired and the owner is
    notified of an expiry. *)
Theorem processor_expiry_overwrites_completed :
  let before := Samples.pending_world in
  let seen_by_write :=
    set_table (other_writers Samples.env_racing_completion (table before)) before in
  let run := Processor.handler Samples.clock Samples.env_racing_completion
               Samples.fired_event before in
  stored_status before "USER#u1" "TASK#t1" = Some "Pending" ∧
  stored_status seen_by_write "USER#u1" "TASK#t1" = Some "Completed" ∧
  run.1 = inr (mkResponse 200 "Expiry check complete.") ∧
  stored_status run.2 "USER#u1" "TASK#t1" = Some "Expired" ∧
  length (published run.2) = 1.
Proof. vm_compute. by repeat split. Qed.

(** C2.  Firing the executor twice with one payload: when the first
    invocation reached the table, it leaves the task non-Pending, and the
    second invocation changes no service state and publishes nothing, in
    any environment; it returns normally when the table answers.  Over
    the two invocations at most one notification is published. *)
Theorem expiry_twice_is_idempotent dt env1 env2 event w :
  ddb_fault env1 = None →
  let first := Expiry.handler dt env1 event w in
  let second := Expiry.handler dt env2 event first.2 in
  (payload_ok event = true →
   stored_status first.2 (str (event !! "pk")) (str (event !! "sk")) ≠ Some "Pending") ∧
  same_services first.2 second.2 ∧
  (ddb_fault env2 = None → ∃ resp, second.1 = inr resp) ∧
  (length (published second.2) ≤ S (length (published w)))%nat.
Proof.
  intros Hf1. cbn.
  destruct (payload_ok event) eqn:Hp.
  - set (pk := str (event !! "pk")). set (sk := str (event !! "sk")).
    assert (stored_status (Expiry.handler dt env1 event w).2 pk sk ≠ Some "Pending" ∧
            (length (published (Expiry.handler dt env1 event w).2)
             ≤ S (length (published w)))%nat) as (Hs1 & Hlen).
    { destruct (decide (stored_status w pk sk = Some "Pending")) as [Hs|Hs].
      - destruct (expiry_pending dt env1 event w Hp Hf1 Hs)
          as (it & w' & Hit & Hw & Ht & _ & _ & _ & Hpub).
        rewrite Hw. split.
        + unfold stored_status. fold pk sk in Ht. rewrite Ht, lookup_insert_eq. cbn.
          by rewrite status_after_set_expired.
        + destruct (SNS.publish_error env1).
          * destruct Hpub as (_ & -> & _). lia.
          * destruct Hpub as (_ & ->). rewrite length_app. cbn. lia.
      - destruct (expiry_not_pending dt env1 event w Hp Hf1 Hs) as (w' & -> & Hsame).
        destruct Hsame as (Ht & Hpb & _). cbn. split.
        + unfold stored_status. by rewrite Ht.
        + rewrite Hpb. lia. }
    set (w1 := (Expiry.handler dt env1 event w).2) in *. clearbody w1.
    split; [done|].
    destruct (ddb_fault env2) as [c|] eqn:Hf2.
    + destruct (expiry_store_fault dt env2 event c w1 Hp Hf2) as (w2 & -> & Hsame).
      cbn. split; [done|]. split; [done|]. destruct Hsame as (_ & -> & _). done.
    + destruct (expiry_not_pending dt env2 event w1 Hp Hf2 Hs1) as (w2 & -> & Hsame).
      cbn. split; [done|]. split; [eauto|]. destruct Hsame as (_ & -> & _). done.
  - destruct (expiry_malformed dt env1 event w Hp) as (w1 & -> & Hsame1). cbn.
    destruct (expiry_malformed dt env2 event w1 Hp) as (w2 & -> & Hsame2).
    cbn. split; [done|]. split; [done|]. split; [eauto|].
    destruct Hsame1 as (_ & Hp1 & _), Hsame2 as (_ & Hp2 & _).
    rewrite Hp2, Hp1. lia.
Qed.

Lemma expiry_twice_is_idempotent_witness :
  let first := Expiry.handler Samples.clock Samples.env Samples.payload
                 Samples.pending_world in
  let second := Expiry.handler Samples.clock Samples.env Samples.payload first.2 in
  (payload_ok Samples.payload = true →
   stored_status first.2 (str (Samples.payload !! "pk")) (str (Samples.payload !! "sk"))
     ≠ Some "Pending") ∧
  same_services first.2 second.2 ∧
  (ddb_fault Samples.env = None → ∃ resp, second.1 = inr resp) ∧
  (length (published second.2) ≤ S (length (published Samples.pending_world)))%nat.
Proof.
  apply (expiry_twice_is_idempotent Samples.clock Samples.env Samples.env
           Samples.payload Samples.pending_world).
  reflexivity.
Defined.

(** C3.  When the conditional update cannot apply, because the stored
    status is not Pending or because there is no item under the key
    ([stored_status] is then not [Some "Pending"]), the invocation returns
    200 without an exception, publishes nothing and leaves the table as it
    was. *)
Theorem expiry_noop_when_not_pending dt env event w :
  payload_ok event = true →
  ddb_fault env = None →
  stored_status w (str (event !! "pk")) (str (event !! "sk")) ≠ Some "Pending" →
  ∃ w', Expiry.handler dt env event w =
          (inr (mkResponse 200 "Expiry process completed."), w') ∧
        table w' = table w ∧ published w' = published w.
Proof.
  intros Hp Hf Hs.
  destruct (expiry_not_pending dt env event w Hp Hf Hs) as (w' & Hrun & Ht & Hpub & _).
  by exists w'.
Qed.

Lemma expiry_noop_when_not_pending_witness :
  (∃ w', Expiry.handler Samples.clock Samples.env Samples.payload
           Samples.completed_world =
           (inr (mkResponse 200 "Expiry process completed."), w') ∧
         table w' = table Samples.completed_world ∧
         published w' = published Samples.completed_world) ∧
  (∃ w', Expiry.handler Samples.clock Samples.env Samples.payload
           Samples.empty_world =
           (inr (mkResponse 200 "Expiry process completed."), w') ∧
         table w' = table Samples.empty_world ∧
         published w' = published Samples.empty_world).
Proof.
  split.
  - apply (expiry_noop_when_not_pending Samples.clock Samples.env Samples.payload
             Samples.completed_world); [reflexivity | reflexivity | by vm_compute].
  - apply (expiry_noop_when_not_pending Samples.clock Samples.env Samples.payload
             Samples.empty_world); [reflexivity | reflexivity | by vm_compute].
Defined.

(** A failing publish at a concrete input: with the task Pending and SNS
    down, the update is applied and the invocation ends with the exception
    of [sns.publish], not with a response. *)
Lemma expiry_publish_failure_counterexample :
  payload_ok Samples.payload = true ∧
  ddb_fault Samples.env_sns_down = None ∧
  stored_status Samples.pending_world "USER#u1" "TASK#t1" = Some "Pending" ∧
  SNS.publish_error Samples.env_sns_down = Some (ClientError "InternalError") ∧
  (Expiry.handler Samples.clock Samples.env_sns_down Samples.payload
     Samples.pending_world).1 = inl (ClientError "InternalError").
Proof. vm_compute. by repeat split. Qed.

(** C4.  The handler departs from the claim.  When the conditional update
    succeeds and the publish fails with [e], the failure is logged, but
    the invocation does not complete: [e] is raised again to the invoker.
    The task stays Expired and nothing is published. *)
Theorem expiry_publish_failure_is_raised dt env event w e :
  payload_ok event = true →
  ddb_fault env = None →
  stored_status w (str (event !! "pk")) (str (event !! "sk")) = Some "Pending" →
  SNS.publish_error env = Some e →
  ∃ w', Expiry.handler dt env event w = (inl e, w') ∧
        stored_status w' (str (event !! "pk")) (str (event !! "sk")) = Some "Expired" ∧
        published w' = published w ∧
        last (log w') =
          Some (Failure ("Error processing task expiry for " +:+ str (event !! "taskId")) e).
Proof.
  intros Hp Hf Hs He.
  destruct (expiry_pending dt env event w Hp Hf Hs)
    as (it & w' & Hit & Hw & Ht & _ & _ & _ & Hpub).
  rewrite He in Hpub. destruct Hpub as (Hres & Hpb & Hlog).
  exists w'. split.
  - rewrite <- Hw, <- Hres. by destruct (Expiry.handler dt env event w).
  - split; [|done]. unfold stored_status. rewrite Ht, lookup_insert_eq. cbn.
    apply status_after_set_expired.
Qed.

Lemma expiry_publish_failure_is_raised_witness :
  ∃ w', Expiry.handler Samples.clock Samples.env_sns_down Samples.payload
          Samples.pending_world = (inl (ClientError "InternalError"), w') ∧
        stored_status w' (str (Samples.payload !! "pk")) (str (Samples.payload !! "sk"))
          = Some "Expired" ∧
        published w' = published Samples.pending_world ∧
        last (log w') =
          Some (Failure ("Error processing task expiry for " +:+
                         str (Samples.payload !! "taskId"))
                        (ClientError "InternalError")).
Proof.
  apply (expiry_publish_failure_is_raised Samples.clock Samples.env_sns_down
           Samples.payload Samples.pending_world (ClientError "InternalError"));
    reflexivity.
Defined.

(** Raising the publish failure does not get the notification sent.  The
    invocation that is retried finds the task Expired: whatever the state
    of SNS by then, it takes the not-Pending exit, returns 200 and
    publishes nothing. *)
Theorem expiry_retry_cannot_resend dt env env2 event w e :
  payload_ok event = true →
  ddb_fault env = None →
  stored_status w (str (event !! "pk")) (str (event !! "sk")) = Some "Pending" →
  SNS.publish_error env = Some e →
  ddb_fault env2 = None →
  ∃ w1 w2,
    Expiry.handler dt env event w = (inl e, w1) ∧
    Expiry.handler dt env2 event w1 =
      (inr (mkResponse 200 "Expiry process completed."), w2) ∧
    published w2 = published w ∧
    stored_status w2 (str (event !! "pk")) (str (event !! "sk")) = Some "Expired".
Proof.
  intros Hp Hf Hs He Hf2.
  destruct (expiry_pending dt env event w Hp Hf Hs)
    as (it & w1 & Hit & Hw & Ht & _ & _ & _ & Hpub).
  rewrite He in Hpub. destruct Hpub as (Hres & Hpb & _).
  assert (stored_status w1 (str (event !! "pk")) (str (event !! "sk")) = Some "Expired")
    as Hs1.
  { unfold stored_status. rewrite Ht, lookup_insert_eq. cbn.
    apply status_after_set_expired. }
  destruct (expiry_not_pending dt env2 event w1 Hp Hf2) as (w2 & Hrun2 & Ht2 & Hp2 & _).
  { by rewrite Hs1. }
  exists w1, w2. split_and!.
  - rewrite <- Hw, <- Hres. by destruct (Expiry.handler dt env event w).
  - done.
  - by rewrite Hp2.
  - unfold stored_status in *. by rewrite Ht2.
Qed.

Lemma expiry_retry_cannot_resend_witness :
  ∃ w1 w2,
    Expiry.handler Samples.clock Samples.env_sns_down Samples.payload
      Samples.pending_world = (inl (ClientError "InternalError"), w1) ∧
    Expiry.handler Samples.clock Samples.env Samples.payload w1 =
      (inr (mkResponse 200 "Expiry process completed."), w2) ∧
    published w2 = published Samples.pending_world ∧
    stored_status w2 (str (Samples.payload !! "pk")) (str (Samples.payload !! "sk"))
      = Some "Expired".
Proof.
  apply (expiry_retry_cannot_resend Samples.clock Samples.env_sns_down Samples.env
           Samples.payload Samples.pending_world (ClientError "InternalError"));
    reflexivity.
Defined.


(** ** stream_router.py *)

Section RouterFacts.

Context (env : Env).

Lemma build_entries_routed records acc :
  Forall (λ r, is_Some (eventID r)) records →
  ∃ entries, Router.build_entries records acc = inr (acc ++ entries)%list ∧
             Forall2 routed records entries.
Proof.
  intros Hall. revert acc.
  induction Hall as [|r records [id Hid] _ IH]; intros acc.
  - exists []. cbn. by rewrite app_nil_r.
  - cbn. unfold Router.entry_of. rewrite Hid.
    destruct (IH (acc ++ [mkSqsEntry id (Json r) id "TaskProcessingGroup"])%list)
      as (entries & -> & Hrel).
    exists (mkSqsEntry id (Json r) id "TaskProcessingGroup" :: entries).
    split; [by rewrite <- app_assoc|].
    constructor; [by repeat split|done].
Qed.

(** The ids of the entries are the eventIDs of the records. *)
Lemma routed_ids records entries :
  Forall2 routed records entries →
  eventID <$> records = Some <$> (MessageDeduplicationId <$> entries) ∧
  Id <$> entries = MessageDeduplicationId <$> entries.
Proof.
  induction 1 as [|r e rs es (Hid & HId & _) _ [IH1 IH2]]; [done|].
  cbn. by rewrite Hid, HId, IH1, IH2.
Qed.

Lemma routed_batch_is_taken records entries :
  Forall2 routed records entries →
  (length records ≤ SQS.MAX_BATCH_ENTRIES)%nat →
  NoDup (eventID <$> records) →
  Nat.ltb SQS.MAX_BATCH_ENTRIES (length entries) = false ∧
  NoDup (Id <$> entries) ∧
  NoDup (MessageDeduplicationId <$> entries).
Proof.
  intros Hrel Hlen Hnd.
  destruct (routed_ids records entries Hrel) as [Hids HId].
  rewrite Hids in Hnd. apply NoDup_fmap_1 in Hnd.
  split; [|by rewrite HId].
  apply Nat.ltb_ge. by rewrite <- (Forall2_length _ _ _ Hrel).
Qed.

(** Entries with fresh, distinct deduplication ids are all kept. *)
Lemma deduplicate_fresh seen entries :
  NoDup (MessageDeduplicationId <$> entries) →
  Forall (λ e, MessageDeduplicationId e ∉ seen) entries →
  SQS.deduplicate seen entries = entries.
Proof.
  intros Hnd. revert seen.
  induction entries as [|e es IH]; intros seen Hfresh; [done|].
  cbn. apply Forall_cons in Hfresh as [He Hes].
  rewrite bool_decide_eq_false_2 by done. f_equal.
  cbn in Hnd. apply NoDup_cons in Hnd as [Hne Hnd].
  apply IH; [done|].
  apply Forall_forall. intros x Hx. rewrite elem_of_cons. intros [Heq|Hin].
  - apply Hne. rewrite <- Heq. apply list_elem_of_fmap. by exists x.
  - rewrite Forall_forall in Hes. by apply (Hes x).
Qed.

(** Entries whose deduplication ids the queue has all seen are all dropped. *)
Lemma deduplicate_seen seen entries :
  Forall (λ e, MessageDeduplicationId e ∈ seen) entries →
  SQS.deduplicate seen entries = [].
Proof.
  induction 1 as [|e es He _ IH]; [done|].
  cbn. by rewrite bool_decide_eq_true_2.
Qed.

(** Every deduplication id of a request is in the queue afterwards. *)
Lemma deduplicate_covers seen entries e :
  e ∈ entries →
  MessageDeduplicationId e ∈ seen ∨
  MessageDeduplicationId e ∈ MessageDeduplicationId <$> SQS.deduplicate seen entries.
Proof.
  revert seen. induction entries as [|x xs IH]; intros seen Hin.
  - by apply elem_of_nil in Hin.
  - cbn. apply elem_of_cons in Hin as [->|Hin].
    + case_bool_decide; [by left|]. right. cbn. apply elem_of_cons. by left.
    + case_bool_decide as Hx.
      * by apply IH.
      * destruct (IH (MessageDeduplicationId x :: seen) Hin) as [Hs|Hd].
        -- apply elem_of_cons in Hs as [Heq|Hs]; [|by left].
           right. cbn. apply elem_of_cons. by left.
        -- right. cbn. apply elem_of_cons. by right.
Qed.

(** A request the queue takes: what it answers and what it enqueues. *)
Lemma send_taken entries w :
  sqs_fault env = None →
  entries ≠ [] →
  Nat.ltb SQS.MAX_BATCH_ENTRIES (length entries) = false →
  NoDup (Id <$> entries) →
  SQS.send_message_batch env entries w =
    (inr (Id <$> filter (λ e, sqs_rejects env (Id e) = true) entries),
     set_queue
       (queue w ++
        SQS.deduplicate (MessageDeduplicationId <$> queue w)
          (filter (λ e, sqs_rejects env (Id e) = false) entries)) w).
Proof.
  intros Hf Hne Hlen Hnd. unfold SQS.send_message_batch. rewrite Hf, Hlen.
  rewrite bool_decide_eq_false_2 by done.
  by rewrite bool_decide_eq_true_2.
Qed.

Lemma send_all_accepted entries w :
  sqs_fault env = None →
  (∀ id, sqs_rejects env id = false) →
  entries ≠ [] →
  Nat.ltb SQS.MAX_BATCH_ENTRIES (length entries) = false →
  NoDup (Id <$> entries) →
  SQS.send_message_batch env entries w =
    (inr [],
     set_queue
       (queue w ++ SQS.deduplicate (MessageDeduplicationId <$> queue w) entries) w).
Proof.
  intros Hf Hrej Hne Hlen Hnd. rewrite send_taken by done.
  assert (filter (λ e, sqs_rejects env (Id e) = false) entries = entries) as ->.
  { clear -Hrej. induction entries as [|e es IH]; [done|].
    rewrite filter_cons_True by apply Hrej. by rewrite IH. }
  assert (filter (λ e, sqs_rejects env (Id e) = true) entries = []) as ->.
  { clear -Hrej. induction entries as [|e es IH]; [done|].
    rewrite filter_cons_False; [done|]. by rewrite Hrej. }
  done.
Qed.

(** A request with too many entries is refused. *)
Lemma send_oversized entries w :
  sqs_fault env = None →
  Nat.ltb SQS.MAX_BATCH_ENTRIES (length entries) = true →
  SQS.send_message_batch env entries w =
    (inl (ClientError "AWS.SimpleQueueService.TooManyEntriesInBatchRequest"), w).
Proof.
  intros Hf Hlen. unfold SQS.send_message_batch. rewrite Hf, Hlen.
  rewrite bool_decide_eq_false_2; [done|].
  intros ->. by vm_compute in Hlen.
Qed.

(** No record of the batch has the deduplication id of a message the
    queue holds. *)
Lemma routed_fresh records entries (q : list SqsEntry) :
  Forall2 routed records entries →
  Forall (λ r, ∀ m, m ∈ q → eventID r ≠ Some (MessageDeduplicationId m)) records →
  Forall (λ e, MessageDeduplicationId e ∉ MessageDeduplicationId <$> q) entries.
Proof.
  induction 1 as [|r e rs es (Hid & _) _ IH]; intros Hfresh; [done|].
  apply Forall_cons in Hfresh as [Hr Hrs].
  constructor; [|by apply IH].
  intros Hin. apply list_elem_of_fmap in Hin as (m & Hm & Hin).
  apply (Hr m Hin). by rewrite Hid, Hm.
Qed.

End RouterFacts.

(** C6 as stated fails: the record of task t1 is enqueued with its
    eventID as deduplication id, but its ordering group is the fixed
    'TaskProcessingGroup', not the task's identifier. *)
Lemma router_group_counterexample :
  let r := Samples.change "INSERT"
             (Some (Samples.image "Pending" Samples.d2030)) None in
  let run := Router.handler Samples.env (Router.mkStreamEvent [r])
               Samples.empty_world in
  task_id_of_record r = Some "t1" ∧
  run.1 = inr (mkResponse 200 "Messages routed successfully.") ∧
  MessageDeduplicationId <$> queue run.2 = ["e1"] ∧
  MessageGroupId <$> queue run.2 = ["TaskProcessingGroup"] ∧
  (Some <$> (MessageGroupId <$> queue run.2)) ≠ [task_id_of_record r].
Proof. vm_compute. by repeat split. Qed.

(** C6, amended.  For a batch the queue takes in one request (at most
    [SQS.MAX_BATCH_ENTRIES] records, with distinct eventIDs, the queue
    configured and accepting), the router returns 200 and hands the queue
    one entry per record, in the order of the batch: the entry carries the
    record, has the record's eventID as id and as deduplication id, and
    has the ordering group 'TaskProcessingGroup', the same for every
    record of every task.  The queue appends the entries in that order,
    dropping those whose deduplication id it has seen; when no record of
    the batch is in the queue yet, all of them are appended. *)
Theorem router_enqueues_in_one_group env event w :
  truthy (SQS_QUEUE_URL env) = true →
  sqs_fault env = None →
  (∀ id, sqs_rejects env id = false) →
  Forall (λ r, is_Some (eventID r)) (Router.Records event) →
  (length (Router.Records event) ≤ SQS.MAX_BATCH_ENTRIES)%nat →
  NoDup (eventID <$> Router.Records event) →
  ∃ resp w' entries,
    Router.handler env event w = (inr resp, w') ∧
    statusCode resp = 200%Z ∧
    Forall2 routed (Router.Records event) entries ∧
    queue w' =
      (queue w ++ SQS.deduplicate (MessageDeduplicationId <$> queue w) entries)%list ∧
    (Forall (λ r, ∀ m, m ∈ queue w → eventID r ≠ Some (MessageDeduplicationId m))
            (Router.Records event) →
     queue w' = (queue w ++ entries)%list).
Proof.
  intros Hurl Hf Hrej Hids Hlen Hnd. unfold Router.handler. rewrite Hurl. cbn.
  destruct (build_entries_routed (Router.Records event) [] Hids)
    as (entries & -> & Hrel). cbn.
  destruct (routed_batch_is_taken _ _ Hrel Hlen Hnd) as (Hlen' & HndId & HndDd).
  case_bool_decide as Hempty.
  - subst entries. run. eexists _, _, []. repeat split; try done.
    + cbn. by rewrite app_nil_r.
    + cbn. by rewrite app_nil_r.
  - run. rewrite send_all_accepted by done. cbn.
    eexists _, _, entries. repeat split; try done.
    intros Hfresh. cbn. f_equal. apply deduplicate_fresh; [done|].
    by apply (routed_fresh (Router.Records event)).
Qed.

Lemma router_enqueues_in_one_group_witness :
  let r1 := Samples.change "INSERT"
              (Some (Samples.image "Pending" Samples.d2030)) None in
  let r2 := mkStreamRecord (Some "e2") (Some "REMOVE") None in
  let event := Router.mkStreamEvent [r1; r2] in
  ∃ resp w' entries,
    Router.handler Samples.env event Samples.empty_world = (inr resp, w') ∧
    statusCode resp = 200%Z ∧
    Forall2 routed [r1; r2] entries ∧
    queue w' = (queue Samples.empty_world ++ entries)%list.
Proof.
  intros r1 r2 event.
  destruct (router_enqueues_in_one_group Samples.env event Samples.empty_world)
    as (resp & w' & entries & Hrun & Hcode & Hrel & _ & Hfresh).
  - reflexivity.
  - reflexivity.
  - intros id. reflexivity.
  - repeat constructor; by eexists.
  - vm_compute. lia.
  - apply (bool_decide_unpack _). by vm_compute.
  - exists resp, w', entries. repeat split; try done.
    apply Hfresh. repeat constructor; intros m Hm; by apply elem_of_nil in Hm.
Defined.

(** A batch of more than [SQS.MAX_BATCH_ENTRIES] records is sent in one
    request all the same: the queue refuses it, the router logs the error
    and raises it, and no record of the batch is enqueued. *)
Theorem router_oversized_batch_is_refused env event w :
  truthy (SQS_QUEUE_URL env) = true →
  sqs_fault env = None →
  Forall (λ r, is_Some (eventID r)) (Router.Records event) →
  (SQS.MAX_BATCH_ENTRIES < length (Router.Records event))%nat →
  let e := ClientError "AWS.SimpleQueueService.TooManyEntriesInBatchRequest" in
  ∃ w', Router.handler env event w = (inl e, w') ∧
        same_services w w' ∧
        last (log w') = Some (Failure "Error sending batch to SQS" e).
Proof.
  intros Hurl Hf Hids Hlen e. unfold Router.handler. rewrite Hurl. cbn.
  destruct (build_entries_routed (Router.Records event) [] Hids)
    as (entries & -> & Hrel). cbn.
  rewrite (Forall2_length _ _ _ Hrel) in Hlen.
  assert (entries ≠ []) as Hne.
  { intros ->. cbn in Hlen. lia. }
  rewrite bool_decide_eq_false_2 by done.
  apply Nat.ltb_lt in Hlen.
  run. rewrite send_oversized by done. cbn.
  eexists. split; [done|]. split; [by repeat split|].
  cbn. by rewrite last_snoc.
Qed.

Lemma router_oversized_batch_is_refused_witness :
  let event := Router.mkStreamEvent
                 ((λ n : nat, mkStreamRecord (Some (pretty n)) (Some "REMOVE") None)
                    <$> seq 0 11) in
  let e := ClientError "AWS.SimpleQueueService.TooManyEntriesInBatchRequest" in
  ∃ w', Router.handler Samples.env event Samples.empty_world = (inl e, w') ∧
        same_services Samples.empty_world w' ∧
        last (log w') = Some (Failure "Error sending batch to SQS" e).
Proof.
  intros event e.
  apply (router_oversized_batch_is_refused Samples.env event Samples.empty_world).
  - reflexivity.
  - reflexivity.
  - apply Forall_fmap, Forall_forall. intros n _. by eexists.
  - vm_compute. lia.
Defined.

(** A batch delivered a second time is answered with 200 again and adds
    nothing to the queue: every entry has the deduplication id of a
    message of the first delivery. *)
Theorem router_redelivery_is_deduplicated env event w resp w1 :
  truthy (SQS_QUEUE_URL env) = true →
  sqs_fault env = None →
  (∀ id, sqs_rejects env id = false) →
  Forall (λ r, is_Some (eventID r)) (Router.Records event) →
  (length (Router.Records event) ≤ SQS.MAX_BATCH_ENTRIES)%nat →
  NoDup (eventID <$> Router.Records event) →
  Router.handler env event w = (inr resp, w1) →
  ∃ w2, Router.handler env event w1 = (inr resp, w2) ∧ queue w2 = queue w1.
Proof.
  intros Hurl Hf Hrej Hids Hlen Hnd. unfold Router.handler. rewrite Hurl. cbn.
  destruct (build_entries_routed (Router.Records event) [] Hids)
    as (entries & -> & Hrel). cbn.
  destruct (routed_batch_is_taken _ _ Hrel Hlen Hnd) as (Hlen' & HndId & HndDd).
  case_bool_decide as Hempty.
  - run. intros [= <- <-]. eexists. by split.
  - run. rewrite !send_all_accepted by done. cbn. intros [= <- <-]. cbn.
    eexists. split; [done|]. cbn.
    rewrite (deduplicate_seen
               (MessageDeduplicationId <$>
                  (queue w ++
                   SQS.deduplicate (MessageDeduplicationId <$> queue w) entries)%list));
      [by rewrite app_nil_r|].
    apply Forall_forall. intros e He. rewrite fmap_app, elem_of_app.
    by apply deduplicate_covers.
Qed.

Lemma router_redelivery_is_deduplicated_witness :
  let event := Router.mkStreamEvent
                 [Samples.change "INSERT"
                    (Some (Samples.image "Pending" Samples.d2030)) None] in
  let first := Router.handler Samples.env event Samples.empty_world in
  ∃ resp w2,
    first.1 = inr resp ∧
    Router.handler Samples.env event first.2 = (inr resp, w2) ∧
    queue w2 = queue first.2 ∧ length (queue w2) = 1%nat.
Proof.
  intros event first.
  destruct (router_redelivery_is_deduplicated Samples.env event Samples.empty_world
              (mkResponse 200 "Messages routed successfully.") first.2)
    as (w2 & Hrun & Hq).
  - reflexivity.
  - reflexivity.
  - intros id. reflexivity.
  - repeat constructor; by eexists.
  - vm_compute. lia.
  - apply (bool_decide_unpack _). by vm_compute.
  - by vm_compute.
  - exists (mkResponse 200 "Messages routed successfully."), w2.
    repeat split; try done. rewrite Hq. by vm_compute.
Defined.


(** ** process_stream.py *)

(** Removing every target id of a map empties it. *)
Lemma lookup_foldr_delete {A} (ids : list string) (m : gmap string A) k :
  foldr delete m ids !! k = if decide (k ∈ ids) then None else m !! k.
Proof.
  induction ids as [|i ids IH]; cbn.
  - rewrite decide_False; [done|]. apply not_elem_of_nil.
  - destruct (decide (i = k)) as [->|Hne].
    + rewrite lookup_delete_eq. rewrite decide_True; [done|].
      apply elem_of_cons. by left.
    + rewrite lookup_delete_ne by done. rewrite IH.
      destruct (decide (k ∈ ids)) as [Hin|Hin].
      * rewrite decide_True; [done|]. apply elem_of_cons. by right.
      * rewrite decide_False; [done|]. rewrite elem_of_cons. by intros [?|?].
Qed.

Lemma foldr_delete_all {A} (m : gmap string A) :
  foldr delete m (map_to_list m).*1 = ∅.
Proof.
  apply map_eq. intros k. rewrite lookup_foldr_delete, lookup_empty.
  destruct (decide (k ∈ (map_to_list m).*1)) as [|Hk]; [done|].
  destruct (m !! k) as [v|] eqn:Hv; [|done].
  exfalso. apply Hk. apply list_elem_of_fmap. exists (k, v). split; [done|].
  by apply elem_of_map_to_list.
Qed.

Section ProcessorFacts.

Context (dt : PyDatetime) (env : Env).

Lemma cancel_always_returns task_id w :
  ∃ w' calls,
    Processor.cancel_expiry_event env task_id w = (inr tt, w') ∧
    table w' = table w ∧ published w' = published w ∧ queue w' = queue w ∧
    api_calls w' =
      (api_calls w ++
       mkCall ListTargetsByRule (Processor.rule_name_of task_id) :: calls)%list ∧
    Forall (λ c, is_cancel_op (call_op c) = true ∧
                 call_rule c = Processor.rule_name_of task_id) calls.
Proof.
  unfold Processor.cancel_expiry_event, Events.list_targets_by_rule,
    Events.remove_targets, Events.delete_rule, Events.request,
    Events.lookup_rule, Events.store_rule, Events.drop_rule, Events.targets_of.
  run.
  repeat (case_match; simplify_eq/=);
    eexists _, _; (split; [done|]); cbn; rewrite <- ?app_assoc; cbn.
  all: repeat split.
  all: try done.
  all: by repeat constructor.
Qed.

(** With the registry up, a cancel leaves no rule under the task's name. *)
Lemma cancel_deletes_rule task_id w :
  (∀ op, events_fault env op = None) →
  rules (Processor.cancel_expiry_event env task_id w).2 =
    delete (Processor.rule_name_of task_id) (rules w).
Proof.
  intros Hup.
  unfold Processor.cancel_expiry_event, Events.list_targets_by_rule,
    Events.remove_targets, Events.delete_rule, Events.request,
    Events.lookup_rule, Events.store_rule, Events.drop_rule, Events.targets_of.
  run. rewrite !Hup. cbn.
  destruct (rules w !! Processor.rule_name_of task_id) as [r|] eqn:Hr; cbn.
  - case_bool_decide as Hids; cbn.
    + rewrite ?Hup. cbn. rewrite ?Hr. cbn.
      apply fmap_nil_inv, map_to_list_empty_iff in Hids.
      rewrite Hids. by rewrite bool_decide_eq_true_2.
    + rewrite ?Hup. cbn. rewrite ?Hr. cbn. rewrite ?Hup. cbn.
      rewrite lookup_insert_eq. cbn. rewrite foldr_delete_all.
      rewrite bool_decide_eq_true_2 by done. cbn.
      by rewrite delete_insert_eq.
  - symmetry. by apply delete_id.
Qed.


(** A deadline that is not in the future: nothing is requested. *)
Lemma schedule_past task s d task_id w :
  task !! "deadline" = Some s →
  fromisoformat_utc dt s = Some d →
  (timestamp d ≤ now env)%Z →
  task !! "taskId" = Some task_id →
  ∃ w', Processor.schedule_expiry_event dt env task w = (inr tt, w') ∧
        same_services w w'.
Proof.
  intros Hd Hparse Hpast Hid. unfold Processor.schedule_expiry_event.
  destruct (truthy (EXPIRY_HANDLER_ARN env)); cbn.
  - unfold getitem. run. rewrite Hd. cbn. rewrite Hparse. cbn.
    rewrite bool_decide_eq_true_2 by done. rewrite Hid. cbn.
    eexists; split; [done|]. by repeat split.
  - run. eexists; split; [done|]. by repeat split.
Qed.

(** A deadline in the future, with the registry up: the rule of the
    task is written with the cron expression of the deadline and gets
    the expiry target. *)
Lemma schedule_future task s d task_id user_id pk sk w :
  truthy (EXPIRY_HANDLER_ARN env) = true →
  task !! "deadline" = Some s →
  fromisoformat_utc dt s = Some d →
  (now env < timestamp d)%Z →
  task !! "taskId" = Some task_id →
  task !! "userId" = Some user_id →
  task !! "PK" = Some pk →
  task !! "SK" = Some sk →
  (∀ op, events_fault env op = None) →
  rules w !! Processor.rule_name_of task_id = None →
  ∃ w', Processor.schedule_expiry_event dt env task w = (inr tt, w') ∧
        table w' = table w ∧ published w' = published w ∧ queue w' = queue w ∧
        api_calls w' =
          (api_calls w ++
           [mkCall PutRule (Processor.rule_name_of task_id);
            mkCall PutTargets (Processor.rule_name_of task_id)])%list ∧
        rules w' =
          <[Processor.rule_name_of task_id :=
              scheduled_rule env d task_id user_id pk sk]> (rules w).
Proof.
  intros Harn Hd Hparse Hfut Hid Huid Hpk Hsk Hup Hfree.
  unfold Processor.schedule_expiry_event. rewrite Harn. cbn.
  unfold getitem. run. rewrite Hd. cbn. rewrite Hparse. cbn.
  rewrite bool_decide_eq_false_2 by lia. rewrite Hid. cbn.
  rewrite Huid. cbn. rewrite Hpk. cbn. rewrite Hsk. cbn.
  unfold Events.put_rule, Events.put_targets, Events.request, Events.targets_of,
    Events.store_rule, Events.lookup_rule.
  run. rewrite !Hup. cbn. rewrite Hfree. cbn. rewrite lookup_insert_eq. cbn.
  eexists; split; [done|]. cbn. repeat split.
  - by rewrite <- app_assoc.
  - by rewrite insert_insert_eq.
Qed.


(** Whatever the registry answers, a schedule action returns normally:
    the errors of [put_rule] and [put_targets] are logged and dropped. *)
Lemma schedule_swallows_registry_errors task s d task_id user_id pk sk w :
  task !! "deadline" = Some s →
  fromisoformat_utc dt s = Some d →
  task !! "taskId" = Some task_id →
  task !! "userId" = Some user_id →
  task !! "PK" = Some pk →
  task !! "SK" = Some sk →
  (Processor.schedule_expiry_event dt env task w).1 = inr tt.
Proof.
  intros Hd Hparse Hid Huid Hpk Hsk.
  unfold Processor.schedule_expiry_event, Events.put_rule, Events.put_targets,
    Events.request, Events.targets_of, Events.store_rule, Events.lookup_rule, getitem.
  run. rewrite Hd. cbn. rewrite Hparse. cbn. rewrite Hid. cbn.
  rewrite Huid. cbn. rewrite Hpk. cbn. rewrite Hsk. cbn.
  repeat (case_match; simplify_eq/=); done.
Qed.

(** The loop body hands the views of the images to [dispatch]; what
    [dispatch] returns normally is what the body returns. *)
Lemma process_insert event_id i old w w' :
  Processor.dispatch dt env (Some "INSERT") (Processor.task_view i) None w
    = (inr tt, w') →
  Processor.process_record dt env (message event_id "INSERT" (Some i) old) w
    = (inr tt, w').
Proof.
  intros H. unfold Processor.process_record, message. run.
  rewrite bool_decide_eq_true_2 by done. by rewrite H.
Qed.

Lemma process_modify event_id i o w w' :
  Processor.dispatch dt env (Some "MODIFY") (Processor.task_view i)
    (Some (Processor.task_view o)) w = (inr tt, w') →
  Processor.process_record dt env (message event_id "MODIFY" (Some i) (Some o)) w
    = (inr tt, w').
Proof.
  intros H. unfold Processor.process_record, message. run.
  rewrite bool_decide_eq_false_2 by done.
  rewrite bool_decide_eq_true_2 by done. by rewrite H.
Qed.

Lemma process_remove event_id new o w w' :
  Processor.dispatch dt env (Some "REMOVE") (Processor.task_view o) None w
    = (inr tt, w') →
  Processor.process_record dt env (message event_id "REMOVE" new (Some o)) w
    = (inr tt, w').
Proof.
  intros H. unfold Processor.process_record, message. run.
  do 2 rewrite bool_decide_eq_false_2 by done.
  rewrite bool_decide_eq_true_2 by done. by rewrite H.
Qed.

(** An item that is not a task is passed over without a trace. *)
Lemma dispatch_skips_non_task event_name task old_task w :
  task = ∅ ∨ String.prefix "TASK#" (default "" (task !! "SK")) = false →
  Processor.dispatch dt env event_name task old_task w = (inr tt, w).
Proof.
  intros H. unfold Processor.dispatch.
  destruct H as [->|H].
  - by rewrite bool_decide_eq_true_2.
  - rewrite H. cbn. by rewrite orb_true_r.
Qed.

(** The head of [dispatch] on a task item. *)
Lemma dispatch_task_item (task : gmap string string) sk :
  task !! "SK" = Some sk →
  String.prefix "TASK#" sk = true →
  bool_decide (task = ∅) || negb (String.prefix "TASK#" (default "" (task !! "SK")))
    = false.
Proof.
  intros Hsk Hpre. rewrite Hsk. cbn. rewrite Hpre.
  rewrite bool_decide_eq_false_2; [done|].
  intros ->. by rewrite lookup_empty in Hsk.
Qed.

End ProcessorFacts.

(** C7 as stated fails: the Remove record of a Completed task makes the
    processor send a cancel request to the registry. *)
Lemma remove_completed_counterexample :
  let old := Samples.image "Completed" Samples.d2030 in
  let run := Processor.process_record Samples.clock Samples.env
               (message (Some "e1") "REMOVE" None (Some old)) Samples.empty_world in
  Processor.task_view old !! "status" = Some "Completed" ∧
  run.1 = inr tt ∧
  api_calls Samples.empty_world = [] ∧
  api_calls run.2 = [mkCall ListTargetsByRule "TodoAppTaskExpiry-t1"].
Proof. vm_compute. by repeat split. Qed.

(** C7, amended.  For every Remove record of a task item, whatever the
    status in its old image, the processor runs the cancel action for the
    task: it sends the registry a list-targets request for the task's
    rule, followed by cancel requests only (no schedule request), and
    touches neither the table, the notifications nor the queue.  When the
    registry answers its requests without error (finding no rule of that
    name counts as success), no trigger of the task is left and the
    record is not failed.  What becomes of the record when a request to
    the registry fails is not part of this statement. *)
Theorem remove_always_cancels dt env event_id new old task_id sk w :
  Processor.task_view old !! "SK" = Some sk →
  String.prefix "TASK#" sk = true →
  Processor.task_view old !! "taskId" = Some task_id →
  ∃ r w' calls,
    Processor.process_record dt env (message event_id "REMOVE" new (Some old)) w
      = (r, w') ∧
    table w' = table w ∧ published w' = published w ∧ queue w' = queue w ∧
    api_calls w' =
      (api_calls w ++
       mkCall ListTargetsByRule (Processor.rule_name_of task_id) :: calls)%list ∧
    Forall (λ c, is_cancel_op (call_op c) = true ∧
                 is_schedule_op (call_op c) = false ∧
                 call_rule c = Processor.rule_name_of task_id) calls ∧
    ((∀ op, events_fault env op = None) →
     r = inr tt ∧ trigger_of w' task_id = None).
Proof.
  intros Hsk Hpre Hid.
  destruct (cancel_always_returns env task_id w)
    as (w' & calls & Hrun & Ht & Hp & Hq & Hcalls & Hall).
  exists (inr tt), w', calls. split.
  - apply process_remove. unfold Processor.dispatch.
    rewrite (dispatch_task_item _ sk) by done.
    unfold getitem. run. rewrite Hid. cbn.
    do 2 rewrite bool_decide_eq_false_2 by done.
    rewrite bool_decide_eq_true_2 by done. cbn. by rewrite Hrun.
  - split_and!; try done.
    + eapply Forall_impl; [exact Hall|]. intros [op rule] [Hop Hrule].
      split_and!; try done. by destruct op.
    + intros Hup. split; [done|]. unfold trigger_of.
      pose proof (cancel_deletes_rule env task_id w Hup) as Hdel.
      rewrite Hrun in Hdel. cbn in Hdel. rewrite Hdel. apply lookup_delete_eq.
Qed.

Lemma remove_always_cancels_witness :
  is_Some (trigger_of Samples.scheduled_world "t1") ∧
  ∃ w' calls,
    Processor.process_record Samples.clock Samples.env
      (message (Some "e1") "REMOVE" None
         (Some (Samples.image "Completed" Samples.d2030))) Samples.scheduled_world
      = (inr tt, w') ∧
    table w' = table Samples.scheduled_world ∧
    published w' = published Samples.scheduled_world ∧
    queue w' = queue Samples.scheduled_world ∧
    api_calls w' =
      (api_calls Samples.scheduled_world ++
       mkCall ListTargetsByRule (Processor.rule_name_of "t1") :: calls)%list ∧
    Forall (λ c, is_cancel_op (call_op c) = true ∧
                 is_schedule_op (call_op c) = false ∧
                 call_rule c = Processor.rule_name_of "t1") calls ∧
    trigger_of w' "t1" = None.
Proof.
  split; [apply (bool_decide_unpack _); by vm_compute|].
  destruct (remove_always_cancels Samples.clock Samples.env (Some "e1") None
              (Samples.image "Completed" Samples.d2030) "t1" "TASK#t1"
              Samples.scheduled_world)
    as (r & w' & calls & Hrun & Ht & Hp & Hq & Hc & Hall & Hup);
    [reflexivity | reflexivity | reflexivity |].
  destruct Hup as [-> Htr]; [intros op; reflexivity|].
  exists w', calls. split_and!; assumption.
Defined.

(** C8 as stated fails: when the new deadline is already past, the
    Modify record cancels the live trigger and schedules nothing, so the
    task is left with no trigger at all. *)
Lemma modify_past_deadline_counterexample :
  let new := Samples.image "Pending" Samples.d2020 in
  let old := Samples.image "Pending" Samples.d2030 in
  let run := Processor.process_record Samples.clock Samples.env
               (message (Some "e1") "MODIFY" (Some new) (Some old))
               Samples.scheduled_world in
  Processor.task_view new !! "status" = Some "Pending" ∧
  Processor.task_view old !! "status" = Some "Pending" ∧
  Processor.task_view new !! "deadline" ≠ Processor.task_view old !! "deadline" ∧
  is_Some (trigger_of Samples.scheduled_world "t1") ∧
  run.1 = inr tt ∧
  call_op <$> api_calls run.2 = [ListTargetsByRule; RemoveTargets; DeleteRule] ∧
  trigger_of run.2 "t1" = None.
Proof. vm_compute. repeat split; by eauto. Qed.

(** C8, amended.  For a Modify record of a task item that is Pending in
    both images and whose deadlines are both present and differ, with the
    handler ARN configured, the new deadline readable and the registry
    up: the processor first sends the cancel requests for the task's rule
    and then, only when the new deadline is strictly in the future, the
    two schedule requests.  Afterwards the task has exactly the trigger of
    the new deadline when that deadline is in the future and no trigger
    when it is not; the rules of other names are untouched, so the task
    never has two. *)
Theorem modify_deadline_reschedules
    dt env event_id new old task_id user_id pk sk d_old d_new d w :
  Processor.task_view new !! "SK" = Some sk →
  String.prefix "TASK#" sk = true →
  Processor.task_view new !! "taskId" = Some task_id →
  Processor.task_view new !! "userId" = Some user_id →
  Processor.task_view new !! "PK" = Some pk →
  Processor.task_view new !! "status" = Some "Pending" →
  Processor.task_view old !! "status" = Some "Pending" →
  Processor.task_view new !! "deadline" = Some d_new →
  Processor.task_view old !! "deadline" = Some d_old →
  d_new ≠ "" → d_old ≠ "" → d_old ≠ d_new →
  truthy (EXPIRY_HANDLER_ARN env) = true →
  fromisoformat_utc dt d_new = Some d →
  (∀ op, events_fault env op = None) →
  let future := bool_decide (now env < timestamp d)%Z in
  let name := Processor.rule_name_of task_id in
  ∃ w' cancel_calls,
    Processor.process_record dt env
      (message event_id "MODIFY" (Some new) (Some old)) w = (inr tt, w') ∧
    table w' = table w ∧ published w' = published w ∧ queue w' = queue w ∧
    api_calls w' =
      (api_calls w ++ (mkCall ListTargetsByRule name :: cancel_calls) ++
       (if future then [mkCall PutRule name; mkCall PutTargets name] else []))%list ∧
    Forall (λ c, is_cancel_op (call_op c) = true ∧ call_rule c = name) cancel_calls ∧
    trigger_of w' task_id =
      (if future then Some (scheduled_rule env d task_id user_id pk sk) else None) ∧
    (∀ other, other ≠ name → rules w' !! other = rules w !! other).
Proof.
  intros Hsk Hpre Hid Huid Hpk Hst Hst_old Hdn Hdo Hn_ne Ho_ne Hdiff Harn Hparse Hup.
  cbn zeta.
  set (w0 := set_log (log w ++ [Info ("Deadline changed for task " +:+ task_id +:+
                                       ". Rescheduling expiry event.")]) w).
  destruct (cancel_always_returns env task_id w0)
    as (w1 & calls & Hcancel & Ht1 & Hp1 & Hq1 & Hcalls1 & Hall1).
  pose proof (cancel_deletes_rule env task_id w0 Hup) as Hrules1.
  rewrite Hcancel in Hrules1. cbn in Hrules1.
  assert (Processor.dispatch dt env (Some "MODIFY") (Processor.task_view new)
            (Some (Processor.task_view old)) w =
          Processor.schedule_expiry_event dt env (Processor.task_view new) w1) as Hdisp.
  { unfold Processor.dispatch. rewrite (dispatch_task_item _ sk) by done.
    unfold getitem. run. rewrite Hid. cbn.
    rewrite bool_decide_eq_false_2 by done. cbn.
    rewrite bool_decide_eq_true_2 by done.
    unfold Processor.get_if.
    rewrite (bool_decide_eq_false_2 (Processor.task_view old = ∅)).
    2:{ intros Hempty. rewrite Hempty, lookup_empty in Hst_old. done. }
    rewrite Hst, Hst_old, Hdn, Hdo.
    rewrite (bool_decide_eq_false_2 (_ ∈ _)).
    2:{ intros Hin. apply elem_of_cons in Hin as [Hin|Hin]; [done|].
        apply elem_of_cons in Hin as [Hin|Hin]; [done|].
        by apply elem_of_nil in Hin. }
    rewrite andb_false_r. rewrite !bool_decide_eq_true_2 by done. cbn.
    rewrite (bool_decide_eq_false_2 (d_old = "")) by done.
    rewrite (bool_decide_eq_false_2 (d_new = "")) by done.
    rewrite (bool_decide_eq_false_2 (Some d_old = Some d_new)) by congruence.
    cbn. fold w0. by rewrite Hcancel. }
  destruct (decide (now env < timestamp d)%Z) as [Hfut|Hpast].
  - rewrite bool_decide_eq_true_2 by done.
    destruct (schedule_future dt env (Processor.task_view new) d_new d
                task_id user_id pk sk w1)
      as (w2 & Hsched & Ht2 & Hp2 & Hq2 & Hcalls2 & Hrules2); try done.
    { rewrite Hrules1. apply lookup_delete_eq. }
    exists w2, calls. split.
    { apply process_modify. by rewrite Hdisp. }
    split_and!.
    + by rewrite Ht2, Ht1.
    + by rewrite Hp2, Hp1.
    + by rewrite Hq2, Hq1.
    + rewrite Hcalls2, Hcalls1. cbn. by rewrite <- !app_assoc.
    + done.
    + unfold trigger_of. rewrite Hrules2. apply lookup_insert_eq.
    + intros other Hother. rewrite Hrules2, Hrules1.
      rewrite lookup_insert_ne by done. by rewrite lookup_delete_ne.
  - rewrite bool_decide_eq_false_2 by done.
    destruct (schedule_past dt env (Processor.task_view new) d_new d task_id w1)
      as (w2 & Hsched & Ht2 & Hp2 & Hq2 & Hr2 & Hc2); try done; [lia|].
    exists w2, calls. split.
    { apply process_modify. by rewrite Hdisp. }
    split_and!.
    + by rewrite Ht2, Ht1.
    + by rewrite Hp2, Hp1.
    + by rewrite Hq2, Hq1.
    + rewrite Hc2, Hcalls1. cbn. by rewrite app_nil_r.
    + done.
    + unfold trigger_of. rewrite Hr2, Hrules1. apply lookup_delete_eq.
    + intros other Hother. rewrite Hr2, Hrules1. by rewrite lookup_delete_ne.
Qed.

Lemma modify_deadline_reschedules_witness :
  let new := Samples.image "Pending" Samples.d2030b in
  let old := Samples.image "Pending" Samples.d2030 in
  let d := mkDatetime 2030 6 15 8 5 1907741100 in
  let future := bool_decide (now Samples.env < timestamp d)%Z in
  let name := Processor.rule_name_of "t1" in
  ∃ w' cancel_calls,
    Processor.process_record Samples.clock Samples.env
      (message (Some "e1") "MODIFY" (Some new) (Some old)) Samples.scheduled_world
      = (inr tt, w') ∧
    table w' = table Samples.scheduled_world ∧
    published w' = published Samples.scheduled_world ∧
    queue w' = queue Samples.scheduled_world ∧
    api_calls w' =
      (api_calls Samples.scheduled_world ++
       (mkCall ListTargetsByRule name :: cancel_calls) ++
       (if future then [mkCall PutRule name; mkCall PutTargets name] else []))%list ∧
    Forall (λ c, is_cancel_op (call_op c) = true ∧ call_rule c = name) cancel_calls ∧
    trigger_of w' "t1" =
      (if future
       then Some (scheduled_rule Samples.env d "t1" "u1" "USER#u1" "TASK#t1")
       else None) ∧
    (∀ other, other ≠ name →
              rules w' !! other = rules Samples.scheduled_world !! other).
Proof.
  apply (modify_deadline_reschedules Samples.clock Samples.env (Some "e1")
           (Samples.image "Pending" Samples.d2030b)
           (Samples.image "Pending" Samples.d2030)
           "t1" "u1" "USER#u1" "TASK#t1" Samples.d2030 Samples.d2030b
           (mkDatetime 2030 6 15 8 5 1907741100) Samples.scheduled_world);
    try reflexivity; try (by vm_compute).
Defined.

(** C9.  A schedule action for a task whose deadline is not strictly in
    the future (deadline ≤ now) returns without sending any request to
    the registry: no rule is created or changed. *)
Theorem schedule_skipped_when_deadline_not_future dt env task s d task_id w :
  task !! "deadline" = Some s →
  fromisoformat_utc dt s = Some d →
  (timestamp d ≤ now env)%Z →
  task !! "taskId" = Some task_id →
  ∃ w', Processor.schedule_expiry_event dt env task w = (inr tt, w') ∧
        rules w' = rules w ∧ api_calls w' = api_calls w ∧
        trigger_of w' task_id = trigger_of w task_id.
Proof.
  intros Hd Hparse Hpast Hid.
  destruct (schedule_past dt env task s d task_id w Hd Hparse Hpast Hid)
    as (w' & Hrun & _ & _ & _ & Hr & Hc).
  exists w'. unfold trigger_of. by rewrite Hr.
Qed.

Lemma schedule_skipped_when_deadline_not_future_witness :
  ∃ w', Processor.schedule_expiry_event Samples.clock Samples.env
          (Processor.task_view (Samples.image "Pending" Samples.d2020))
          Samples.empty_world = (inr tt, w') ∧
        rules w' = rules Samples.empty_world ∧
        api_calls w' = api_calls Samples.empty_world ∧
        trigger_of w' "t1" = trigger_of Samples.empty_world "t1".
Proof.
  apply (schedule_skipped_when_deadline_not_future Samples.clock Samples.env
           (Processor.task_view (Samples.image "Pending" Samples.d2020))
           Samples.d2020 (mkDatetime 2020 1 1 0 0 1577836800) "t1"
           Samples.empty_world);
    [reflexivity | reflexivity | by vm_compute | reflexivity].
Defined.

(** A record whose item is not a task (its sort key does not begin with
    'TASK#', or its view is empty) is skipped when its images are there:
    nothing is requested, logged or raised. *)
Lemma non_task_record_is_skipped dt env event_id name new old w :
  (name = "INSERT" ∨ name = "MODIFY") ∧
    String.prefix "TASK#" (default "" (Processor.task_view new !! "SK")) = false ∨
  name = "REMOVE" ∧
    String.prefix "TASK#" (default "" (Processor.task_view old !! "SK")) = false →
  Processor.process_record dt env (message event_id name (Some new) (Some old)) w
    = (inr tt, w).
Proof.
  intros [[[-> | ->] H] | [-> H]].
  - apply process_insert. apply dispatch_skips_non_task. by right.
  - apply process_modify. apply dispatch_skips_non_task. by right.
  - apply process_remove. apply dispatch_skips_non_task. by right.
Qed.

(** C10.  An Insert record that carries no new image: reading the image
    raises AttributeError inside the loop body, the handler logs it and
    raises it again, so the record is failed instead of skipped. *)
Theorem absent_image_fails_record :
  let run := Processor.handler Samples.clock Samples.env
               (Samples.sqs_event (Samples.change "INSERT" None None))
               Samples.empty_world in
  run.1 = inl AttributeError ∧
  api_calls run.2 = [] ∧
  last (log run.2) = Some (Failure "Error processing SQS record" AttributeError).
Proof. vm_compute. by repeat split. Qed.

(** C5.  The registry is down.  An Insert record of a Pending task with a
    future deadline is answered with 200 although no trigger was created,
    and a Remove record is answered with 200 although the trigger is still
    live: the errors of the registry are logged inside
    [schedule_expiry_event] and [cancel_expiry_event] and never reach the
    handler's re-raise. *)
Theorem registry_failure_is_swallowed :
  let insert := Processor.handler Samples.clock Samples.env_events_down
                  (Samples.sqs_event
                     (Samples.change "INSERT"
                        (Some (Samples.image "Pending" Samples.d2030)) None))
                  Samples.pending_world in
  let remove := Processor.handler Samples.clock Samples.env_events_down
                  (Samples.sqs_event
                     (Samples.change "REMOVE" None
                        (Some (Samples.image "Pending" Samples.d2030))))
                  Samples.scheduled_world in
  insert.1 = inr (mkResponse 200 "Stream processing complete.") ∧
  trigger_of insert.2 "t1" = None ∧
  last (log insert.2) =
    Some (Failure "Error scheduling event for task t1" (ClientError "InternalException")) ∧
  remove.1 = inr (mkResponse 200 "Stream processing complete.") ∧
  trigger_of remove.2 "t1" = trigger_of Samples.scheduled_world "t1" ∧
  is_Some (trigger_of remove.2 "t1") ∧
  last (log remove.2) =
    Some (Failure "Error cancelling event for task t1" (ClientError "InternalException")).
Proof. vm_compute. repeat split; by eauto. Qed.

(** * Further properties of the handlers *)

(** ** Trigger names *)

Lemma rule_name_of_inj a b :
  Processor.rule_name_of a = Processor.rule_name_of b → a = b.
Proof.
  unfold Processor.rule_name_of. intros H.
  apply (inj (String.app Processor.RULE_NAME_PREFIX)) in H.
  by apply (inj (String.app "-")) in H.
Qed.

Section RegistryFrames.

Context (dt : PyDatetime) (env : Env).

(** A cancel action touches no rule but the task's, whatever the registry
    answers. *)
Lemma cancel_other_rules task_id w other :
  other ≠ Processor.rule_name_of task_id →
  rules (Processor.cancel_expiry_event env task_id w).2 !! other = rules w !! other.
Proof.
  intros Hother.
  unfold Processor.cancel_expiry_event, Events.list_targets_by_rule,
    Events.remove_targets, Events.delete_rule, Events.request,
    Events.lookup_rule, Events.store_rule, Events.drop_rule, Events.targets_of.
  run.
  repeat (case_match; simplify_eq/=);
    rewrite ?lookup_delete_ne, ?lookup_insert_ne by done; done.
Qed.

(** A schedule action touches neither the table, the queue nor the
    published messages, and no rule but the task's. *)
Lemma schedule_frame task w :
  let w' := (Processor.schedule_expiry_event dt env task w).2 in
  table w' = table w ∧ published w' = published w ∧ queue w' = queue w ∧
  ∀ other, task !! "taskId" ≠ None →
           other ≠ Processor.rule_name_of (str (task !! "taskId")) →
           rules w' !! other = rules w !! other.
Proof.
  cbn zeta.
  unfold Processor.schedule_expiry_event, Events.put_rule, Events.put_targets,
    Events.request, Events.targets_of, Events.store_rule, Events.lookup_rule, getitem.
  run.
  repeat (case_match; simplify_eq/=); repeat split; try done;
    intros other _ Hother; cbn in Hother;
    rewrite ?lookup_insert_ne by done; done.
Qed.

(** What a schedule action does when the deadline is ahead and the
    registry is up, whether or not the rule exists already. *)
Lemma schedule_future_any task s d task_id user_id pk sk w :
  truthy (EXPIRY_HANDLER_ARN env) = true →
  task !! "deadline" = Some s →
  fromisoformat_utc dt s = Some d →
  (now env < timestamp d)%Z →
  task !! "taskId" = Some task_id →
  task !! "userId" = Some user_id →
  task !! "PK" = Some pk →
  task !! "SK" = Some sk →
  (∀ op, events_fault env op = None) →
  ∃ w', Processor.schedule_expiry_event dt env task w = (inr tt, w') ∧
        table w' = table w ∧ published w' = published w ∧ queue w' = queue w ∧
        api_calls w' =
          (api_calls w ++
           [mkCall PutRule (Processor.rule_name_of task_id);
            mkCall PutTargets (Processor.rule_name_of task_id)])%list ∧
        rules w' =
          <[Processor.rule_name_of task_id :=
              mkRule (Processor.cron_of d) "ENABLED"
                ("Expires task " +:+ task_id +:+ " for user " +:+ user_id +:+ ".")
                (<["ExpiryLambdaTarget" :=
                     mkTarget (str (EXPIRY_HANDLER_ARN env))
                              (trigger_payload task_id user_id pk sk)]>
                   (default ∅ (Targets <$> rules w !! Processor.rule_name_of task_id)))]>
            (rules w).
Proof.
  intros Harn Hd Hparse Hfut Hid Huid Hpk Hsk Hup.
  unfold Processor.schedule_expiry_event. rewrite Harn. cbn.
  unfold getitem. run. rewrite Hd. cbn. rewrite Hparse. cbn.
  rewrite bool_decide_eq_false_2 by lia. rewrite Hid. cbn.
  rewrite Huid. cbn. rewrite Hpk. cbn. rewrite Hsk. cbn.
  unfold Events.put_rule, Events.put_targets, Events.request, Events.targets_of,
    Events.store_rule, Events.lookup_rule.
  run. rewrite !Hup. cbn. rewrite lookup_insert_eq. cbn.
  eexists; split; [done|]. cbn. repeat split.
  - by rewrite <- app_assoc.
  - by rewrite insert_insert_eq.
Qed.

(** [dispatch] sends requests for the rule of its task only. *)
Lemma dispatch_other_rules event_name task old_task w b :
  task !! "taskId" ≠ Some b →
  rules (Processor.dispatch dt env event_name task old_task w).2
    !! Processor.rule_name_of b = rules w !! Processor.rule_name_of b.
Proof.
  intros Hb. unfold Processor.dispatch.
  destruct (_ || _); [done|].
  unfold getitem. destruct (task !! "taskId") as [task_id|] eqn:Hid; [|done].
  assert (Processor.rule_name_of b ≠ Processor.rule_name_of task_id) as Hother.
  { intros Heq. apply rule_name_of_inj in Heq. congruence. }
  run.
  assert (∀ w0, rules (Processor.schedule_expiry_event dt env task w0).2
                  !! Processor.rule_name_of b
                = rules w0 !! Processor.rule_name_of b) as Hsched.
  { intros w0. apply (schedule_frame task w0); [by rewrite Hid|].
    by rewrite Hid. }
  assert (∀ w0, rules (Processor.cancel_expiry_event env task_id w0).2
                  !! Processor.rule_name_of b
                = rules w0 !! Processor.rule_name_of b) as Hcancel.
  { intros w0. by apply cancel_other_rules. }
  repeat (case_match; simplify_eq/=); rewrite ?Hsched, ?Hcancel; try done.
  all: match goal with
       | H : Processor.cancel_expiry_event _ _ ?w1 = (_, _) |- _ =>
           pose proof (Hcancel w1) as Hc; rewrite H in Hc; cbn in Hc
       end.
  all: by rewrite ?Hsched.
Qed.

(** The loop body's [except] only logs before raising again. *)
Lemma reraise_same_services (c : Run unit) msg w :
  let r := try_except c (λ e, print (Failure msg e);; raise e) w in
  r.1 = (c w).1 ∧ same_services (c w).2 r.2.
Proof.
  cbn zeta. run. destruct (c w) as [[e|[]] w1]; cbn; by repeat split.
Qed.

(** The views the loop body hands to [dispatch], when it gets that far. *)
Lemma process_record_cases record w :
  (∃ event_name task old_task,
     Processor.process_record dt env record w =
       try_except (Processor.dispatch dt env event_name task old_task)
         (λ e, print (Failure "Error processing SQS record" e);; raise e) w ∧
     ∃ r images, Processor.body record = Json r ∧ dynamodb r = Some images ∧
       event_name = eventName r ∧
       (task = default ∅ (Processor.task_view <$> NewImage images) ∨
        task = default ∅ (Processor.task_view <$> OldImage images))) ∨
  (∃ e, Processor.process_record dt env record w =
          (inl e, set_log (log w ++ [Failure "Error processing SQS record" e]) w)) ∨
  Processor.process_record dt env record w = (inr tt, w).
Proof.
  unfold Processor.process_record, Processor.json_loads, Processor.images_of,
    Processor.get_task_details.
  destruct record as [[r|text]]; cbn; [|right; left; by eexists].
  destruct r as [eid name [[new old]|]]; cbn.
  - run. repeat case_bool_decide; cbn.
    + destruct new as [i|]; cbn; [|right; left; by eexists].
      left. eexists _, _, _. split; [done|]. eexists _, _. repeat split. by left.
    + destruct new as [i|]; cbn; [|right; left; by eexists].
      destruct old as [o|]; cbn; [|right; left; by eexists].
      left. eexists _, _, _. split; [done|]. eexists _, _. repeat split. by left.
    + destruct old as [o|]; cbn; [|right; left; by eexists].
      left. eexists _, _, _. split; [done|]. eexists _, _. repeat split. by right.
    + by right; right.
  - run. repeat case_bool_decide; cbn; try (right; left; by eexists).
    by right; right.
Qed.

Lemma dispatch_keeps_data event_name task old_task w :
  let w' := (Processor.dispatch dt env event_name task old_task w).2 in
  table w' = table w ∧ published w' = published w ∧ queue w' = queue w.
Proof.
  cbn zeta. unfold Processor.dispatch.
  destruct (_ || _); [done|].
  unfold getitem. destruct (task !! "taskId") as [task_id|] eqn:Hid; [|done].
  run.
  assert (∀ w0, let w' := (Processor.cancel_expiry_event env task_id w0).2 in
                table w' = table w0 ∧ published w' = published w0 ∧ queue w' = queue w0)
    as Hcancel.
  { intros w0. destruct (cancel_always_returns env task_id w0)
      as (w' & calls & -> & ? & ? & ? & _). done. }
  assert (∀ w0, let w' := (Processor.schedule_expiry_event dt env task w0).2 in
                table w' = table w0 ∧ published w' = published w0 ∧ queue w' = queue w0)
    as Hsched.
  { intros w0. destruct (schedule_frame task w0) as (? & ? & ? & _). done. }
  repeat (case_match; simplify_eq/=); try done; try apply Hsched; try apply Hcancel.
  all: match goal with
       | H : Processor.cancel_expiry_event _ _ ?w1 = (_, _) |- _ =>
           pose proof (Hcancel w1) as Hc; rewrite H in Hc; cbn in Hc
       end.
  all: try done.
  all: destruct Hc as (<- & <- & <-); apply Hsched.
Qed.

(** Processing a change record never writes to the table, the queue or
    the notification topic. *)
Lemma process_record_keeps_data record w :
  let w' := (Processor.process_record dt env record w).2 in
  table w' = table w ∧ published w' = published w ∧ queue w' = queue w.
Proof.
  cbn zeta.
  destruct (process_record_cases record w)
    as [(name & task & old & -> & _) | [(e & ->) | ->]]; try done.
  destruct (reraise_same_services (Processor.dispatch dt env name task old)
              "Error processing SQS record" w) as (_ & Ht & Hp & Hq & _).
  destruct (dispatch_keeps_data name task old w) as (Ht' & Hp' & Hq').
  cbn zeta in *. by rewrite Ht, Hp, Hq.
Qed.

Lemma process_records_keeps_data records w :
  let w' := (Processor.process_records dt env records w).2 in
  table w' = table w ∧ published w' = published w ∧ queue w' = queue w.
Proof.
  cbn zeta. revert w. induction records as [|r rs IH]; intros w; [done|].
  cbn. run. destruct (process_record_keeps_data r w) as (Ht & Hp & Hq).
  cbn zeta in *.
  destruct (Processor.process_record dt env r w) as [[e|[]] w1]; [done|].
  cbn in *. destruct (IH w1) as (-> & -> & ->). done.
Qed.

(** [dispatch] on a task item, by kind of record. *)
Lemma dispatch_insert task old_task sk task_id w :
  task !! "SK" = Some sk →
  String.prefix "TASK#" sk = true →
  task !! "taskId" = Some task_id →
  Processor.dispatch dt env (Some "INSERT") task old_task w =
    match task !! "status" with
    | Some status =>
        if bool_decide (status = "Pending")
        then Processor.schedule_expiry_event dt env task w
        else (inr tt, w)
    | None => (inl (KeyError "status"), w)
    end.
Proof.
  intros Hsk Hpre Hid. unfold Processor.dispatch.
  rewrite (dispatch_task_item _ sk) by done.
  unfold getitem. run. rewrite Hid. cbn.
  rewrite bool_decide_eq_true_2 by done.
  destruct (task !! "status") as [status|]; cbn; [|done].
  case_bool_decide; cbn; [done|].
  by do 2 rewrite bool_decide_eq_false_2 by done.
Qed.

Lemma dispatch_modify task old_task sk task_id w :
  task !! "SK" = Some sk →
  String.prefix "TASK#" sk = true →
  task !! "taskId" = Some task_id →
  Processor.dispatch dt env (Some "MODIFY") task old_task w =
    let new_status := task !! "status" in
    let old_status := Processor.get_if old_task "status" in
    if bool_decide (old_status = Some "Pending") &&
       bool_decide (new_status ∈ [Some "Completed"; Some "Expired"])
    then Processor.cancel_expiry_event env task_id w
    else if bool_decide (new_status = Some "Pending") &&
            bool_decide (old_status = Some "Pending")
    then
      let old_deadline := Processor.get_if old_task "deadline" in
      let new_deadline := task !! "deadline" in
      if truthy old_deadline && truthy new_deadline &&
         negb (bool_decide (old_deadline = new_deadline))
      then
        (print (Info ("Deadline changed for task " +:+ task_id +:+
                      ". Rescheduling expiry event."));;
         Processor.cancel_expiry_event env task_id;;
         Processor.schedule_expiry_event dt env task) w
      else (inr tt, w)
    else (inr tt, w).
Proof.
  intros Hsk Hpre Hid. unfold Processor.dispatch.
  rewrite (dispatch_task_item _ sk) by done.
  unfold getitem. run. rewrite Hid. cbn.
  rewrite bool_decide_eq_false_2 by done. cbn.
  rewrite bool_decide_eq_true_2 by done.
  repeat (case_match; simplify_eq/=); done.
Qed.

Lemma dispatch_remove task old_task sk task_id w :
  task !! "SK" = Some sk →
  String.prefix "TASK#" sk = true →
  task !! "taskId" = Some task_id →
  Processor.dispatch dt env (Some "REMOVE") task old_task w =
    Processor.cancel_expiry_event env task_id w.
Proof.
  intros Hsk Hpre Hid. unfold Processor.dispatch.
  rewrite (dispatch_task_item _ sk) by done.
  unfold getitem. run. rewrite Hid. cbn.
  do 2 rewrite bool_decide_eq_false_2 by done.
  by rewrite bool_decide_eq_true_2.
Qed.

Lemma process_records_app before after w :
  Processor.process_records dt env (before ++ after) w =
    match Processor.process_records dt env before w with
    | (inr _, w1) => Processor.process_records dt env after w1
    | (inl e, w1) => (inl e, w1)
    end.
Proof.
  revert w. induction before as [|r rs IH]; intros w; [done|].
  cbn. run. destruct (Processor.process_record dt env r w) as [[e|[]] w1]; [done|].
  apply IH.
Qed.

(** The loop body on the three kinds of record, images present. *)
Lemma process_insert_eq event_id i old w :
  Processor.process_record dt env (message event_id "INSERT" (Some i) old) w =
    try_except (Processor.dispatch dt env (Some "INSERT") (Processor.task_view i) None)
      (λ e, print (Failure "Error processing SQS record" e);; raise e) w.
Proof.
  unfold Processor.process_record, message. run.
  by rewrite bool_decide_eq_true_2.
Qed.

Lemma process_modify_eq event_id i o w :
  Processor.process_record dt env (message event_id "MODIFY" (Some i) (Some o)) w =
    try_except (Processor.dispatch dt env (Some "MODIFY") (Processor.task_view i)
                  (Some (Processor.task_view o)))
      (λ e, print (Failure "Error processing SQS record" e);; raise e) w.
Proof.
  unfold Processor.process_record, message. run.
  rewrite bool_decide_eq_false_2 by done.
  by rewrite bool_decide_eq_true_2.
Qed.

Lemma process_remove_eq event_id new o w :
  Processor.process_record dt env (message event_id "REMOVE" new (Some o)) w =
    try_except (Processor.dispatch dt env (Some "REMOVE") (Processor.task_view o) None)
      (λ e, print (Failure "Error processing SQS record" e);; raise e) w.
Proof.
  unfold Processor.process_record, message. run.
  do 2 rewrite bool_decide_eq_false_2 by done.
  by rewrite bool_decide_eq_true_2.
Qed.

End RegistryFrames.

(** ** process_stream.py: the decision table, row by row *)

(** X9.  A new Pending task whose deadline is ahead gets its trigger: the rule
    named after the task, with the cron expression of the deadline, enabled,
    and one target that passes the task's id, owner and key to the expiry
    handler.  Two requests are sent, put_rule then put_targets. *)
Theorem insert_pending_schedules_trigger
    dt env event_id new old task_id user_id pk sk deadline d w :
  Processor.task_view new !! "SK" = Some sk →
  String.prefix "TASK#" sk = true →
  Processor.task_view new !! "taskId" = Some task_id →
  Processor.task_view new !! "userId" = Some user_id →
  Processor.task_view new !! "PK" = Some pk →
  Processor.task_view new !! "status" = Some "Pending" →
  Processor.task_view new !! "deadline" = Some deadline →
  fromisoformat_utc dt deadline = Some d →
  (now env < timestamp d)%Z →
  truthy (EXPIRY_HANDLER_ARN env) = true →
  (∀ op, events_fault env op = None) →
  trigger_of w task_id = None →
  ∃ w', Processor.process_record dt env (message event_id "INSERT" (Some new) old) w
          = (inr tt, w') ∧
        api_calls w' =
          (api_calls w ++ [mkCall PutRule (Processor.rule_name_of task_id);
                           mkCall PutTargets (Processor.rule_name_of task_id)])%list ∧
        trigger_of w' task_id = Some (scheduled_rule env d task_id user_id pk sk) ∧
        ∀ other, other ≠ task_id → trigger_of w' other = trigger_of w other.
Proof.
  intros Hsk Hpre Hid Huid Hpk Hst Hd Hparse Hfut Harn Hup Hfree.
  destruct (schedule_future dt env (Processor.task_view new) deadline d
              task_id user_id pk sk w)
    as (w' & Hrun & _ & _ & _ & Hcalls & Hrules); try done.
  exists w'. split.
  { apply process_insert. rewrite (dispatch_insert dt env _ _ sk task_id) by done.
    rewrite Hst. by rewrite bool_decide_eq_true_2. }
  split; [done|]. unfold trigger_of. rewrite Hrules. split.
  - apply lookup_insert_eq.
  - intros other Hother. apply lookup_insert_ne.
    intros Heq. by apply rule_name_of_inj in Heq.
Qed.

Lemma insert_pending_schedules_trigger_witness :
  ∃ w', Processor.process_record Samples.clock Samples.env
          (message (Some "e1") "INSERT"
             (Some (Samples.image "Pending" Samples.d2030)) None)
          Samples.pending_world = (inr tt, w') ∧
        api_calls w' =
          (api_calls Samples.pending_world ++
           [mkCall PutRule (Processor.rule_name_of "t1");
            mkCall PutTargets (Processor.rule_name_of "t1")])%list ∧
        trigger_of w' "t1" =
          Some (scheduled_rule Samples.env (mkDatetime 2030 1 1 10 30 1893493800)
                  "t1" "u1" "USER#u1" "TASK#t1") ∧
        ∀ other, other ≠ "t1" →
                 trigger_of w' other = trigger_of Samples.pending_world other.
Proof.
  apply (insert_pending_schedules_trigger Samples.clock Samples.env (Some "e1")
           (Samples.image "Pending" Samples.d2030) None
           "t1" "u1" "USER#u1" "TASK#t1" Samples.d2030
           (mkDatetime 2030 1 1 10 30 1893493800) Samples.pending_world);
    try reflexivity; by vm_compute.
Defined.

(** X10.  A redelivered Insert record is harmless: processing it a second time
    succeeds again and leaves the registry exactly as the first time left
    it. *)
Theorem insert_redelivery_is_idempotent
    dt env event_id new old task_id user_id pk sk deadline d w :
  Processor.task_view new !! "SK" = Some sk →
  String.prefix "TASK#" sk = true →
  Processor.task_view new !! "taskId" = Some task_id →
  Processor.task_view new !! "userId" = Some user_id →
  Processor.task_view new !! "PK" = Some pk →
  Processor.task_view new !! "status" = Some "Pending" →
  Processor.task_view new !! "deadline" = Some deadline →
  fromisoformat_utc dt deadline = Some d →
  (now env < timestamp d)%Z →
  truthy (EXPIRY_HANDLER_ARN env) = true →
  (∀ op, events_fault env op = None) →
  let record := message event_id "INSERT" (Some new) old in
  let first := Processor.process_record dt env record w in
  let second := Processor.process_record dt env record first.2 in
  first.1 = inr tt ∧ second.1 = inr tt ∧ rules second.2 = rules first.2.
Proof.
  intros Hsk Hpre Hid Huid Hpk Hst Hd Hparse Hfut Harn Hup. cbn zeta.
  assert (∀ w0, Processor.process_record dt env
                  (message event_id "INSERT" (Some new) old) w0 =
                Processor.schedule_expiry_event dt env (Processor.task_view new) w0)
    as Hrec.
  { intros w0.
    destruct (schedule_future_any dt env (Processor.task_view new) deadline d
                task_id user_id pk sk w0) as (w' & Hrun & _); try done.
    rewrite Hrun. apply process_insert.
    rewrite (dispatch_insert dt env _ _ sk task_id) by done.
    rewrite Hst. by rewrite bool_decide_eq_true_2. }
  rewrite !Hrec.
  destruct (schedule_future_any dt env (Processor.task_view new) deadline d
              task_id user_id pk sk w) as (w1 & Hrun1 & _ & _ & _ & _ & Hr1); try done.
  rewrite Hrun1. cbn.
  destruct (schedule_future_any dt env (Processor.task_view new) deadline d
              task_id user_id pk sk w1) as (w2 & Hrun2 & _ & _ & _ & _ & Hr2); try done.
  rewrite Hrun2. cbn. split; [done|]. split; [done|].
  rewrite Hr2. rewrite Hr1 at 1. rewrite lookup_insert_eq. cbn.
  rewrite insert_insert_eq. rewrite Hr1. rewrite insert_insert_eq. done.
Qed.

Lemma insert_redelivery_is_idempotent_witness :
  let record := message (Some "e1") "INSERT"
                  (Some (Samples.image "Pending" Samples.d2030)) None in
  let first := Processor.process_record Samples.clock Samples.env record
                 Samples.pending_world in
  let second := Processor.process_record Samples.clock Samples.env record first.2 in
  first.1 = inr tt ∧ second.1 = inr tt ∧ rules second.2 = rules first.2.
Proof.
  apply (insert_redelivery_is_idempotent Samples.clock Samples.env (Some "e1")
           (Samples.image "Pending" Samples.d2030) None
           "t1" "u1" "USER#u1" "TASK#t1" Samples.d2030
           (mkDatetime 2030 1 1 10 30 1893493800) Samples.pending_world);
    try reflexivity; by vm_compute.
Defined.

(** X11.  An Insert record followed by the Remove record of the same task
    leaves the registry as it was before the task existed. *)
Theorem insert_then_remove_restores_registry
    dt env e1 e2 image old new' task_id user_id pk sk deadline d w :
  Processor.task_view image !! "SK" = Some sk →
  String.prefix "TASK#" sk = true →
  Processor.task_view image !! "taskId" = Some task_id →
  Processor.task_view image !! "userId" = Some user_id →
  Processor.task_view image !! "PK" = Some pk →
  Processor.task_view image !! "status" = Some "Pending" →
  Processor.task_view image !! "deadline" = Some deadline →
  fromisoformat_utc dt deadline = Some d →
  (now env < timestamp d)%Z →
  truthy (EXPIRY_HANDLER_ARN env) = true →
  (∀ op, events_fault env op = None) →
  trigger_of w task_id = None →
  let inserted := Processor.process_record dt env
                    (message e1 "INSERT" (Some image) old) w in
  let removed := Processor.process_record dt env
                   (message e2 "REMOVE" new' (Some image)) inserted.2 in
  inserted.1 = inr tt ∧ is_Some (trigger_of inserted.2 task_id) ∧
  removed.1 = inr tt ∧ rules removed.2 = rules w.
Proof.
  intros Hsk Hpre Hid Huid Hpk Hst Hd Hparse Hfut Harn Hup Hfree. cbn zeta.
  destruct (schedule_future dt env (Processor.task_view image) deadline d
              task_id user_id pk sk w)
    as (w1 & Hrun & _ & _ & _ & _ & Hrules); try done.
  assert (Processor.process_record dt env (message e1 "INSERT" (Some image) old) w
          = (inr tt, w1)) as ->.
  { apply process_insert. rewrite (dispatch_insert dt env _ _ sk task_id) by done.
    rewrite Hst. by rewrite bool_decide_eq_true_2. }
  cbn. split; [done|]. split.
  { unfold trigger_of. rewrite Hrules, lookup_insert_eq. by eexists. }
  destruct (cancel_always_returns env task_id w1) as (w2 & calls & Hcancel & _).
  pose proof (cancel_deletes_rule env task_id w1 Hup) as Hdel.
  rewrite Hcancel in Hdel. cbn in Hdel.
  assert (Processor.process_record dt env (message e2 "REMOVE" new' (Some image)) w1
          = (inr tt, w2)) as ->.
  { apply process_remove. by rewrite (dispatch_remove dt env _ _ sk task_id). }
  cbn. split; [done|]. rewrite Hdel, Hrules, delete_insert_eq.
  by apply delete_id.
Qed.

Lemma insert_then_remove_restores_registry_witness :
  let inserted := Processor.process_record Samples.clock Samples.env
                    (message (Some "e1") "INSERT"
                       (Some (Samples.image "Pending" Samples.d2030)) None)
                    Samples.pending_world in
  let removed := Processor.process_record Samples.clock Samples.env
                   (message (Some "e2") "REMOVE" None
                      (Some (Samples.image "Pending" Samples.d2030))) inserted.2 in
  inserted.1 = inr tt ∧ is_Some (trigger_of inserted.2 "t1") ∧
  removed.1 = inr tt ∧ rules removed.2 = rules Samples.pending_world.
Proof.
  apply (insert_then_remove_restores_registry Samples.clock Samples.env
           (Some "e1") (Some "e2") (Samples.image "Pending" Samples.d2030) None None
           "t1" "u1" "USER#u1" "TASK#t1" Samples.d2030
           (mkDatetime 2030 1 1 10 30 1893493800) Samples.pending_world);
    try reflexivity; by vm_compute.
Defined.

(** X12.  A Modify record that takes a Pending task to Completed or Expired
    runs the cancel action and nothing else: the record is not failed in
    any environment, only cancel requests are sent, and with the registry
    up the task has no trigger afterwards. *)
Theorem modify_to_terminal_cancels
    dt env event_id new old task_id sk status w :
  Processor.task_view new !! "SK" = Some sk →
  String.prefix "TASK#" sk = true →
  Processor.task_view new !! "taskId" = Some task_id →
  Processor.task_view old !! "status" = Some "Pending" →
  Processor.task_view new !! "status" = Some status →
  status = "Completed" ∨ status = "Expired" →
  ∃ w' calls,
    Processor.process_record dt env
      (message event_id "MODIFY" (Some new) (Some old)) w = (inr tt, w') ∧
    api_calls w' =
      (api_calls w ++
       mkCall ListTargetsByRule (Processor.rule_name_of task_id) :: calls)%list ∧
    Forall (λ c, is_cancel_op (call_op c) = true ∧
                 call_rule c = Processor.rule_name_of task_id) calls ∧
    ((∀ op, events_fault env op = None) → trigger_of w' task_id = None).
Proof.
  intros Hsk Hpre Hid Hold Hnew Hterminal.
  destruct (cancel_always_returns env task_id w)
    as (w' & calls & Hrun & _ & _ & _ & Hcalls & Hall).
  exists w', calls. split.
  - apply process_modify. rewrite (dispatch_modify dt env _ _ sk task_id) by done.
    cbn zeta. unfold Processor.get_if.
    rewrite (bool_decide_eq_false_2 (Processor.task_view old = ∅)).
    2:{ intros Hempty. by rewrite Hempty, lookup_empty in Hold. }
    rewrite Hold, Hnew. rewrite bool_decide_eq_true_2 by done.
    rewrite bool_decide_eq_true_2; [done|].
    destruct Hterminal as [-> | ->].
    + apply elem_of_cons. by left.
    + apply elem_of_cons. right. apply elem_of_cons. by left.
  - split; [done|]. split; [done|].
    intros Hup. unfold trigger_of.
    pose proof (cancel_deletes_rule env task_id w Hup) as Hdel.
    rewrite Hrun in Hdel. cbn in Hdel. rewrite Hdel. apply lookup_delete_eq.
Qed.

Lemma modify_to_terminal_cancels_witness :
  ∃ w' calls,
    Processor.process_record Samples.clock Samples.env
      (message (Some "e1") "MODIFY"
         (Some (Samples.image "Completed" Samples.d2030))
         (Some (Samples.image "Pending" Samples.d2030))) Samples.scheduled_world
      = (inr tt, w') ∧
    api_calls w' =
      (api_calls Samples.scheduled_world ++
       mkCall ListTargetsByRule (Processor.rule_name_of "t1") :: calls)%list ∧
    Forall (λ c, is_cancel_op (call_op c) = true ∧
                 call_rule c = Processor.rule_name_of "t1") calls ∧
    ((∀ op, events_fault Samples.env op = None) → trigger_of w' "t1" = None).
Proof.
  apply (modify_to_terminal_cancels Samples.clock Samples.env (Some "e1")
           (Samples.image "Completed" Samples.d2030)
           (Samples.image "Pending" Samples.d2030)
           "t1" "TASK#t1" "Completed" Samples.scheduled_world);
    try reflexivity. by left.
Defined.

(** X13.  A Modify record of a task that was not Pending before is ignored,
    whatever its new image says: nothing is requested or logged.  This
    includes a task set back to Pending, which gets no new trigger. *)
Theorem modify_of_settled_task_is_ignored dt env event_id new old task_id sk w :
  Processor.task_view new !! "SK" = Some sk →
  String.prefix "TASK#" sk = true →
  Processor.task_view new !! "taskId" = Some task_id →
  Processor.task_view old !! "status" ≠ Some "Pending" →
  Processor.process_record dt env (message event_id "MODIFY" (Some new) (Some old)) w
    = (inr tt, w).
Proof.
  intros Hsk Hpre Hid Hold. apply process_modify.
  rewrite (dispatch_modify dt env _ _ sk task_id) by done. cbn zeta.
  assert (Processor.get_if (Some (Processor.task_view old)) "status" ≠ Some "Pending")
    as Hget.
  { unfold Processor.get_if. by case_bool_decide. }
  rewrite (bool_decide_eq_false_2 (Processor.get_if _ _ = _)) by done.
  cbn. by rewrite andb_false_r.
Qed.

Lemma modify_of_settled_task_is_ignored_witness :
  Processor.process_record Samples.clock Samples.env
    (message (Some "e1") "MODIFY"
       (Some (Samples.image "Pending" Samples.d2030b))
       (Some (Samples.image "Completed" Samples.d2030))) Samples.completed_world
    = (inr tt, Samples.completed_world).
Proof.
  apply (modify_of_settled_task_is_ignored Samples.clock Samples.env (Some "e1")
           (Samples.image "Pending" Samples.d2030b)
           (Samples.image "Completed" Samples.d2030)
           "t1" "TASK#t1" Samples.completed_world);
    try reflexivity. by vm_compute.
Defined.

(** X14.  A Modify record that keeps a task Pending and does not change its
    deadline is ignored: nothing is requested or logged. *)
Theorem modify_same_deadline_is_ignored dt env event_id new old task_id sk w :
  Processor.task_view new !! "SK" = Some sk →
  String.prefix "TASK#" sk = true →
  Processor.task_view new !! "taskId" = Some task_id →
  Processor.task_view new !! "status" = Some "Pending" →
  Processor.task_view old !! "status" = Some "Pending" →
  Processor.task_view new !! "deadline" = Processor.task_view old !! "deadline" →
  Processor.process_record dt env (message event_id "MODIFY" (Some new) (Some old)) w
    = (inr tt, w).
Proof.
  intros Hsk Hpre Hid Hnew Hold Hsame. apply process_modify.
  rewrite (dispatch_modify dt env _ _ sk task_id) by done. cbn zeta.
  unfold Processor.get_if.
  rewrite (bool_decide_eq_false_2 (Processor.task_view old = ∅)).
  2:{ intros Hempty. by rewrite Hempty, lookup_empty in Hold. }
  rewrite Hold, Hnew, Hsame.
  rewrite (bool_decide_eq_false_2 (_ ∈ _)).
  2:{ intros Hin. apply elem_of_cons in Hin as [Hin|Hin]; [done|].
      apply elem_of_cons in Hin as [Hin|Hin]; [done|].
      by apply elem_of_nil in Hin. }
  rewrite andb_false_r. rewrite !bool_decide_eq_true_2 by done. cbn.
  by rewrite andb_false_r.
Qed.

Lemma modify_same_deadline_is_ignored_witness :
  Processor.process_record Samples.clock Samples.env
    (message (Some "e1") "MODIFY"
       (Some (AttrS <$> <["description" := "Buy bread"]>
                          (Samples.item "Pending" Samples.d2030)))
       (Some (Samples.image "Pending" Samples.d2030))) Samples.scheduled_world
    = (inr tt, Samples.scheduled_world).
Proof.
  apply (modify_same_deadline_is_ignored Samples.clock Samples.env (Some "e1")
           (AttrS <$> <["description" := "Buy bread"]>
                        (Samples.item "Pending" Samples.d2030))
           (Samples.image "Pending" Samples.d2030)
           "t1" "TASK#t1" Samples.scheduled_world); reflexivity.
Defined.

(** An Insert record of a task that is not Pending is ignored. *)
Theorem insert_not_pending_is_ignored dt env event_id new old task_id sk status w :
  Processor.task_view new !! "SK" = Some sk →
  String.prefix "TASK#" sk = true →
  Processor.task_view new !! "taskId" = Some task_id →
  Processor.task_view new !! "status" = Some status →
  status ≠ "Pending" →
  Processor.process_record dt env (message event_id "INSERT" (Some new) old) w
    = (inr tt, w).
Proof.
  intros Hsk Hpre Hid Hst Hne. apply process_insert.
  rewrite (dispatch_insert dt env _ _ sk task_id) by done.
  rewrite Hst. by rewrite bool_decide_eq_false_2.
Qed.

Lemma insert_not_pending_is_ignored_witness :
  Processor.process_record Samples.clock Samples.env
    (message (Some "e1") "INSERT"
       (Some (Samples.image "Completed" Samples.d2030)) None) Samples.empty_world
    = (inr tt, Samples.empty_world).
Proof.
  apply (insert_not_pending_is_ignored Samples.clock Samples.env (Some "e1")
           (Samples.image "Completed" Samples.d2030) None
           "t1" "TASK#t1" "Completed" Samples.empty_world);
    try reflexivity. by vm_compute.
Defined.

(** ** process_stream.py: errors and edges *)

(** A record whose event name is none of INSERT, MODIFY and REMOVE (or
    is missing) is passed over before its images are read: nothing is
    requested, logged or raised, even when the record has no 'dynamodb'
    part. *)
Theorem unknown_event_is_ignored dt env r w :
  eventName r ≠ Some "INSERT" →
  eventName r ≠ Some "MODIFY" →
  eventName r ≠ Some "REMOVE" →
  Processor.process_record dt env (Processor.mkSqsRecord (Json r)) w = (inr tt, w).
Proof.
  intros Hi Hm Hr. unfold Processor.process_record. run.
  by rewrite !bool_decide_eq_false_2.
Qed.

Lemma unknown_event_is_ignored_witness :
  Processor.process_record Samples.clock Samples.env
    (Processor.mkSqsRecord (Json (mkStreamRecord (Some "e1") (Some "BATCH") None)))
    Samples.empty_world = (inr tt, Samples.empty_world).
Proof.
  apply (unknown_event_is_ignored Samples.clock Samples.env
           (mkStreamRecord (Some "e1") (Some "BATCH") None) Samples.empty_world);
    by vm_compute.
Defined.

(** X15.  A task item whose image has no taskId fails its record, whatever the
    kind of record: KeyError is logged and raised again, and no request
    reaches the registry. *)
Theorem task_without_id_fails_record dt env event_id name new old image sk w :
  (name = "INSERT" ∧ new = Some image) ∨
  (name = "MODIFY" ∧ new = Some image ∧ is_Some old) ∨
  (name = "REMOVE" ∧ old = Some image) →
  Processor.task_view image !! "SK" = Some sk →
  String.prefix "TASK#" sk = true →
  Processor.task_view image !! "taskId" = None →
  Processor.process_record dt env (message event_id name new old) w =
    (inl (KeyError "taskId"),
     set_log (log w ++ [Failure "Error processing SQS record" (KeyError "taskId")]) w).
Proof.
  intros Hkind Hsk Hpre Hid.
  assert (∀ event_name old_task,
            Processor.dispatch dt env event_name (Processor.task_view image) old_task w
            = (inl (KeyError "taskId"), w)) as Hdisp.
  { intros event_name old_task. unfold Processor.dispatch.
    rewrite (dispatch_task_item _ sk) by done.
    unfold getitem. by rewrite Hid. }
  destruct Hkind as [[-> ->] | [(-> & -> & [o ->]) | [-> ->]]].
  - rewrite process_insert_eq. run. by rewrite Hdisp.
  - rewrite process_modify_eq. run. by rewrite Hdisp.
  - rewrite process_remove_eq. run. by rewrite Hdisp.
Qed.

Lemma task_without_id_fails_record_witness :
  Processor.process_record Samples.clock Samples.env
    (message (Some "e1") "INSERT"
       (Some (<["status" := AttrS "Completed"]>
                (<["SK" := AttrS "TASK#t9"]> {[ "PK" := AttrS "USER#u1" ]})))
       None) Samples.empty_world =
    (inl (KeyError "taskId"),
     set_log (log Samples.empty_world ++
              [Failure "Error processing SQS record" (KeyError "taskId")])
       Samples.empty_world).
Proof.
  apply (task_without_id_fails_record Samples.clock Samples.env (Some "e1") "INSERT"
           (Some (<["status" := AttrS "Completed"]>
                    (<["SK" := AttrS "TASK#t9"]> {[ "PK" := AttrS "USER#u1" ]})))
           None
           (<["status" := AttrS "Completed"]>
              (<["SK" := AttrS "TASK#t9"]> {[ "PK" := AttrS "USER#u1" ]}))
           "TASK#t9" Samples.empty_world);
    [by left | reflexivity | reflexivity | reflexivity].
Defined.

(** X16.  A new Pending task whose deadline the datetime library cannot read
    fails its record: the ValueError of the parse is outside the [try] of
    the schedule action, so it is logged by the handler and raised again;
    no request reaches the registry. *)
Theorem unreadable_deadline_fails_record
    dt env event_id new old task_id sk deadline w :
  Processor.task_view new !! "SK" = Some sk →
  String.prefix "TASK#" sk = true →
  Processor.task_view new !! "taskId" = Some task_id →
  Processor.task_view new !! "status" = Some "Pending" →
  Processor.task_view new !! "deadline" = Some deadline →
  fromisoformat_utc dt deadline = None →
  truthy (EXPIRY_HANDLER_ARN env) = true →
  ∃ e w', Processor.process_record dt env (message event_id "INSERT" (Some new) old) w
            = (inl (ValueError e), w') ∧
          same_services w w' ∧
          last (log w') = Some (Failure "Error processing SQS record" (ValueError e)).
Proof.
  intros Hsk Hpre Hid Hst Hd Hparse Harn.
  rewrite process_insert_eq. run.
  rewrite (dispatch_insert dt env _ _ sk task_id) by done.
  rewrite Hst. rewrite bool_decide_eq_true_2 by done.
  unfold Processor.schedule_expiry_event. rewrite Harn. cbn.
  unfold getitem. run. rewrite Hd. cbn. rewrite Hparse. cbn.
  eexists _, _. split; [done|]. split; [by repeat split|].
  cbn. by rewrite last_snoc.
Qed.

Lemma unreadable_deadline_fails_record_witness :
  ∃ e w', Processor.process_record Samples.clock Samples.env
            (message (Some "e1") "INSERT"
               (Some (Samples.image "Pending" "next tuesday")) None)
            Samples.empty_world = (inl (ValueError e), w') ∧
          same_services Samples.empty_world w' ∧
          last (log w') = Some (Failure "Error processing SQS record" (ValueError e)).
Proof.
  apply (unreadable_deadline_fails_record Samples.clock Samples.env (Some "e1")
           (Samples.image "Pending" "next tuesday") None
           "t1" "TASK#t1" "next tuesday" Samples.empty_world); reflexivity.
Defined.

(** X17.  Cancelling the trigger of a task that has none is not an error: the
    registry's not-found answer to the first request is caught, the
    action returns normally after that one request, and the registry is
    as it was. *)
Theorem cancel_missing_trigger_is_harmless env task_id w :
  trigger_of w task_id = None →
  events_fault env ListTargetsByRule = None →
  ∃ w', Processor.cancel_expiry_event env task_id w = (inr tt, w') ∧
        rules w' = rules w ∧
        api_calls w' =
          (api_calls w ++
           [mkCall ListTargetsByRule (Processor.rule_name_of task_id)])%list ∧
        last (log w') =
          Some (Info ("Rule " +:+ Processor.rule_name_of task_id +:+
                      " not found (may have already been deleted)")).
Proof.
  intros Hfree Hup. unfold trigger_of in Hfree.
  unfold Processor.cancel_expiry_event, Events.list_targets_by_rule, Events.request,
    Events.lookup_rule.
  run. rewrite Hup. cbn. rewrite Hfree. cbn.
  eexists. split; [done|]. cbn. split; [done|]. split; [done|].
  by rewrite last_snoc.
Qed.

Lemma cancel_missing_trigger_is_harmless_witness :
  ∃ w', Processor.cancel_expiry_event Samples.env "t1" Samples.empty_world
          = (inr tt, w') ∧
        rules w' = rules Samples.empty_world ∧
        api_calls w' =
          (api_calls Samples.empty_world ++
           [mkCall ListTargetsByRule (Processor.rule_name_of "t1")])%list ∧
        last (log w') =
          Some (Info ("Rule " +:+ Processor.rule_name_of "t1" +:+
                      " not found (may have already been deleted)")).
Proof.
  apply (cancel_missing_trigger_is_harmless Samples.env "t1" Samples.empty_world);
    reflexivity.
Defined.

(** ** process_stream.py: the view of an image *)

Lemma lookup_keep k' v (m : gmap string string) k :
  Processor.keep k' v m !! k =
    if decide (k = k') then (match v with Some s => Some s | None => m !! k end)
    else m !! k.
Proof.
  unfold Processor.keep. destruct v as [s|].
  - destruct (decide (k = k')) as [->|Hne].
    + apply lookup_insert_eq.
    + by apply lookup_insert_ne.
  - by destruct (decide (k = k')).
Qed.

(** X8.  [get_task_details] keeps exactly the string-typed values of the
    seven task attributes: an attribute of another type, or of another
    name, does not appear in the view. *)
Theorem task_view_lookup item k :
  Processor.task_view item !! k =
    if bool_decide (k ∈ ["PK"; "SK"; "taskId"; "userId"; "description";
                         "status"; "deadline"])
    then match item !! k with
         | Some (AttrS s) => Some s
         | _ => None
         end
    else None.
Proof.
  unfold Processor.task_view. rewrite !lookup_keep, lookup_empty.
  fold (Processor.get_S item k).
  repeat (destruct (decide (k = _)) as [->|?];
          [rewrite bool_decide_eq_true_2 by (rewrite !elem_of_cons; tauto);
           by destruct (Processor.get_S item _)|]).
  rewrite bool_decide_eq_false_2; [done|].
  rewrite !elem_of_cons, elem_of_nil. tauto.
Qed.

(** ** process_stream.py: the expiry path of the handler *)

Lemma swallow_always_returns (c : Run unit) msg w :
  ∃ w', try_except c (λ e, print (Failure msg e)) w = (inr tt, w') ∧
        same_services (c w).2 w'.
Proof.
  run. destruct (c w) as [[e|[]] w1]; cbn; eexists; split; try done;
    by repeat split.
Qed.

(** [expire_and_notify_task] never raises; with the table down it does
    nothing but log. *)
Lemma expire_and_notify_always_returns dt env task_id user_id pk sk w :
  ∃ w', Processor.expire_and_notify_task dt env task_id user_id pk sk w = (inr tt, w') ∧
        (is_Some (ddb_fault env) → same_services w w').
Proof.
  unfold Processor.expire_and_notify_task.
  match goal with
  | |- context [try_except ?c _ _] =>
      destruct (swallow_always_returns c
                  ("Error during task expiry process for " +:+ task_id) w)
        as (w' & Hrun & Hsame)
  end.
  exists w'. split; [done|].
  intros [c Hc]. revert Hsame. unfold DynamoDB.get_item. run. rewrite Hc. cbn.
  intros (? & ? & ? & ? & ?). by repeat split.
Qed.

(** X21.  An invocation that EventBridge marks as its own always answers: 400
    when the task data is incomplete, 200 otherwise, in every
    environment.  No failure of the table or of the topic reaches the
    invoker; when the table is down the 200 stands for nothing done. *)
Theorem fired_event_always_answers dt env event w :
  Processor.source event = Some "aws.events" →
  let task_data :=
    match Processor.detail event with
    | Some d => if bool_decide (d = ∅) then Processor.fields event else d
    | None => Processor.fields event
    end in
  ∃ w', Processor.handler dt env event w =
          (inr (if payload_ok task_data
                then mkResponse 200 "Expiry check complete."
                else mkResponse 400 "Missing task data"), w') ∧
        (is_Some (ddb_fault env) ∨ payload_ok task_data = false →
         same_services w w').
Proof.
  intros Hsrc. cbn zeta. unfold Processor.handler.
  rewrite bool_decide_eq_true_2 by done.
  set (task_data := match Processor.detail event with
                    | Some d => if bool_decide (d = ∅) then Processor.fields event else d
                    | None => Processor.fields event
                    end).
  fold (payload_ok task_data).
  unfold mbind, Run_bind, mret, Run_ret, print.
  cbn -[Processor.expire_and_notify_task].
  destruct (payload_ok task_data) eqn:Hp; cbn -[Processor.expire_and_notify_task].
  - match goal with
    | |- context [Processor.expire_and_notify_task ?d ?e ?a ?b ?c ?f ?w0] =>
        destruct (expire_and_notify_always_returns d e a b c f w0)
          as (w' & Hrun & Hsame); rewrite Hrun
    end.
    eexists. split; [done|].
    intros [Hdown|?]; [|done].
    destruct (Hsame Hdown) as (? & ? & ? & ? & ?). by repeat split.
  - eexists. split; [done|]. intros _. by repeat split.
Qed.

Lemma fired_event_always_answers_witness :
  let task_data :=
    match Processor.detail Samples.fired_event with
    | Some d => if bool_decide (d = ∅) then Processor.fields Samples.fired_event else d
    | None => Processor.fields Samples.fired_event
    end in
  ∃ w', Processor.handler Samples.clock Samples.env Samples.fired_event
          Samples.pending_world =
          (inr (if payload_ok task_data
                then mkResponse 200 "Expiry check complete."
                else mkResponse 400 "Missing task data"), w') ∧
        (is_Some (ddb_fault Samples.env) ∨ payload_ok task_data = false →
         same_services Samples.pending_world w').
Proof.
  apply (fired_event_always_answers Samples.clock Samples.env Samples.fired_event
           Samples.pending_world). reflexivity.
Defined.

(** X22.  On this path a Pending task without a description is expired but
    never announced: the subject of the message reads
    [task['description']], the KeyError is swallowed after the status has
    been written. *)
Theorem expiry_without_description_is_silent
    dt env task_id user_id pk sk it w :
  ddb_fault env = None →
  (∀ t, other_writers env t = t) →
  is_Some (SNS_TOPIC_ARN env) →
  table w !! (pk, sk) = Some it →
  it !! "status" = Some "Pending" →
  it !! "description" = None →
  ∃ w', Processor.expire_and_notify_task dt env task_id user_id pk sk w = (inr tt, w') ∧
        stored_status w' pk sk = Some "Expired" ∧
        published w' = published w ∧
        last (log w') =
          Some (Failure ("Error during task expiry process for " +:+ task_id)
                        (KeyError "description")).
Proof.
  intros Hf Halone [arn Harn] Hit Hst Hdesc.
  unfold Processor.expire_and_notify_task, DynamoDB.get_item, Processor.interleave.
  run. rewrite Hf. cbn. rewrite Halone, Hit. cbn.
  rewrite (bool_decide_eq_false_2 (it = ∅)).
  2:{ intros ->. by rewrite lookup_empty in Hst. }
  unfold getitem. rewrite Hst. run.
  unfold DynamoDB.update_item_expired. rewrite Hf. cbn. rewrite Harn. cbn.
  rewrite Hdesc. cbn.
  eexists. split; [done|]. cbn. split.
  - unfold stored_status. cbn. rewrite lookup_insert_eq. cbn.
    apply status_after_set_expired.
  - split; [done|]. by rewrite last_snoc.
Qed.

Lemma expiry_without_description_is_silent_witness :
  let it := delete "description" (Samples.item "Pending" Samples.d2030) in
  let w := Samples.world_of {[ ("USER#u1", "TASK#t1") := it ]} in
  ∃ w', Processor.expire_and_notify_task Samples.clock Samples.env
          "t1" "u1" "USER#u1" "TASK#t1" w = (inr tt, w') ∧
        stored_status w' "USER#u1" "TASK#t1" = Some "Expired" ∧
        published w' = published w ∧
        last (log w') =
          Some (Failure ("Error during task expiry process for " +:+ "t1")
                        (KeyError "description")).
Proof.
  apply (expiry_without_description_is_silent Samples.clock Samples.env
           "t1" "u1" "USER#u1" "TASK#t1"
           (delete "description" (Samples.item "Pending" Samples.d2030))
           (Samples.world_of
              {[ ("USER#u1", "TASK#t1") :=
                   delete "description" (Samples.item "Pending" Samples.d2030) ]}));
    try reflexivity.
  by eexists.
Defined.

(** ** process_stream.py: what a record cannot touch *)

(** X18.  An SQS invocation never writes to the table, to the queue or to the
    notification topic, whatever its records are and however it ends. *)
Theorem sqs_invocation_keeps_data dt env event w :
  Processor.source event ≠ Some "aws.events" →
  let w' := (Processor.handler dt env event w).2 in
  table w' = table w ∧ published w' = published w ∧ queue w' = queue w.
Proof.
  intros Hsrc. cbn zeta. unfold Processor.handler.
  rewrite bool_decide_eq_false_2 by done.
  destruct (Processor.Records event) as [records|]; run; [|done].
  match goal with
  | |- context [Processor.process_records dt env records ?w0] =>
      destruct (process_records_keeps_data dt env records w0) as (Ht & Hp & Hq);
      destruct (Processor.process_records dt env records w0) as [[e|[]] w1]
  end; by cbn in *.
Qed.

Lemma sqs_invocation_keeps_data_witness :
  let event := Samples.sqs_event
                 (Samples.change "INSERT"
                    (Some (Samples.image "Pending" Samples.d2030)) None) in
  let w' := (Processor.handler Samples.clock Samples.env event
               Samples.pending_world).2 in
  table w' = table Samples.pending_world ∧
  published w' = published Samples.pending_world ∧
  queue w' = queue Samples.pending_world.
Proof.
  apply (sqs_invocation_keeps_data Samples.clock Samples.env
           (Samples.sqs_event
              (Samples.change "INSERT"
                 (Some (Samples.image "Pending" Samples.d2030)) None))
           Samples.pending_world).
  by vm_compute.
Defined.

(** X19.  A record changes the trigger of no task but its own: if neither
    image of the record carries the id of task [b], the trigger of [b] is
    after the record what it was before, in every environment. *)
Theorem record_keeps_other_triggers dt env record w b :
  (∀ r images image,
     Processor.body record = Json r →
     dynamodb r = Some images →
     NewImage images = Some image ∨ OldImage images = Some image →
     Processor.task_view image !! "taskId" ≠ Some b) →
  trigger_of (Processor.process_record dt env record w).2 b = trigger_of w b.
Proof.
  intros Hb. unfold trigger_of.
  destruct (process_record_cases dt env record w)
    as [(name & task & old & -> & r & images & Hbody & Himages & _ & Htask)
       | [(e & ->) | ->]]; try done.
  destruct (reraise_same_services (Processor.dispatch dt env name task old)
              "Error processing SQS record" w) as (_ & _ & _ & _ & Hr & _).
  cbn zeta in Hr. rewrite Hr. apply dispatch_other_rules.
  destruct Htask as [-> | ->].
  - destruct (NewImage images) as [i|] eqn:Hi; cbn; [|by rewrite lookup_empty].
    apply (Hb r images i); auto.
  - destruct (OldImage images) as [i|] eqn:Hi; cbn; [|by rewrite lookup_empty].
    apply (Hb r images i); auto.
Qed.

Lemma record_keeps_other_triggers_witness :
  trigger_of (Processor.process_record Samples.clock Samples.env
                (message (Some "e1") "REMOVE" None
                   (Some (AttrS <$> <["taskId" := "t2"]>
                                      (<["SK" := "TASK#t2"]>
                                         (Samples.item "Pending" Samples.d2030)))))
                Samples.scheduled_world).2 "t1"
  = trigger_of Samples.scheduled_world "t1".
Proof.
  apply (record_keeps_other_triggers Samples.clock Samples.env
           (message (Some "e1") "REMOVE" None
              (Some (AttrS <$> <["taskId" := "t2"]>
                                 (<["SK" := "TASK#t2"]>
                                    (Samples.item "Pending" Samples.d2030)))))
           Samples.scheduled_world "t1").
  intros r images image Hbody Himages Himage.
  injection Hbody as <-. injection Himages as <-.
  destruct Himage as [Himage|Himage]; [discriminate|].
  injection Himage as <-. by vm_compute.
Defined.

(** X20.  A batch is processed in order and stops at the first record that
    fails: the records before it have had their effect, the failing one
    decides the outcome, the records after it are not looked at. *)
Theorem batch_stops_at_first_failure dt env before failing after w w1 e w2 :
  Processor.process_records dt env before w = (inr tt, w1) →
  Processor.process_record dt env failing w1 = (inl e, w2) →
  Processor.process_records dt env (before ++ failing :: after) w = (inl e, w2).
Proof.
  intros Hbefore Hfail. rewrite process_records_app, Hbefore.
  cbn. run. by rewrite Hfail.
Qed.

Lemma batch_stops_at_first_failure_witness :
  let before := [message (Some "e1") "INSERT"
                   (Some (Samples.image "Pending" Samples.d2030)) None] in
  let failing := message (Some "e2") "INSERT" None None in
  let after := [message (Some "e3") "REMOVE" None
                  (Some (Samples.image "Pending" Samples.d2030))] in
  let w1 := (Processor.process_records Samples.clock Samples.env before
               Samples.pending_world).2 in
  let w2 := (Processor.process_record Samples.clock Samples.env failing w1).2 in
  Processor.process_records Samples.clock Samples.env
    (before ++ failing :: after) Samples.pending_world = (inl AttributeError, w2).
Proof.
  apply (batch_stops_at_first_failure Samples.clock Samples.env
           [message (Some "e1") "INSERT"
              (Some (Samples.image "Pending" Samples.d2030)) None]
           (message (Some "e2") "INSERT" None None)
           [message (Some "e3") "REMOVE" None
              (Some (Samples.image "Pending" Samples.d2030))]
           Samples.pending_world
           (Processor.process_records Samples.clock Samples.env
              [message (Some "e1") "INSERT"
                 (Some (Samples.image "Pending" Samples.d2030)) None]
              Samples.pending_world).2
           AttributeError);
    vm_compute; reflexivity.
Defined.

(** ** From the scheduled trigger to the expiry *)

Lemma trigger_payload_ok task_id user_id pk sk :
  task_id ≠ "" → user_id ≠ "" → pk ≠ "" → sk ≠ "" →
  payload_ok (trigger_payload task_id user_id pk sk) = true ∧
  trigger_payload task_id user_id pk sk !! "pk" = Some pk ∧
  trigger_payload task_id user_id pk sk !! "sk" = Some sk ∧
  trigger_payload task_id user_id pk sk !! "taskId" = Some task_id.
Proof.
  intros Ht Hu Hp Hs. unfold payload_ok, trigger_payload, all.
  assert (∀ m : gmap string string,
            m = <["sk" := sk]> (<["pk" := pk]> (<["userId" := user_id]>
                  {[ "taskId" := task_id ]})) →
            m !! "taskId" = Some task_id ∧ m !! "userId" = Some user_id ∧
            m !! "pk" = Some pk ∧ m !! "sk" = Some sk) as Hlook.
  { intros m ->. split_and!; by simplify_map_eq. }
  destruct (Hlook _ eq_refl) as (Hl1 & Hl2 & Hl3 & Hl4).
  rewrite Hl1, Hl2, Hl3, Hl4. split_and!; try done.
  cbn. by rewrite !bool_decide_eq_false_2.
Qed.

(** X23.  The trigger that an Insert record creates carries what the expiry
    handler needs: fired with the target's input, in any environment
    where the table answers, expiry_handler.py accepts the payload and
    expires the very item the record was about (the one under the PK and
    SK of the image), provided it is still Pending. *)
Theorem scheduled_trigger_expires_its_task
    dt env event_id new old task_id user_id pk sk deadline d w :
  Processor.task_view new !! "SK" = Some sk →
  String.prefix "TASK#" sk = true →
  Processor.task_view new !! "taskId" = Some task_id →
  Processor.task_view new !! "userId" = Some user_id →
  Processor.task_view new !! "PK" = Some pk →
  Processor.task_view new !! "status" = Some "Pending" →
  Processor.task_view new !! "deadline" = Some deadline →
  fromisoformat_utc dt deadline = Some d →
  (now env < timestamp d)%Z →
  truthy (EXPIRY_HANDLER_ARN env) = true →
  (∀ op, events_fault env op = None) →
  trigger_of w task_id = None →
  task_id ≠ "" → user_id ≠ "" → pk ≠ "" →
  ∃ w1 rule target,
    Processor.process_record dt env (message event_id "INSERT" (Some new) old) w
      = (inr tt, w1) ∧
    trigger_of w1 task_id = Some rule ∧
    Targets rule !! "ExpiryLambdaTarget" = Some target ∧
    Arn target = str (EXPIRY_HANDLER_ARN env) ∧
    ∀ env' w2,
      ddb_fault env' = None →
      stored_status w2 pk sk = Some "Pending" →
      stored_status (Expiry.handler dt env' (Input target) w2).2 pk sk = Some "Expired".
Proof.
  intros Hsk Hpre Hid Huid Hpk Hst Hd Hparse Hfut Harn Hup Hfree Htid Hu Hp.
  destruct (schedule_future dt env (Processor.task_view new) deadline d
              task_id user_id pk sk w)
    as (w1 & Hrun & _ & _ & _ & _ & Hrules); try done.
  exists w1, (scheduled_rule env d task_id user_id pk sk),
    (mkTarget (str (EXPIRY_HANDLER_ARN env)) (trigger_payload task_id user_id pk sk)).
  split.
  { apply process_insert. rewrite (dispatch_insert dt env _ _ sk task_id) by done.
    rewrite Hst. by rewrite bool_decide_eq_true_2. }
  split. { unfold trigger_of. rewrite Hrules. apply lookup_insert_eq. }
  split. { apply lookup_singleton_eq. }
  split; [done|].
  intros env' w2 Hf Hpending. cbn [Input].
  assert (sk ≠ "") as Hs. { intros ->. done. }
  destruct (trigger_payload_ok task_id user_id pk sk Htid Hu Hp Hs)
    as (Hok & Hlpk & Hlsk & _).
  destruct (expiry_pending dt env' (trigger_payload task_id user_id pk sk) w2)
    as (it & w3 & Hit & Hw3 & Ht & _); try done.
  rewrite Hw3. rewrite Hlpk, Hlsk in Ht. cbn in Ht.
  unfold stored_status. rewrite Ht, lookup_insert_eq. cbn.
  apply status_after_set_expired.
Qed.

Lemma scheduled_trigger_expires_its_task_witness :
  ∃ w1 rule target,
    Processor.process_record Samples.clock Samples.env
      (message (Some "e1") "INSERT"
         (Some (Samples.image "Pending" Samples.d2030)) None) Samples.pending_world
      = (inr tt, w1) ∧
    trigger_of w1 "t1" = Some rule ∧
    Targets rule !! "ExpiryLambdaTarget" = Some target ∧
    Arn target = str (EXPIRY_HANDLER_ARN Samples.env) ∧
    ∀ env' w2,
      ddb_fault env' = None →
      stored_status w2 "USER#u1" "TASK#t1" = Some "Pending" →
      stored_status (Expiry.handler Samples.clock env' (Input target) w2).2
        "USER#u1" "TASK#t1" = Some "Expired".
Proof.
  apply (scheduled_trigger_expires_its_task Samples.clock Samples.env (Some "e1")
           (Samples.image "Pending" Samples.d2030) None
           "t1" "u1" "USER#u1" "TASK#t1" Samples.d2030
           (mkDatetime 2030 1 1 10 30 1893493800) Samples.pending_world);
    try reflexivity; by vm_compute.
Defined.

(** ** expiry_handler.py: errors and frame *)

(** X1.  A payload in which one of taskId, userId, pk and sk is missing or
    empty is answered with 400 before any service is called. *)
Theorem expiry_rejects_incomplete_payload dt env event k w :
  k ∈ ["taskId"; "userId"; "pk"; "sk"] →
  event !! k = None ∨ event !! k = Some "" →
  ∃ w', Expiry.handler dt env event w =
          (inr (mkResponse 400 "Missing task data"), w') ∧
        same_services w w'.
Proof.
  intros Hk Hmissing. apply expiry_malformed.
  assert (truthy (event !! k) = false) as Hfalse.
  { by destruct Hmissing as [-> | ->]. }
  unfold payload_ok, all. cbn.
  rewrite !elem_of_cons, elem_of_nil in Hk.
  destruct Hk as [-> | [-> | [-> | [-> | []]]]]; rewrite Hfalse;
    rewrite ?andb_false_r; done.
Qed.

Lemma expiry_rejects_incomplete_payload_witness :
  ∃ w', Expiry.handler Samples.clock Samples.env
          (<["userId" := ""]> Samples.payload) Samples.pending_world =
          (inr (mkResponse 400 "Missing task data"), w') ∧
        same_services Samples.pending_world w'.
Proof.
  apply (expiry_rejects_incomplete_payload Samples.clock Samples.env
           (<["userId" := ""]> Samples.payload) "userId" Samples.pending_world).
  - rewrite !elem_of_cons. tauto.
  - right. reflexivity.
Defined.

(** X2.  A failure of the table other than the failed condition is logged and
    raised to the invoker; nothing has been written or published. *)
Theorem expiry_store_error_is_raised dt env event code w :
  payload_ok event = true →
  ddb_fault env = Some code →
  ∃ w', Expiry.handler dt env event w = (inl (ClientError code), w') ∧
        same_services w w' ∧
        last (log w') =
          Some (Failure ("Error processing task expiry for " +:+ str (event !! "taskId"))
                        (ClientError code)).
Proof.
  intros Hp Hf. unfold Expiry.handler. fold (payload_ok event). rewrite Hp. run.
  rewrite (update_fault _ _ _ _ code) by done. cbn.
  eexists; split; [done|]. split; [by repeat split|].
  cbn. by rewrite last_snoc.
Qed.

Lemma expiry_store_error_is_raised_witness :
  ∃ w', Expiry.handler Samples.clock
          (mkEnv None None None 0 (Some "ProvisionedThroughputExceededException")
             None None (λ _, false) (λ _, None) (λ t, t))
          Samples.payload Samples.pending_world =
          (inl (ClientError "ProvisionedThroughputExceededException"), w') ∧
        same_services Samples.pending_world w' ∧
        last (log w') =
          Some (Failure ("Error processing task expiry for " +:+
                         str (Samples.payload !! "taskId"))
                        (ClientError "ProvisionedThroughputExceededException")).
Proof.
  apply (expiry_store_error_is_raised Samples.clock
           (mkEnv None None None 0 (Some "ProvisionedThroughputExceededException")
              None None (λ _, false) (λ _, None) (λ t, t))
           Samples.payload "ProvisionedThroughputExceededException"
           Samples.pending_world); reflexivity.
Defined.

(** X3.  The expiry of a Pending task: 200 is returned; the item has status
    and GSI1PK set to Expired and every other attribute as before; no
    other item changes; one message goes to the configured topic, its
    subject naming the task's description ('Untitled Task' without one). *)
Theorem expiry_of_pending_task dt env event it topic w :
  payload_ok event = true →
  ddb_fault env = None →
  table w !! (str (event !! "pk"), str (event !! "sk")) = Some it →
  it !! "status" = Some "Pending" →
  SNS_TOPIC_ARN env = Some topic →
  sns_fault env = None →
  let key := (str (event !! "pk"), str (event !! "sk")) in
  ∃ w' it' n,
    Expiry.handler dt env event w =
      (inr (mkResponse 200 "Expiry process completed."), w') ∧
    table w' !! key = Some it' ∧
    it' !! "status" = Some "Expired" ∧ it' !! "GSI1PK" = Some "Expired" ∧
    (∀ a, a ≠ "status" → a ≠ "GSI1PK" → it' !! a = it !! a) ∧
    (∀ other, other ≠ key → table w' !! other = table w !! other) ∧
    published w' = (published w ++ [n])%list ∧
    TopicArn n = topic ∧
    Subject n = "Task Expired: " +:+ default "Untitled Task" (it !! "description").
Proof.
  intros Hp Hf Hit Hst Htopic Hsns. cbn zeta.
  destruct (expiry_pending dt env event w Hp Hf)
    as (it0 & w' & Hit0 & Hw & Ht & _ & _ & _ & Hpub).
  { unfold stored_status. by rewrite Hit. }
  rewrite Hit in Hit0. injection Hit0 as <-.
  assert (SNS.publish_error env = None) as Hok.
  { unfold SNS.publish_error. by rewrite Htopic, Hsns. }
  rewrite Hok in Hpub. destruct Hpub as (Hres & Hpb).
  exists w', (DynamoDB.set_expired it),
    (Expiry.expiry_notification dt env event (DynamoDB.set_expired it)).
  split_and!.
  - rewrite <- Hw, <- Hres. by destruct (Expiry.handler dt env event w).
  - rewrite Ht. apply lookup_insert_eq.
  - apply status_after_set_expired.
  - unfold DynamoDB.set_expired. by simplify_map_eq.
  - intros a Ha1 Ha2. unfold DynamoDB.set_expired. by simplify_map_eq.
  - intros other Hother. rewrite Ht. by apply lookup_insert_ne.
  - done.
  - cbn. by rewrite Htopic.
  - cbn. unfold Expiry.expiry_subject, DynamoDB.set_expired. by simplify_map_eq.
Qed.

Lemma expiry_of_pending_task_witness :
  let key := (str (Samples.payload !! "pk"), str (Samples.payload !! "sk")) in
  let it := Samples.item "Pending" Samples.d2030 in
  ∃ w' it' n,
    Expiry.handler Samples.clock Samples.env Samples.payload Samples.pending_world =
      (inr (mkResponse 200 "Expiry process completed."), w') ∧
    table w' !! key = Some it' ∧
    it' !! "status" = Some "Expired" ∧ it' !! "GSI1PK" = Some "Expired" ∧
    (∀ a, a ≠ "status" → a ≠ "GSI1PK" → it' !! a = it !! a) ∧
    (∀ other, other ≠ key →
              table w' !! other = table Samples.pending_world !! other) ∧
    published w' = (published Samples.pending_world ++ [n])%list ∧
    TopicArn n = "arn:aws:sns:topic" ∧
    Subject n = "Task Expired: " +:+ default "Untitled Task" (it !! "description").
Proof.
  apply (expiry_of_pending_task Samples.clock Samples.env Samples.payload
           (Samples.item "Pending" Samples.d2030) "arn:aws:sns:topic"
           Samples.pending_world); reflexivity.
Defined.

(** X4.  Whatever the payload and the environment, the expiry handler leaves
    the queue and the registry alone, changes no item but the one its
    payload names, and publishes at most one message, after those already
    there. *)
Theorem expiry_handler_frame dt env event w :
  let w' := (Expiry.handler dt env event w).2 in
  queue w' = queue w ∧ rules w' = rules w ∧ api_calls w' = api_calls w ∧
  (∀ other, other ≠ (str (event !! "pk"), str (event !! "sk")) →
            table w' !! other = table w !! other) ∧
  ∃ sent, published w' = (published w ++ sent)%list ∧ (length sent ≤ 1)%nat.
Proof.
  cbn zeta.
  assert (∀ w', same_services w w' →
            queue w' = queue w ∧ rules w' = rules w ∧ api_calls w' = api_calls w ∧
            (∀ other, other ≠ (str (event !! "pk"), str (event !! "sk")) →
                      table w' !! other = table w !! other) ∧
            ∃ sent, published w' = (published w ++ sent)%list ∧ (length sent ≤ 1)%nat)
    as Hsame.
  { intros w' (Ht & Hp & Hq & Hr & Hc). split_and!; try done.
    - intros. by rewrite Ht.
    - exists []. rewrite app_nil_r. split; [done|]. cbn. lia. }
  destruct (payload_ok event) eqn:Hp.
  - destruct (ddb_fault env) as [c|] eqn:Hf.
    + destruct (expiry_store_fault dt env event c w Hp Hf) as (w' & -> & Hs).
      by apply Hsame.
    + destruct (decide (stored_status w (str (event !! "pk")) (str (event !! "sk"))
                        = Some "Pending")) as [Hs|Hs].
      * destruct (expiry_pending dt env event w Hp Hf Hs)
          as (it & w' & Hit & -> & Ht & Hq & Hr & Hc & Hpub).
        split_and!; try done.
        { intros other Hother. rewrite Ht. by apply lookup_insert_ne. }
        destruct (SNS.publish_error env).
        -- destruct Hpub as (_ & -> & _). exists []. rewrite app_nil_r.
           split; [done|]. cbn. lia.
        -- destruct Hpub as (_ & ->). eexists. split; [done|]. cbn. lia.
      * destruct (expiry_not_pending dt env event w Hp Hf Hs) as (w' & -> & Hsame').
        by apply Hsame.
  - destruct (expiry_malformed dt env event w Hp) as (w' & -> & Hs).
    by apply Hsame.
Qed.

(** ** stream_router.py: errors and frame *)

(** Without a queue URL the router raises ValueError for every batch and
    sends nothing. *)
Theorem router_without_queue_url_raises env event w :
  SQS_QUEUE_URL env = None ∨ SQS_QUEUE_URL env = Some "" →
  ∃ w', Router.handler env event w = (inl (ValueError "SQS Queue URL missing."), w') ∧
        same_services w w'.
Proof.
  intros Hurl. unfold Router.handler.
  assert (truthy (SQS_QUEUE_URL env) = false) as ->.
  { by destruct Hurl as [-> | ->]. }
  run. eexists. split; [done|]. by repeat split.
Qed.

Lemma router_without_queue_url_raises_witness :
  ∃ w', Router.handler
          (mkEnv None None None 0 None None None (λ _, false) (λ _, None) (λ t, t))
          (Router.mkStreamEvent
             [Samples.change "INSERT" (Some (Samples.image "Pending" Samples.d2030)) None])
          Samples.empty_world = (inl (ValueError "SQS Queue URL missing."), w') ∧
        same_services Samples.empty_world w'.
Proof.
  apply (router_without_queue_url_raises
           (mkEnv None None None 0 None None None (λ _, false) (λ _, None) (λ t, t))
           (Router.mkStreamEvent
              [Samples.change "INSERT"
                 (Some (Samples.image "Pending" Samples.d2030)) None])
           Samples.empty_world).
  by left.
Defined.

Lemma build_entries_missing_id records acc :
  Exists (λ r, eventID r = None) records →
  Router.build_entries records acc = inl (KeyError "eventID").
Proof.
  intros Hex. revert acc. induction records as [|r rs IH]; intros acc.
  - by apply Exists_nil in Hex.
  - cbn. unfold Router.entry_of. destruct (eventID r) as [id|] eqn:Hid; [|done].
    apply IH. apply Exists_cons in Hex as [Hex|Hex]; [congruence|done].
Qed.

(** X5.  One record without an eventID fails the whole batch before anything
    is sent: KeyError is raised, unlogged, and the world is untouched, also
    for the records that came before it in the batch. *)
Theorem router_record_without_id_fails_batch env event w :
  truthy (SQS_QUEUE_URL env) = true →
  Exists (λ r, eventID r = None) (Router.Records event) →
  Router.handler env event w = (inl (KeyError "eventID"), w).
Proof.
  intros Hurl Hex. unfold Router.handler. rewrite Hurl. cbn.
  by rewrite build_entries_missing_id.
Qed.

Lemma router_record_without_id_fails_batch_witness :
  Router.handler Samples.env
    (Router.mkStreamEvent
       [Samples.change "INSERT" (Some (Samples.image "Pending" Samples.d2030)) None;
        mkStreamRecord None (Some "REMOVE") None])
    Samples.empty_world = (inl (KeyError "eventID"), Samples.empty_world).
Proof.
  apply (router_record_without_id_fails_batch Samples.env
           (Router.mkStreamEvent
              [Samples.change "INSERT"
                 (Some (Samples.image "Pending" Samples.d2030)) None;
               mkStreamRecord None (Some "REMOVE") None])
           Samples.empty_world).
  - reflexivity.
  - apply Exists_cons. right. apply Exists_cons. by left.
Defined.

(** X6.  When the queue takes the request (at most [SQS.MAX_BATCH_ENTRIES]
    records, with distinct eventIDs) and reports some entry of the batch
    as failed, the router raises, so that the stream redelivers the batch;
    the entries the queue accepted are in the queue all the same, in batch
    order: those of them whose deduplication id the queue had not seen,
    hence all of them when no record of the batch was in the queue. *)
Theorem router_partial_failure_raises env event w :
  truthy (SQS_QUEUE_URL env) = true →
  sqs_fault env = None →
  Forall (λ r, is_Some (eventID r)) (Router.Records event) →
  (length (Router.Records event) ≤ SQS.MAX_BATCH_ENTRIES)%nat →
  NoDup (eventID <$> Router.Records event) →
  Exists (λ r, ∃ id, eventID r = Some id ∧ sqs_rejects env id = true)
         (Router.Records event) →
  ∃ w' entries,
    Router.handler env event w =
      (inl (PlainException "Failed to send all messages to SQS."), w') ∧
    Forall2 routed (Router.Records event) entries ∧
    queue w' =
      (queue w ++
       SQS.deduplicate (MessageDeduplicationId <$> queue w)
         (filter (λ e, sqs_rejects env (Id e) = false) entries))%list ∧
    (Forall (λ r, ∀ m, m ∈ queue w → eventID r ≠ Some (MessageDeduplicationId m))
            (Router.Records event) →
     queue w' = (queue w ++ filter (λ e, sqs_rejects env (Id e) = false) entries)%list) ∧
    table w' = table w ∧ rules w' = rules w ∧ published w' = published w.
Proof.
  intros Hurl Hf Hids Hlen Hnd Hrej. unfold Router.handler. rewrite Hurl. cbn.
  destruct (build_entries_routed (Router.Records event) [] Hids)
    as (entries & -> & Hrel). cbn.
  destruct (routed_batch_is_taken _ _ Hrel Hlen Hnd) as (Hlen' & HndId & HndDd).
  assert (Exists (λ e, sqs_rejects env (Id e) = true) entries) as Hex.
  { clear -Hrel Hrej. induction Hrel as [|r e rs es Hre _ IH].
    - by apply Exists_nil in Hrej.
    - apply Exists_cons in Hrej as [(id & Hid & Hr)|Hrej].
      + apply Exists_cons. left. destruct Hre as (He & HId & _).
        rewrite HId. congruence.
      + apply Exists_cons. right. by apply IH. }
  assert (entries ≠ []) as Hne.
  { intros ->. by apply Exists_nil in Hex. }
  rewrite bool_decide_eq_false_2 by done.
  run. rewrite send_taken by done. cbn.
  assert (Id <$> filter (λ e, sqs_rejects env (Id e) = true) entries ≠ []) as Hfailed.
  { intros Hnil. apply fmap_nil_inv in Hnil.
    apply Exists_exists in Hex as (e & He & Hr).
    assert (e ∈ filter (λ e, sqs_rejects env (Id e) = true) entries) as Hin.
    { by apply list_elem_of_filter. }
    rewrite Hnil in Hin. by apply elem_of_nil in Hin. }
  rewrite bool_decide_eq_false_2 by done. cbn.
  eexists _, entries. split_and!; try done.
  intros Hfresh. cbn. f_equal. apply deduplicate_fresh.
  - apply (sublist_NoDup _ (MessageDeduplicationId <$> entries));
      [exact HndDd | apply fmap_sublist, sublist_filter].
  - apply Forall_forall. intros e He. apply list_elem_of_filter in He as [_ He].
    pose proof (routed_fresh _ _ _ Hrel Hfresh) as Hall.
    rewrite Forall_forall in Hall. by apply Hall.
Qed.

Lemma router_partial_failure_raises_witness :
  let env := mkEnv None None (Some "https://sqs/queue.fifo") 0 None None None
               (λ id, bool_decide (id = "e2")) (λ _, None) (λ t, t) in
  let event := Router.mkStreamEvent
                 [mkStreamRecord (Some "e1") (Some "REMOVE") None;
                  mkStreamRecord (Some "e2") (Some "REMOVE") None] in
  ∃ w' entries,
    Router.handler env event Samples.empty_world =
      (inl (PlainException "Failed to send all messages to SQS."), w') ∧
    Forall2 routed (Router.Records event) entries ∧
    queue w' = (queue Samples.empty_world ++
                filter (λ e, sqs_rejects env (Id e) = false) entries)%list ∧
    table w' = table Samples.empty_world ∧ rules w' = rules Samples.empty_world ∧
    published w' = published Samples.empty_world.
Proof.
  intros env event.
  destruct (router_partial_failure_raises env event Samples.empty_world)
    as (w' & entries & Hrun & Hrel & _ & Hq & Ht & Hr & Hp).
  - reflexivity.
  - reflexivity.
  - repeat constructor; by eexists.
  - vm_compute. lia.
  - apply (bool_decide_unpack _). by vm_compute.
  - apply Exists_cons. right. apply Exists_cons. left. by exists "e2".
  - exists w', entries. split_and!; try assumption.
    apply Hq. repeat constructor; intros m Hm; by apply elem_of_nil in Hm.
Defined.

(** X7.  A request the queue refuses as a whole is logged and raised again;
    nothing is enqueued. *)
Theorem router_request_error_is_raised env event code w :
  truthy (SQS_QUEUE_URL env) = true →
  sqs_fault env = Some code →
  Forall (λ r, is_Some (eventID r)) (Router.Records event) →
  Router.Records event ≠ [] →
  ∃ w', Router.handler env event w = (inl (ClientError code), w') ∧
        same_services w w' ∧
        last (log w') = Some (Failure "Error sending batch to SQS" (ClientError code)).
Proof.
  intros Hurl Hf Hids Hne. unfold Router.handler. rewrite Hurl. cbn.
  destruct (build_entries_routed (Router.Records event) [] Hids)
    as (entries & -> & Hrel). cbn.
  assert (entries ≠ []) as Hne'.
  { intros ->. apply Forall2_nil_inv_r in Hrel. done. }
  rewrite bool_decide_eq_false_2 by done.
  unfold SQS.send_message_batch. run. rewrite Hf. cbn.
  eexists. split; [done|]. split; [by repeat split|].
  cbn. by rewrite last_snoc.
Qed.

Lemma router_request_error_is_raised_witness :
  let env := mkEnv None None (Some "https://sqs/queue.fifo") 0 None None
               (Some "ServiceUnavailable") (λ _, false) (λ _, None) (λ t, t) in
  let event := Router.mkStreamEvent
                 [mkStreamRecord (Some "e1") (Some "REMOVE") None] in
  ∃ w', Router.handler env event Samples.empty_world =
          (inl (ClientError "ServiceUnavailable"), w') ∧
        same_services Samples.empty_world w' ∧
        last (log w') =
          Some (Failure "Error sending batch to SQS" (ClientError "ServiceUnavailable")).
Proof.
  apply (router_request_error_is_raised
           (mkEnv None None (Some "https://sqs/queue.fifo") 0 None None
              (Some "ServiceUnavailable") (λ _, false) (λ _, None) (λ t, t))
           (Router.mkStreamEvent [mkStreamRecord (Some "e1") (Some "REMOVE") None])
           "ServiceUnavailable" Samples.empty_world).
  - reflexivity.
  - reflexivity.
  - repeat constructor; by eexists.
  - discriminate.
Defined.

(** An empty batch is answered with 200 without a call to the queue,
    whatever state the queue is in. *)
Theorem router_empty_batch env w :
  truthy (SQS_QUEUE_URL env) = true →
  ∃ w', Router.handler env (Router.mkStreamEvent []) w =
          (inr (mkResponse 200 "No records processed."), w') ∧
        same_services w w'.
Proof.
  intros Hurl. unfold Router.handler. rewrite Hurl. run.
  eexists. split; [done|]. by repeat split.
Qed.

Lemma router_empty_batch_witness :
  ∃ w', Router.handler
          (mkEnv None None (Some "https://sqs/queue.fifo") 0 None None
             (Some "ServiceUnavailable") (λ _, true) (λ _, None) (λ t, t))
          (Router.mkStreamEvent []) Samples.empty_world =
          (inr (mkResponse 200 "No records processed."), w') ∧
        same_services Samples.empty_world w'.
Proof.
  apply (router_empty_batch
           (mkEnv None None (Some "https://sqs/queue.fifo") 0 None None
              (Some "ServiceUnavailable") (λ _, true) (λ _, None) (λ t, t))
           Samples.empty_world).
  reflexivity.
Defined.

(** ** The request handlers *)

Lemma lookup_new_item rq user_id task_id description formatted :
  let item := CreateTask.new_item rq user_id task_id description formatted in
  item !! "PK" = Some ("USER#" +:+ user_id) ∧
  item !! "SK" = Some ("TASK#" +:+ task_id) ∧
  item !! "taskId" = Some task_id ∧
  item !! "userId" = Some user_id ∧
  item !! "description" = Some description ∧
  item !! "status" = Some "Pending" ∧
  item !! "deadline" = Some formatted ∧
  item !! "GSI1PK" = Some "Pending" ∧
  item !! "GSI1SK" = Some formatted.
Proof. cbn zeta. unfold CreateTask.new_item. split_and!; by simplify_map_eq. Qed.

(** X24.  A valid create request stores one new item and answers 201 with it:
    the item is keyed by the caller and a fresh task id, is Pending in
    its status and in its index key, and carries the normalised deadline
    in both deadline fields.  Nothing else in the table changes and
    nothing is logged. *)
Theorem create_task_stores_pending_item
    lib env rq event body description deadline user_id d w :
  Api.json_body event = Some body →
  body !! "description" = Some description → description ≠ "" →
  body !! "deadline" = Some deadline → deadline ≠ "" →
  Api.sub event = Some user_id →
  Api.fromisoformat lib (replace_Z deadline) = Some d →
  ddb_fault env = None →
  let formatted :=
    Api.isoformat lib (if Api.tzinfo_is_None lib d
                       then Api.replace_tzinfo_utc lib d else d) in
  let key := ("USER#" +:+ user_id, "TASK#" +:+ Api.uuid4 rq) in
  ∃ item,
    CreateTask.handler lib env rq event w =
      (inr (Api.respond 201 (Api.JsonItem item)),
       set_table (<[key := item]> (table w)) w) ∧
    item !! "PK" = Some key.1 ∧ item !! "SK" = Some key.2 ∧
    item !! "taskId" = Some (Api.uuid4 rq) ∧ item !! "userId" = Some user_id ∧
    item !! "description" = Some description ∧
    item !! "status" = Some "Pending" ∧ item !! "GSI1PK" = Some "Pending" ∧
    item !! "deadline" = Some formatted ∧ item !! "GSI1SK" = Some formatted.
Proof.
  intros Hbody Hdesc Hdne Hdl Hdlne Hsub Hparse Hf. cbn zeta.
  exists (CreateTask.new_item rq user_id (Api.uuid4 rq) description
            (Api.isoformat lib (if Api.tzinfo_is_None lib d
                                then Api.replace_tzinfo_utc lib d else d))).
  split.
  - unfold CreateTask.handler, Api.json_loads_body, Api.claims_sub, TableOps.put_item.
    rewrite Hbody, Hsub. run. rewrite Hdesc, Hdl. cbn.
    rewrite !bool_decide_eq_false_2 by done. cbn. rewrite Hparse. cbn.
    by rewrite Hf.
  - destruct (lookup_new_item rq user_id (Api.uuid4 rq) description
                (Api.isoformat lib (if Api.tzinfo_is_None lib d
                                    then Api.replace_tzinfo_utc lib d else d)))
      as (?&?&?&?&?&?&?&?&?).
    by split_and!.
Qed.

Lemma create_task_stores_pending_item_witness :
  let formatted := "2030-01-01T10:30:00+00:00" in
  let key := ("USER#" +:+ "u1", "TASK#" +:+ Api.uuid4 ApiSamples.rq) in
  ∃ item,
    CreateTask.handler ApiSamples.lib Samples.env ApiSamples.rq
      (ApiSamples.request ApiSamples.create_body) Samples.empty_world =
      (inr (Api.respond 201 (Api.JsonItem item)),
       set_table (<[key := item]> (table Samples.empty_world)) Samples.empty_world) ∧
    item !! "PK" = Some key.1 ∧ item !! "SK" = Some key.2 ∧
    item !! "taskId" = Some (Api.uuid4 ApiSamples.rq) ∧ item !! "userId" = Some "u1" ∧
    item !! "description" = Some "Buy milk" ∧
    item !! "status" = Some "Pending" ∧ item !! "GSI1PK" = Some "Pending" ∧
    item !! "deadline" = Some formatted ∧ item !! "GSI1SK" = Some formatted.
Proof.
  apply (create_task_stores_pending_item ApiSamples.lib Samples.env ApiSamples.rq
           (ApiSamples.request ApiSamples.create_body) ApiSamples.create_body
           "Buy milk" "2030-01-01T10:30:00Z" "u1"
           ("2030-01-01T10:30:00+00:00", true) Samples.empty_world);
    try reflexivity; by vm_compute.
Defined.

(** A create request that lacks a description or a deadline, or whose
    deadline is not an ISO date, is answered with 400 and leaves the
    world exactly as it was. *)
Theorem create_task_rejects_invalid_request lib env rq event body user_id w :
  Api.json_body event = Some body →
  Api.sub event = Some user_id →
  truthy (body !! "description") = false ∨
  truthy (body !! "deadline") = false ∨
  Api.fromisoformat lib (replace_Z (str (body !! "deadline"))) = None →
  ∃ message,
    CreateTask.handler lib env rq event w =
      (inr (Api.respond 400 (Api.JsonMessage message)), w).
Proof.
  intros Hbody Hsub Hbad.
  unfold CreateTask.handler, Api.json_loads_body, Api.claims_sub.
  rewrite Hbody, Hsub. run.
  destruct (negb (truthy (body !! "description")) || negb (truthy (body !! "deadline")))
    eqn:Hmissing; [by eexists|].
  apply orb_false_iff in Hmissing as [H1 H2].
  apply negb_false_iff in H1, H2.
  destruct Hbad as [H|[H|H]]; [congruence|congruence|].
  rewrite H. by eexists.
Qed.

Lemma create_task_rejects_invalid_request_witness :
  ∃ message,
    CreateTask.handler ApiSamples.lib Samples.env ApiSamples.rq
      (ApiSamples.request (<["deadline" := "tomorrow"]> ApiSamples.create_body))
      Samples.empty_world =
      (inr (Api.respond 400 (Api.JsonMessage message)), Samples.empty_world).
Proof.
  apply (create_task_rejects_invalid_request ApiSamples.lib Samples.env ApiSamples.rq
           (ApiSamples.request (<["deadline" := "tomorrow"]> ApiSamples.create_body))
           (<["deadline" := "tomorrow"]> ApiSamples.create_body) "u1"
           Samples.empty_world);
    [reflexivity | reflexivity | right; right; reflexivity].
Defined.

(** X25.  create_task.py never raises: whatever the request and the state of
    the table, the invocation ends in a response with the CORS headers,
    and unless that response is 201 the table is as it was. *)
Theorem create_task_always_answers lib env rq event w :
  ∃ resp w',
    CreateTask.handler lib env rq event w = (inr resp, w') ∧
    Api.http_headers resp = Api.cors_headers ∧
    (Api.http_status resp = 201%Z ∨
     (Api.http_status resp = 400%Z ∨ Api.http_status resp = 500%Z) ∧
     same_services w w').
Proof.
  unfold CreateTask.handler, Api.json_loads_body, Api.claims_sub, TableOps.put_item.
  run.
  repeat (case_match; simplify_eq/=);
    eexists _, _; (split; [done|]); (split; [done|]);
    first [ by left | right; split; [by auto|by repeat split] ].
Qed.

Lemma prefix_app p s : String.prefix p (p +:+ s) = true.
Proof.
  induction p as [|c p IH]; [by destruct s|].
  change (String c p +:+ s) with (String c (p +:+ s)). cbn.
  destruct (Ascii.ascii_dec c c); [done|congruence].
Qed.

(** The processor's view of the image of a stored item shows the item's
    own values for the seven task attributes. *)
Lemma task_view_image_of item k :
  k ∈ ["PK"; "SK"; "taskId"; "userId"; "description"; "status"; "deadline"] →
  Processor.task_view (image_of item) !! k = item !! k.
Proof.
  intros Hk. unfold Processor.task_view, image_of, Processor.get_S.
  rewrite !lookup_keep, lookup_empty, !lookup_fmap.
  rewrite !elem_of_cons, elem_of_nil in Hk.
  destruct Hk as [-> | [-> | [-> | [-> | [-> | [-> | [-> | []]]]]]]];
    repeat (destruct (decide (_ = _)) as [?|?]; try done);
    by destruct (item !! _).
Qed.

(** X26.  From the request to the trigger: the Insert record of an item that
    create_task.py has just stored passes the processor's task filter
    and, with the registry up and the deadline ahead, gives the task its
    trigger, named after the new task id and addressed to the stored
    item's key. *)
Theorem created_task_gets_its_trigger
    lib dt env rq event body description deadline user_id d d_utc event_id old w :
  Api.json_body event = Some body →
  body !! "description" = Some description → description ≠ "" →
  body !! "deadline" = Some deadline → deadline ≠ "" →
  Api.sub event = Some user_id →
  Api.fromisoformat lib (replace_Z deadline) = Some d →
  ddb_fault env = None →
  let formatted :=
    Api.isoformat lib (if Api.tzinfo_is_None lib d
                       then Api.replace_tzinfo_utc lib d else d) in
  let task_id := Api.uuid4 rq in
  let key := ("USER#" +:+ user_id, "TASK#" +:+ task_id) in
  fromisoformat_utc dt formatted = Some d_utc →
  (now env < timestamp d_utc)%Z →
  truthy (EXPIRY_HANDLER_ARN env) = true →
  (∀ op, events_fault env op = None) →
  trigger_of w task_id = None →
  ∃ item w1 w2,
    CreateTask.handler lib env rq event w =
      (inr (Api.respond 201 (Api.JsonItem item)), w1) ∧
    table w1 !! key = Some item ∧
    Processor.process_record dt env
      (message event_id "INSERT" (Some (image_of item)) old) w1 = (inr tt, w2) ∧
    trigger_of w2 task_id =
      Some (scheduled_rule env d_utc task_id user_id key.1 key.2) ∧
    table w2 = table w1.
Proof.
  intros Hbody Hdesc Hdne Hdl Hdlne Hsub Hparse Hf. cbn zeta.
  intros Hutc Hfut Harn Hup Hfree.
  set (formatted := Api.isoformat lib (if Api.tzinfo_is_None lib d
                                       then Api.replace_tzinfo_utc lib d else d)) in *.
  set (item := CreateTask.new_item rq user_id (Api.uuid4 rq) description formatted).
  set (w1 := set_table (<[("USER#" +:+ user_id, "TASK#" +:+ Api.uuid4 rq) := item]>
                          (table w)) w).
  destruct (lookup_new_item rq user_id (Api.uuid4 rq) description formatted)
    as (Hpk & Hsk & Hid & Huid & _ & Hst & Hdeadline & _ & _).
  fold item in Hpk, Hsk, Hid, Huid, Hst, Hdeadline.
  assert (∀ k v, k ∈ ["PK"; "SK"; "taskId"; "userId"; "description"; "status";
                      "deadline"] →
                 item !! k = Some v →
                 Processor.task_view (image_of item) !! k = Some v) as Hview.
  { intros k v Hk Hv. by rewrite task_view_image_of. }
  destruct (schedule_future dt env (Processor.task_view (image_of item)) formatted d_utc
              (Api.uuid4 rq) user_id ("USER#" +:+ user_id)
              ("TASK#" +:+ Api.uuid4 rq) w1)
    as (w2 & Hrun & Ht & _ & _ & _ & Hrules); try done;
    try (apply Hview; [rewrite !elem_of_cons; tauto | done]).
  exists item, w1, w2. split_and!.
  - unfold CreateTask.handler, Api.json_loads_body, Api.claims_sub, TableOps.put_item.
    rewrite Hbody, Hsub. run. rewrite Hdesc, Hdl. cbn.
    rewrite !bool_decide_eq_false_2 by done. cbn. rewrite Hparse. cbn.
    by rewrite Hf.
  - cbn. apply lookup_insert_eq.
  - apply process_insert.
    rewrite (dispatch_insert dt env _ _ ("TASK#" +:+ Api.uuid4 rq) (Api.uuid4 rq));
      try (apply Hview; [rewrite !elem_of_cons; tauto | done]);
      [|apply prefix_app].
    rewrite (Hview "status" "Pending"); [|rewrite !elem_of_cons; tauto|done].
    by rewrite bool_decide_eq_true_2.
  - unfold trigger_of. rewrite Hrules. apply lookup_insert_eq.
  - done.
Qed.

Lemma created_task_gets_its_trigger_witness :
  let formatted := "2030-01-01T10:30:00+00:00" in
  let task_id := Api.uuid4 ApiSamples.rq in
  let key := ("USER#" +:+ "u1", "TASK#" +:+ task_id) in
  ∃ item w1 w2,
    CreateTask.handler ApiSamples.lib Samples.env ApiSamples.rq
      (ApiSamples.request ApiSamples.create_body) Samples.empty_world =
      (inr (Api.respond 201 (Api.JsonItem item)), w1) ∧
    table w1 !! key = Some item ∧
    Processor.process_record Samples.clock Samples.env
      (message (Some "e1") "INSERT" (Some (image_of item)) None) w1 = (inr tt, w2) ∧
    trigger_of w2 task_id =
      Some (scheduled_rule Samples.env (mkDatetime 2030 1 1 10 30 1893493800)
              task_id "u1" key.1 key.2) ∧
    table w2 = table w1.
Proof.
  apply (created_task_gets_its_trigger ApiSamples.lib Samples.clock Samples.env
           ApiSamples.rq (ApiSamples.request ApiSamples.create_body)
           ApiSamples.create_body "Buy milk" "2030-01-01T10:30:00Z" "u1"
           ("2030-01-01T10:30:00+00:00", true)
           (mkDatetime 2030 1 1 10 30 1893493800) (Some "e1") None
           Samples.empty_world);
    try reflexivity; by vm_compute.
Defined.

(** *** delete_task.py *)

(** X28.  Deleting a task that is not there is answered with 500, not with a
    success or a 404: the condition on the sort key fails, the exception
    is swallowed, and the table is as it was. *)
Theorem delete_of_missing_task_is_500 env event task_id user_id w :
  Api.path_task_id event = Some task_id →
  Api.sub event = Some user_id →
  ddb_fault env = None →
  table w !! ("USER#" +:+ user_id, "TASK#" +:+ task_id) = None →
  ∃ w', DeleteTask.handler env event w =
          (inr (Api.respond 500 (Api.JsonMessage "Failed to delete task.")), w') ∧
        same_services w w'.
Proof.
  intros Hpath Hsub Hf Hnone.
  unfold DeleteTask.handler, Api.path_parameter, Api.claims_sub,
    TableOps.delete_item_if_sk.
  rewrite Hpath, Hsub. run. rewrite Hf, Hnone. cbn.
  eexists. split; [done|]. by repeat split.
Qed.

Lemma delete_of_missing_task_is_500_witness :
  ∃ w', DeleteTask.handler Samples.env (ApiSamples.request ∅) Samples.empty_world =
          (inr (Api.respond 500 (Api.JsonMessage "Failed to delete task.")), w') ∧
        same_services Samples.empty_world w'.
Proof.
  apply (delete_of_missing_task_is_500 Samples.env (ApiSamples.request ∅)
           "t1" "u1" Samples.empty_world); reflexivity.
Defined.

(** Deleting a stored task removes that item and no other, answers 204
    and logs nothing. *)
Theorem delete_task_removes_its_item env event task_id user_id it w :
  Api.path_task_id event = Some task_id →
  Api.sub event = Some user_id →
  ddb_fault env = None →
  let key := ("USER#" +:+ user_id, "TASK#" +:+ task_id) in
  table w !! key = Some it →
  it !! "SK" = Some key.2 →
  ∃ w', DeleteTask.handler env event w = (inr (Api.respond 204 Api.NoContent), w') ∧
        table w' !! key = None ∧
        (∀ other, other ≠ key → table w' !! other = table w !! other) ∧
        log w' = log w ∧ rules w' = rules w.
Proof.
  intros Hpath Hsub Hf. cbn zeta. intros Hit Hsk.
  unfold DeleteTask.handler, Api.path_parameter, Api.claims_sub,
    TableOps.delete_item_if_sk.
  rewrite Hpath, Hsub. run. rewrite Hf, Hit. cbn. rewrite Hsk.
  rewrite bool_decide_eq_true_2 by done. cbn.
  eexists. split; [done|]. cbn. split_and!; try done.
  - apply lookup_delete_eq.
  - intros other Hother. by apply lookup_delete_ne.
Qed.

Lemma delete_task_removes_its_item_witness :
  let key := ("USER#" +:+ "u1", "TASK#" +:+ "t1") in
  ∃ w', DeleteTask.handler Samples.env (ApiSamples.request ∅) Samples.pending_world =
          (inr (Api.respond 204 Api.NoContent), w') ∧
        table w' !! key = None ∧
        (∀ other, other ≠ key →
                  table w' !! other = table Samples.pending_world !! other) ∧
        log w' = log Samples.pending_world ∧ rules w' = rules Samples.pending_world.
Proof.
  apply (delete_task_removes_its_item Samples.env (ApiSamples.request ∅)
           "t1" "u1" (Samples.item "Pending" Samples.d2030) Samples.pending_world);
    reflexivity.
Defined.

(** *** get_tasks.py *)

Lemma query_begins_with_elem env pk prefix w it :
  ddb_fault env = None →
  ∃ items, TableOps.query_begins_with env pk prefix w = (inr items, w) ∧
           (it ∈ items ↔
            ∃ sk, String.prefix prefix sk = true ∧ table w !! (pk, sk) = Some it).
Proof.
  intros Hf. unfold TableOps.query_begins_with. rewrite Hf.
  eexists. split; [done|]. rewrite list_elem_of_fmap. split.
  - intros ([k v] & -> & Hin). apply elem_of_map_to_list in Hin.
    apply map_lookup_filter_Some in Hin as [Hlook [Hpk Hpre]].
    destruct k as [pk' sk]. cbn in *. subst pk'. by exists sk.
  - intros (sk & Hpre & Hlook). exists ((pk, sk), it). split; [done|].
    apply elem_of_map_to_list. apply map_lookup_filter_Some. by split.
Qed.

(** X27.  A task that create_task.py has stored is listed by get_tasks.py for
    its owner; and whatever get_tasks.py lists for a caller is stored
    under that caller's own partition key with a task sort key. *)
Theorem created_task_is_listed_for_its_owner
    lib env rq event body description deadline user_id d w reader :
  Api.json_body event = Some body →
  body !! "description" = Some description → description ≠ "" →
  body !! "deadline" = Some deadline → deadline ≠ "" →
  Api.sub event = Some user_id →
  Api.fromisoformat lib (replace_Z deadline) = Some d →
  ddb_fault env = None →
  is_Some (Api.TABLE_NAME rq) →
  ∃ item w1,
    CreateTask.handler lib env rq event w =
      (inr (Api.respond 201 (Api.JsonItem item)), w1) ∧
    (∃ items w2,
       GetTasks.handler env rq (Api.mkApiEvent None (Some user_id) None) w1 =
         (inr (Api.respond 200 (Api.JsonItems items)), w2) ∧
       item ∈ items) ∧
    (∃ items w2,
       GetTasks.handler env rq (Api.mkApiEvent None (Some reader) None) w1 =
         (inr (Api.respond 200 (Api.JsonItems items)), w2) ∧
       ∀ it, it ∈ items →
             ∃ sk, String.prefix "TASK#" sk = true ∧
                   table w1 !! ("USER#" +:+ reader, sk) = Some it).
Proof.
  intros Hbody Hdesc Hdne Hdl Hdlne Hsub Hparse Hf [name Hname].
  set (formatted := Api.isoformat lib (if Api.tzinfo_is_None lib d
                                       then Api.replace_tzinfo_utc lib d else d)).
  set (item := CreateTask.new_item rq user_id (Api.uuid4 rq) description formatted).
  set (w1 := set_table (<[("USER#" +:+ user_id, "TASK#" +:+ Api.uuid4 rq) := item]>
                          (table w)) w).
  assert (∀ who it,
            ∃ items w2,
              GetTasks.handler env rq (Api.mkApiEvent None (Some who) None) w1 =
                (inr (Api.respond 200 (Api.JsonItems items)), w2) ∧
              (it ∈ items ↔
               ∃ sk, String.prefix "TASK#" sk = true ∧
                     table w1 !! ("USER#" +:+ who, sk) = Some it)) as Hget.
  { intros who it. unfold GetTasks.handler, Api.claims_sub. run. rewrite Hname. cbn.
    match goal with
    | |- context [TableOps.query_begins_with env ?pk ?p ?w0] =>
        destruct (query_begins_with_elem env pk p w0 it Hf) as (items & -> & Hiff)
    end.
    cbn. by eexists _, _. }
  exists item, w1. split_and!.
  - unfold CreateTask.handler, Api.json_loads_body, Api.claims_sub, TableOps.put_item.
    rewrite Hbody, Hsub. run. rewrite Hdesc, Hdl. cbn.
    rewrite !bool_decide_eq_false_2 by done. cbn. rewrite Hparse. cbn.
    by rewrite Hf.
  - destruct (Hget user_id item) as (items & w2 & Hrun & Hiff).
    exists items, w2. split; [done|]. apply Hiff.
    exists ("TASK#" +:+ Api.uuid4 rq). split; [apply prefix_app|].
    cbn. apply lookup_insert_eq.
  - destruct (Hget reader item) as (items & w2 & Hrun & _).
    exists items, w2. split; [done|]. intros it Hin.
    destruct (Hget reader it) as (items' & w2' & Hrun' & Hiff').
    rewrite Hrun in Hrun'. injection Hrun' as <- <-. by apply Hiff'.
Qed.

Lemma created_task_is_listed_for_its_owner_witness :
  ∃ item w1,
    CreateTask.handler ApiSamples.lib Samples.env ApiSamples.rq
      (ApiSamples.request ApiSamples.create_body) Samples.empty_world =
      (inr (Api.respond 201 (Api.JsonItem item)), w1) ∧
    (∃ items w2,
       GetTasks.handler Samples.env ApiSamples.rq
         (Api.mkApiEvent None (Some "u1") None) w1 =
         (inr (Api.respond 200 (Api.JsonItems items)), w2) ∧
       item ∈ items) ∧
    (∃ items w2,
       GetTasks.handler Samples.env ApiSamples.rq
         (Api.mkApiEvent None (Some "u2") None) w1 =
         (inr (Api.respond 200 (Api.JsonItems items)), w2) ∧
       ∀ it, it ∈ items →
             ∃ sk, String.prefix "TASK#" sk = true ∧
                   table w1 !! ("USER#" +:+ "u2", sk) = Some it).
Proof.
  apply (created_task_is_listed_for_its_owner ApiSamples.lib Samples.env ApiSamples.rq
           (ApiSamples.request ApiSamples.create_body) ApiSamples.create_body
           "Buy milk" "2030-01-01T10:30:00Z" "u1"
           ("2030-01-01T10:30:00+00:00", true) Samples.empty_world "u2");
    try reflexivity; try (by vm_compute). by eexists.
Defined.

(** *** update_task.py *)

Lemma lookup_text_parts body it a :
  TableOps.apply_set (text_parts body) it !! a =
    if decide (a = "status") then
      match body !! "status" with Some v => Some v | None => it !! a end
    else if decide (a = "description") then
      match body !! "description" with Some v => Some v | None => it !! a end
    else it !! a.
Proof.
  unfold text_parts, TableOps.apply_set.
  destruct (body !! "description") as [v1|], (body !! "status") as [v2|]; cbn;
    repeat (destruct (decide (a = _)) as [->|?]); by simplify_map_eq.
Qed.

Lemma update_without_deadline event body user_id task_id w env lib :
  Api.sub event = Some user_id →
  Api.path_task_id event = Some task_id →
  Api.json_body event = Some body →
  body !! "deadline" = None →
  ddb_fault env = None →
  text_parts body ≠ [] →
  let key := ("USER#" +:+ user_id, "TASK#" +:+ task_id) in
  let it' := TableOps.apply_set (text_parts body)
               (DynamoDB.item_or_key key.1 key.2 (table w !! key)) in
  ∃ w', UpdateTask.handler lib env event w =
          (inr (Api.respond 200 (Api.JsonItem it')), w') ∧
        table w' = <[key := it']> (table w) ∧
        published w' = published w ∧ queue w' = queue w ∧ rules w' = rules w.
Proof.
  intros Hsub Hpath Hbody Hdl Hf Hparts. cbn zeta.
  unfold UpdateTask.handler, Api.claims_sub, Api.path_parameter, Api.json_loads_body,
    UpdateTask.send_update, TableOps.update_item_set.
  rewrite Hsub, Hpath, Hbody. run. rewrite Hdl.
  unfold text_parts in *.
  destruct (body !! "description") as [v1|], (body !! "status") as [v2|];
    cbn in *; try done; rewrite Hf; cbn; eexists; by repeat split.
Qed.

(** X29.  An update that sets the status (or the description) changes that
    attribute only: every other attribute of the stored item, the index
    key GSI1PK among them, is left as it was, so an item whose status a
    user changes keeps the index key it had.  The write carries no
    condition on the current status. *)
Theorem update_of_status_keeps_index_key
    lib env event body user_id task_id status it w :
  Api.sub event = Some user_id →
  Api.path_task_id event = Some task_id →
  Api.json_body event = Some body →
  body !! "deadline" = None →
  body !! "status" = Some status →
  ddb_fault env = None →
  let key := ("USER#" +:+ user_id, "TASK#" +:+ task_id) in
  table w !! key = Some it →
  ∃ it' w',
    UpdateTask.handler lib env event w = (inr (Api.respond 200 (Api.JsonItem it')), w') ∧
    table w' !! key = Some it' ∧
    it' !! "status" = Some status ∧
    it' !! "GSI1PK" = it !! "GSI1PK" ∧
    (∀ a, a ≠ "status" → a ≠ "description" → it' !! a = it !! a) ∧
    (∀ other, other ≠ key → table w' !! other = table w !! other).
Proof.
  intros Hsub Hpath Hbody Hdl Hst Hf. cbn zeta. intros Hit.
  destruct (update_without_deadline event body user_id task_id w env lib)
    as (w' & Hrun & Ht & _); try done.
  { unfold text_parts. rewrite Hst. destruct (body !! "description"); cbn; done. }
  rewrite Hit in Hrun, Ht. cbn in Hrun, Ht.
  eexists _, w'. split; [done|]. rewrite Ht. split_and!.
  - apply lookup_insert_eq.
  - rewrite lookup_text_parts. cbn. by rewrite Hst.
  - by rewrite lookup_text_parts.
  - intros a Ha1 Ha2. rewrite lookup_text_parts.
    by rewrite !decide_False.
  - intros other Hother. by apply lookup_insert_ne.
Qed.

Lemma update_of_status_keeps_index_key_witness :
  let key := ("USER#" +:+ "u1", "TASK#" +:+ "t1") in
  let it := Samples.item "Pending" Samples.d2030 in
  ∃ it' w',
    UpdateTask.handler ApiSamples.lib Samples.env
      (ApiSamples.request {[ "status" := "Completed" ]}) Samples.pending_world =
      (inr (Api.respond 200 (Api.JsonItem it')), w') ∧
    table w' !! key = Some it' ∧
    it' !! "status" = Some "Completed" ∧
    it' !! "GSI1PK" = it !! "GSI1PK" ∧
    (∀ a, a ≠ "status" → a ≠ "description" → it' !! a = it !! a) ∧
    (∀ other, other ≠ key →
              table w' !! other = table Samples.pending_world !! other).
Proof.
  apply (update_of_status_keeps_index_key ApiSamples.lib Samples.env
           (ApiSamples.request {[ "status" := "Completed" ]})
           {[ "status" := "Completed" ]} "u1" "t1" "Completed"
           (Samples.item "Pending" Samples.d2030) Samples.pending_world);
    reflexivity.
Defined.

(** X30.  Updating a task that does not exist succeeds and creates an item
    holding the key and the updated attributes only.  The Insert record
    of that item then fails in the stream processor, which finds a task
    sort key but no taskId. *)
Theorem update_of_missing_task_feeds_a_failing_record
    lib dt env event body user_id task_id event_id old w :
  Api.sub event = Some user_id →
  Api.path_task_id event = Some task_id →
  Api.json_body event = Some body →
  body !! "deadline" = None →
  is_Some (body !! "status") ∨ is_Some (body !! "description") →
  ddb_fault env = None →
  let key := ("USER#" +:+ user_id, "TASK#" +:+ task_id) in
  table w !! key = None →
  ∃ stub w',
    UpdateTask.handler lib env event w =
      (inr (Api.respond 200 (Api.JsonItem stub)), w') ∧
    table w' !! key = Some stub ∧
    stub !! "taskId" = None ∧
    (Processor.process_record dt env
       (message event_id "INSERT" (Some (image_of stub)) old) w').1
      = inl (KeyError "taskId").
Proof.
  intros Hsub Hpath Hbody Hdl Hsome Hf. cbn zeta. intros Hnone.
  destruct (update_without_deadline event body user_id task_id w env lib)
    as (w' & Hrun & Ht & _); try done.
  { unfold text_parts.
    destruct Hsome as [[v Hv]|[v Hv]]; rewrite Hv.
    - by destruct (body !! "description").
    - by destruct (body !! "status"). }
  rewrite Hnone in Hrun, Ht. cbn in Hrun, Ht.
  eexists _, w'. split; [done|]. rewrite Ht.
  set (stub := TableOps.apply_set _ _).
  assert (stub !! "taskId" = None ∧ stub !! "SK" = Some ("TASK#" +:+ task_id))
    as [Hid Hsk].
  { unfold stub. rewrite !lookup_text_parts. cbn. split; by simplify_map_eq. }
  clearbody stub. split_and!.
  - apply lookup_insert_eq.
  - done.
  - rewrite process_insert_eq. run.
    unfold Processor.dispatch.
    rewrite (dispatch_task_item _ ("TASK#" +:+ task_id)).
    + unfold getitem. rewrite (task_view_image_of stub "taskId"), Hid; [done|].
      rewrite !elem_of_cons. tauto.
    + rewrite (task_view_image_of stub "SK"); [done|]. rewrite !elem_of_cons. tauto.
    + apply prefix_app.
Qed.

Lemma update_of_missing_task_feeds_a_failing_record_witness :
  let key := ("USER#" +:+ "u1", "TASK#" +:+ "t1") in
  ∃ stub w',
    UpdateTask.handler ApiSamples.lib Samples.env
      (ApiSamples.request {[ "status" := "Completed" ]}) Samples.empty_world =
      (inr (Api.respond 200 (Api.JsonItem stub)), w') ∧
    table w' !! key = Some stub ∧
    stub !! "taskId" = None ∧
    (Processor.process_record Samples.clock Samples.env
       (message (Some "e1") "INSERT" (Some (image_of stub)) None) w').1
      = inl (KeyError "taskId").
Proof.
  apply (update_of_missing_task_feeds_a_failing_record ApiSamples.lib Samples.clock
           Samples.env (ApiSamples.request {[ "status" := "Completed" ]})
           {[ "status" := "Completed" ]} "u1" "t1" (Some "e1") None
           Samples.empty_world);
    try reflexivity. left. by eexists.
Defined.

(** An update request that names none of description, status and
    deadline is answered with 400, and one whose deadline is not an ISO
    date likewise; neither writes to the table. *)
Theorem update_rejects_invalid_request lib env event body user_id task_id w :
  Api.sub event = Some user_id →
  Api.path_task_id event = Some task_id →
  Api.json_body event = Some body →
  (body !! "description" = None ∧ body !! "status" = None ∧ body !! "deadline" = None) ∨
  (∃ deadline, body !! "deadline" = Some deadline ∧
               UpdateTask.format_deadline lib deadline = None) →
  ∃ message w',
    UpdateTask.handler lib env event w =
      (inr (Api.respond 400 (Api.JsonMessage message)), w') ∧
    same_services w w'.
Proof.
  intros Hsub Hpath Hbody Hbad.
  unfold UpdateTask.handler, Api.claims_sub, Api.path_parameter, Api.json_loads_body,
    UpdateTask.send_update.
  rewrite Hsub, Hpath, Hbody. run.
  destruct Hbad as [(-> & -> & ->) | (deadline & -> & Hfmt)].
  - cbn. eexists _, _. split; [done|]. by repeat split.
  - cbn. rewrite Hfmt. cbn. eexists _, _. split; [done|]. by repeat split.
Qed.

Lemma update_rejects_invalid_request_witness :
  ∃ message w',
    UpdateTask.handler ApiSamples.lib Samples.env (ApiSamples.request ∅)
      Samples.pending_world =
      (inr (Api.respond 400 (Api.JsonMessage message)), w') ∧
    same_services Samples.pending_world w'.
Proof.
  apply (update_rejects_invalid_request ApiSamples.lib Samples.env
           (ApiSamples.request ∅) ∅ "u1" "t1" Samples.pending_world);
    try reflexivity. left. by split_and!.
Defined.

(** update_task.py, delete_task.py and get_tasks.py never raise: every
    invocation ends in a response that carries the CORS headers. *)
Theorem request_handlers_always_answer lib env rq event w :
  (∃ resp w', UpdateTask.handler lib env event w = (inr resp, w') ∧
              Api.http_headers resp = Api.cors_headers) ∧
  (∃ resp w', DeleteTask.handler env event w = (inr resp, w') ∧
              Api.http_headers resp = Api.cors_headers) ∧
  (∃ resp w', GetTasks.handler env rq event w = (inr resp, w') ∧
              Api.http_headers resp = Api.cors_headers ∧ same_services w w').
Proof.
  split_and!.
  - unfold UpdateTask.handler, Api.claims_sub, Api.path_parameter,
      Api.json_loads_body, UpdateTask.send_update, TableOps.update_item_set.
    run. repeat (case_match; simplify_eq/=); by eexists _, _.
  - unfold DeleteTask.handler, Api.claims_sub, Api.path_parameter,
      TableOps.delete_item_if_sk.
    run. repeat (case_match; simplify_eq/=); by eexists _, _.
  - unfold GetTasks.handler, Api.claims_sub, TableOps.query_begins_with.
    run. repeat (case_match; simplify_eq/=); eexists _, _; by repeat split.
Qed.
